(** * gravitorch: loop orchestration and metric bookkeeping

    A shallow embedding of the meters, the generic history, the batch
    loading timer, the periodic condition and the vanilla training loop
    of gravitorch, with the properties stated about them.

    Python values are embedded as follows: [int] is [Z] (unbounded),
    [float] is the kernel's binary64 [float] (what CPython's float is),
    exceptions are the [Raise] branch of [result], a [dict] with string
    keys is a [gmap string _], and a [collections.deque] with [maxlen] is
    a list together with its bound. *)

From Stdlib Require Import ZArith Floats Permutation.
From stdpp Require Import gmap strings list sorting.

Local Open Scope Z_scope.

(** ** Python exceptions and the builtin arithmetic the code relies on *)

Module Py.

Inductive exn : Type :=
| EmptyMeterError
| EmptyHistoryError
| ValueError
| KeyError
| TypeError
| ZeroDivisionError
| OverflowError.

Inductive result (A : Type) : Type :=
| Ok (a : A)
| Raise (e : exn).

Arguments Ok {A} a.
Arguments Raise {A} e.

#[global] Instance result_ret : MRet result := fun A a => Ok a.

#[global] Instance result_bind : MBind result := fun A B f c =>
  match c with
  | Ok a => f a
  | Raise e => Raise e
  end.

Definition is_ok {A} (c : result A) : bool :=
  match c with Ok _ => true | Raise _ => false end.

(** [float(n)] for an [int] [n]: the nearest binary64 value (ties to
    even); CPython raises [OverflowError] when that value is not finite. *)
Definition float_of_int (n : Z) : result float :=
  let x := SF2Prim (binary_normalize prec emax n 0 false) in
  if PrimFloat.is_infinity x then Raise OverflowError else Ok x.

(** [x / y] on two floats: [ZeroDivisionError] on a zero divisor. *)
Definition truediv (x y : float) : result float :=
  if PrimFloat.is_zero y then Raise ZeroDivisionError else Ok (x / y)%float.

(** [x / n] for a float [x] and an int [n]: [n] is converted first. *)
Definition truediv_int (x : float) (n : Z) : result float :=
  y ← float_of_int n; truediv x y.

(** [x * n] for a float [x] and an int [n]. *)
Definition mul_int (x : float) (n : Z) : result float :=
  y ← float_of_int n; Ok (x * y)%float.

End Py.

Import Py.

(** ** [gravitorch.utils.meters.average.AverageMeter] *)

Module AverageMeter.

Record t : Type := mk { total : float; count : Z }.

(** The state dict ["count" -> _count, "total" -> _total]. *)
Record state : Type := mk_state { st_count : Z; st_total : float }.

(** [AverageMeter()] *)
Definition init : t := mk 0%float 0.

Definition average (m : t) : result float :=
  if count m =? 0 then Raise EmptyMeterError
  else c ← float_of_int (count m); truediv (total m) c.

Definition sum (m : t) : result float :=
  if count m =? 0 then Raise EmptyMeterError else Ok (total m).

Definition clone (m : t) : t := mk (total m) (count m).

Definition merge_step (acc : Z * float) (meter : t) : Z * float :=
  (fst acc + count meter, (snd acc + total meter)%float).

Definition merge (m : t) (meters : list t) : t :=
  let '(count, total) := fold_left merge_step meters (count m, total m) in
  mk total count.

(** [merge_] updates the meter in place while it reads the meters it is
    given, and nothing keeps the meter itself out of them: the meters
    live in a store, under their addresses, and [self] and [meters] are
    addresses.  One turn of the loop runs [self._count += meter.count]
    and then [self._total += meter.total], each reading the store as the
    statement before left it.  [None] stands for an address that holds
    no meter, which no call can pass. *)
Abbreviation store := (gmap nat t) (only parsing).

Definition merge_step_ (self : nat) (σ : store) (meter : nat) : option store :=
  s ← σ !! self; x ← σ !! meter;
  let σ1 := <[self := mk (total s) (count s + count x)]> σ in
  s1 ← σ1 !! self; x1 ← σ1 !! meter;
  Some (<[self := mk (total s1 + total x1)%float (count s1)]> σ1).

Fixpoint merge_ (σ : store) (self : nat) (meters : list nat) : option store :=
  match meters with
  | [] => Some σ
  | meter :: rest => σ' ← merge_step_ self σ meter; merge_ σ' self rest
  end.

Definition load_state_dict (m : t) (state_dict : state) : t :=
  mk (st_total state_dict) (st_count state_dict).

Definition reset (m : t) : t := mk 0%float 0.

Definition state_dict (m : t) : state := mk_state (count m) (total m).

Definition update (m : t) (value : float) (num_examples : Z) : result t :=
  x ← mul_int value num_examples;
  Ok (mk (total m + x)%float (count m + num_examples)).

(** A sequence of [update(value, num_examples)] calls, in order. *)
Fixpoint updates (m : t) (calls : list (float * Z)) : result t :=
  match calls with
  | [] => Ok m
  | (value, num_examples) :: rest =>
      m' ← update m value num_examples; updates m' rest
  end.

(** What the calls are meant to add up to, written from the description
    of the meter and not from [update]: the sum, from the left, of the
    products [value * num_examples], each [num_examples] taken as its
    nearest binary64 number, and the integer sum of [num_examples]. *)
Definition nearest_float (n : Z) : float :=
  SF2Prim (binary_normalize prec emax n 0 false).

Definition product (call : float * Z) : float :=
  (fst call * nearest_float (snd call))%float.

Definition sum_products (acc : float) (calls : list (float * Z)) : float :=
  fold_left (fun s call => (s + product call)%float) calls acc.

Definition sum_examples (calls : list (float * Z)) : Z :=
  fold_right Z.add 0 (map snd calls).

End AverageMeter.

(** The integer sum of the counts of some meters, and the float sum, left
    to right, of some floats added to [acc]. *)
Definition counts (ms : list AverageMeter.t) : Z :=
  foldr Z.add 0 (map AverageMeter.count ms).

Definition float_sum (acc : float) (xs : list float) : float :=
  fold_left (fun s x => (s + x)%float) xs acc.

(** ** [gravitorch.utils.meters.tensor]

    A [torch.Tensor] is seen through its flattened sequence of scalars.
    The reductions torch computes on it ([max], [mean], ...) are
    parameters of the meters that call them. *)

Definition Tensor : Type := list float.

Definition numel (x : Tensor) : Z := Z.of_nat (length x).

(** Modelled from the spec: [LazyFlattedTensor] of gravitorch.utils.tensor
    (its module is not among the sources): the flattened concatenation of
    every tensor it was given; [update] appends, [clear] discards all
    stored values. *)
Module LazyFlattedTensor.

Definition t : Type := Tensor.

Definition make (values : option Tensor) : t :=
  match values with Some x => x | None => [] end.

Definition update (self : t) (tensor : Tensor) : t := self ++ tensor.
Definition clear (self : t) : t := [].
Definition values (self : t) : Tensor := self.
Definition clone (self : t) : t := self.
Definition numel (self : t) : Z := numel self.

End LazyFlattedTensor.

(** The torch reductions the tensor meters call. *)
Class TorchOps : Type := {
  torch_max : Tensor → float;
  torch_min : Tensor → float;
  torch_mean : Tensor → float;
  torch_median : Tensor → float;
  torch_std : Tensor → float;
  torch_sum : Tensor → float;
  scalable_quantile : Tensor → Tensor → string → Tensor;
  (** [coola.objects_are_equal] on two tensors *)
  objects_are_equal : Tensor → Tensor → bool
}.

Module TensorMeter.

Record t : Type := mk {
  count : Z; total : float; min_value : float; max_value : float
}.

Record state : Type := mk_state {
  st_count : Z; st_max_value : float; st_min_value : float; st_total : float
}.

(** [TensorMeter()] *)
Definition init : t := mk 0 0%float infinity neg_infinity.

Definition load_state_dict (m : t) (state_dict : state) : t :=
  mk (st_count state_dict) (st_total state_dict)
     (st_min_value state_dict) (st_max_value state_dict).

Definition state_dict (m : t) : state :=
  mk_state (count m) (max_value m) (min_value m) (total m).

Definition update `{TorchOps} (m : t) (tensor : Tensor) : t :=
  let max_value' :=
    let x := torch_max tensor in
    if (max_value m <? x)%float then x else max_value m in
  let min_value' :=
    let x := torch_min tensor in
    if (x <? min_value m)%float then x else min_value m in
  mk (count m + numel tensor) (total m + torch_sum tensor)%float
     min_value' max_value'.

Definition mean (m : t) : result float :=
  if count m =? 0 then Raise EmptyMeterError
  else c ← float_of_int (count m); truediv (total m) c.

End TensorMeter.

Module TensorMeter2.

Record t : Type := mk { values : LazyFlattedTensor.t; count : Z }.

(** The state dict ["values" -> tensor]. *)
Record state : Type := mk_state { st_values : Tensor }.

(** [TensorMeter2(values)] *)
Definition init (values : option Tensor) : t :=
  let v := LazyFlattedTensor.make values in
  mk v (LazyFlattedTensor.numel v).

Definition reset (m : t) : t := mk (LazyFlattedTensor.clear (values m)) 0.

Definition update (m : t) (tensor : Tensor) : t :=
  mk (LazyFlattedTensor.update (values m) tensor) (count m + numel tensor).

Section accessors.
Context `{TorchOps}.

Definition guarded {A} (m : t) (f : Tensor → A) : result A :=
  if count m =? 0 then Raise EmptyMeterError
  else Ok (f (LazyFlattedTensor.values (values m))).

Definition max (m : t) : result float := guarded m torch_max.
Definition mean (m : t) : result float := guarded m torch_mean.
Definition average (m : t) : result float := mean m.
Definition median (m : t) : result float := guarded m torch_median.
Definition min (m : t) : result float := guarded m torch_min.
Definition quantile (m : t) (q : Tensor) (method : string) : result Tensor :=
  guarded m (fun x => scalable_quantile x q method).
Definition std (m : t) : result float := guarded m torch_std.
Definition sum (m : t) : result float := guarded m torch_sum.

Definition state_dict (m : t) : state :=
  mk_state (LazyFlattedTensor.values (values m)).

Definition equal (m other : t) : bool :=
  objects_are_equal (st_values (state_dict m)) (st_values (state_dict other)).
End accessors.

Definition clone (m : t) : t :=
  init (Some (LazyFlattedTensor.values (LazyFlattedTensor.clone (values m)))).

Definition merge (m : t) (meters : list t) : t :=
  let values :=
    fold_left (fun acc meter =>
                 LazyFlattedTensor.update acc (LazyFlattedTensor.values (values meter)))
              meters (LazyFlattedTensor.clone (values m)) in
  init (Some (LazyFlattedTensor.values values)).

Definition merge_ (m : t) (meters : list t) : t :=
  fold_left (fun self meter =>
               mk (LazyFlattedTensor.update (values self)
                     (LazyFlattedTensor.values (values meter)))
                  (count self))
            meters m.

Definition load_state_dict (m : t) (state_dict : state) : t :=
  mk (LazyFlattedTensor.make (Some (st_values state_dict))) (count m).

End TensorMeter2.

(** ** [collections.deque] with a [maxlen]

    [append] adds on the right and, when the bound is exceeded, drops one
    item on the left; [deque(iterable, maxlen)] appends the items one at a
    time. *)

Module deque.

Section deque.
Context {A : Type}.

Record t : Type := mk { items : list A; maxlen : nat }.

Definition append (d : t) (x : A) : t :=
  let l := items d ++ [x] in
  mk (if (maxlen d <? length l)%nat then tail l else l) (maxlen d).

Definition make (iterable : list A) (maxlen : nat) : t :=
  fold_left append iterable (mk [] maxlen).
End deque.

Arguments t : clear implicits.

End deque.

(** ** [gravitorch.utils.history.generic.GenericHistory] *)

Module GenericHistory.

Section GenericHistory.
(** The type of the values the history stores. *)
Context {T : Type}.

Record t : Type := mk { name : string; history : deque.t (option Z * T) }.

(** [GenericHistory(name, elements, max_size)].  After the guard on
    [max_size], [deque(elements, maxlen=max_size)] refuses a bound that
    does not fit an index of the platform (64 bits here) with
    OverflowError. *)
Definition init (name : string) (elements : list (option Z * T))
    (max_size : Z) : result t :=
  if max_size <=? 0 then Raise ValueError
  else if 2 ^ 63 - 1 <? max_size then Raise OverflowError
  else Ok (mk name (deque.make elements (Z.to_nat max_size))).

Definition max_size (h : t) : Z := Z.of_nat (deque.maxlen (history h)).

Definition add_value (h : t) (value : T) (step : option Z) : t :=
  mk (name h) (deque.append (history h) (step, value)).

Definition get_recent_history (h : t) : list (option Z * T) :=
  deque.items (history h).

Definition is_comparable (h : t) : bool := false.

Definition is_empty (h : t) : bool :=
  match deque.items (history h) with [] => true | _ => false end.

Definition get_last_value (h : t) : result T :=
  if is_empty h then Raise EmptyHistoryError
  else match last (deque.items (history h)) with
       | Some (_, value) => Ok value
       | None => Raise EmptyHistoryError
       end.

Definition state_dict (h : t) : list (option Z * T) := get_recent_history h.

Definition load_state_dict (h : t) (state_dict : list (option Z * T)) : t :=
  mk (name h) (deque.make state_dict (deque.maxlen (history h))).

(** A sequence of [add_value(value, step)] calls, in order. *)
Definition add_values (h : t) (calls : list (T * option Z)) : t :=
  fold_left (fun h c => add_value h (fst c) (snd c)) calls h.
End GenericHistory.

Arguments t : clear implicits.

End GenericHistory.

(** The last [k] items of a list. *)
Definition lastn {A} (k : nat) (l : list A) : list A := drop (length l - k) l.

(** The pair [add_value(value, step)] stores. *)
Definition stored {T} (c : T * option Z) : option Z * T := (snd c, fst c).

(** ** [gravitorch.utils.events.PeriodicCondition] *)

Module PeriodicCondition.

(** Modelled from the spec: the class [PeriodicCondition] (the module
    gravitorch/utils/events/conditions.py is not among the sources; its
    unit tests are).  The spec: "a pure counter starting at call 0, true
    exactly every freq-th call (1-indexed: calls 1, freq+1, 2*freq+1, ...)",
    "it increments an internal counter on every invocation", and a
    non-positive frequency is a configuration error.  The value the call
    tests is the counter before the increment: that is the reading the
    expected outputs of test_periodic_condition_freq_1/2/3 agree with. *)
Record t : Type := mk { freq : Z; step : Z }.

Definition init (freq : Z) : result t :=
  if freq <? 1 then Raise ValueError else Ok (mk freq 0).

(** [condition()] : the answer and the condition after the call. *)
Definition call (c : t) : bool * t :=
  (step c mod freq c =? 0, mk (freq c) (step c + 1)).

(** [[condition() for _ in range(n)]] *)
Fixpoint calls (c : t) (n : nat) : list bool :=
  match n with
  | O => []
  | S n' => let '(b, c') := call c in b :: calls c' n'
  end.

(** The answer of the [k]-th call (counted from 1) on a new condition. *)
Definition nth_call (freq : Z) (k : nat) : option bool :=
  match init freq with
  | Ok c => calls c k !! (k - 1)%nat
  | Raise _ => None
  end.

(** The reading of the spec's sentence "returns true exactly when
    counter % freq == 0, counter starting at 1 on first call", taken
    literally: the counter is incremented, then tested. *)
Definition call_counter_from_one (c : t) : bool * t :=
  let c' := mk (freq c) (step c + 1) in
  (step c' mod freq c' =? 0, c').

Fixpoint calls_counter_from_one (c : t) (n : nat) : list bool :=
  match n with
  | O => []
  | S n' => let '(b, c') := call_counter_from_one c in
            b :: calls_counter_from_one c' n'
  end.

End PeriodicCondition.

(** ** Python values held in configuration and statistics dicts *)

Inductive PyVal : Type :=
| PyNone
| PyBool (b : bool)
| PyInt (n : Z)
| PyFloat (x : float)
| PyStr (s : string).

(** [v == s] for a string literal [s]. *)
Definition eq_str (v : PyVal) (s : string) : bool :=
  match v with
  | PyStr s' => String.eqb s' s
  | _ => false
  end.

(** ** [gravitorch.utils.format] *)

(** [gravitorch.utils.format.human_time(seconds)], which is
    [str(datetime.timedelta(seconds=seconds))]; of the string only the
    fact that it is returned is kept.  [timedelta] refuses NaN with
    ValueError, and with OverflowError an infinite number of seconds and
    one that amounts to more than 999999999 days on either side: from
    86400e9 seconds on, and below -999999999 days. *)
Definition human_time (seconds : float) : result unit :=
  if PrimFloat.is_nan seconds then Raise ValueError
  else if PrimFloat.is_infinity seconds then Raise OverflowError
  else if (86400000000000 <=? seconds)%float then Raise OverflowError
  else if (seconds <? -86399999913600)%float then Raise OverflowError
  else Ok tt.

(** ** [gravitorch.utils.timing.BatchLoadingTimer] *)

(** [ScalarMeter] of gravitorch.utils.meters (its module is not among the
    sources) is a parameter of the timer: the operations the timer calls. *)
Class ScalarMeterOps (M : Type) : Type := {
  sm_new : Z → M;                      (* ScalarMeter(max_size=...) *)
  sm_update : M → float → M;
  sm_count : M → Z;
  sm_average : M → result float;
  sm_max : M → result float;
  sm_median : M → result float;
  sm_min : M → result float;
  sm_std : M → result float
}.

Module BatchLoadingTimer.

Definition BATCH_LOAD_TIME_AVG_MS : string := "batch_load_time_avg_ms".
Definition BATCH_LOAD_TIME_MAX_MS : string := "batch_load_time_max_ms".
Definition BATCH_LOAD_TIME_MEDIAN_MS : string := "batch_load_time_median_ms".
Definition BATCH_LOAD_TIME_MIN_MS : string := "batch_load_time_min_ms".
Definition BATCH_LOAD_TIME_PCT : string := "batch_load_time_pct".
Definition BATCH_LOAD_TIME_STDDEV_MS : string := "batch_load_time_stddev_ms".
Definition EPOCH_TIME_SEC : string := "epoch_time_sec".
Definition ITER_TIME_AVG_MS : string := "iter_time_avg_ms".
Definition NUM_BATCHES : string := "num_batches".

(** The nine keys the docstring of [get_stats] lists. *)
Definition documented_keys : list string :=
  [ BATCH_LOAD_TIME_AVG_MS; BATCH_LOAD_TIME_MAX_MS; BATCH_LOAD_TIME_MEDIAN_MS;
    BATCH_LOAD_TIME_MIN_MS; BATCH_LOAD_TIME_PCT; BATCH_LOAD_TIME_STDDEV_MS;
    ITER_TIME_AVG_MS; EPOCH_TIME_SEC; NUM_BATCHES ].

(** What [log_stats] does to the outside, in program order. *)
Inductive effect : Type :=
| LoggerInfo
| EngineLogMetrics (metrics : gmap string PyVal) (epoch_step : Z).

Section BatchLoadingTimer.
Context {M : Type} `{ScalarMeterOps M}.

Record t : Type := mk {
  epoch : Z;
  prefix : string;
  meter : M;
  start_time : option float;
  end_time : option float
}.

(** [BatchLoadingTimer(batch_loader, epoch, prefix)] *)
Definition init (epoch : Z) (prefix : string) : t :=
  mk epoch prefix (sm_new 100) None None.

(** [__iter__] is a generator.  [sync_perf_counter()] reads the clock:
    its successive readings are inputs.  [iter_start] runs the body up to
    the loop, [iter_batch] runs it from the arrival of a batch to the
    [yield] ([tic] is the reading taken when the consumer resumed the
    generator, [now] the one taken when the batch arrived), and
    [iter_stop] runs the statement after the loop. *)
Definition iter_start (self : t) (now : float) : t :=
  mk (epoch self) (prefix self) (meter self) (Some now) (end_time self).

Definition iter_batch (self : t) (tic now : float) : t :=
  mk (epoch self) (prefix self) (sm_update (meter self) (now - tic)%float)
     (start_time self) (end_time self).

Definition iter_stop (self : t) (now : float) : t :=
  mk (epoch self) (prefix self) (meter self) (start_time self) (Some now).

(** One pass over the batches, run to exhaustion: [start] is the first
    reading, each batch comes with the reading at its arrival and the
    reading when the consumer is done with it, [stop] is the last one. *)
Fixpoint iter_batches (self : t) (tic : float)
    (readings : list (float * float)) : t :=
  match readings with
  | [] => self
  | (arrived, resumed) :: rest =>
      iter_batches (iter_batch self tic arrived) resumed rest
  end.

Definition iterate (self : t) (start : float)
    (readings : list (float * float)) (stop : float) : t :=
  iter_stop (iter_batches (iter_start self start) start readings) stop.

(** [a - b] on two optional floats: [TypeError] when one is [None]. *)
Definition sub_opt (a b : option float) : result float :=
  match a, b with
  | Some x, Some y => Ok (x - y)%float
  | _, _ => Raise TypeError
  end.

Definition get_stats (self : t) : result (gmap string PyVal) :=
  if sm_count (meter self) =? 0 then Ok ∅
  else
    epoch_time_sec ← sub_opt (end_time self) (start_time self);
    iter_time_avg_ms ←
      truediv_int (1000 * epoch_time_sec)%float (sm_count (meter self));
    average ← sm_average (meter self);
    let batch_load_avg_ms := (1000 * average)%float in
    max ← sm_max (meter self);
    median ← sm_median (meter self);
    min ← sm_min (meter self);
    pct ← truediv (100 * batch_load_avg_ms)%float iter_time_avg_ms;
    std ← sm_std (meter self);
    Ok (<[BATCH_LOAD_TIME_AVG_MS := PyFloat batch_load_avg_ms]>
       (<[BATCH_LOAD_TIME_MAX_MS := PyFloat (1000 * max)%float]>
       (<[BATCH_LOAD_TIME_MEDIAN_MS := PyFloat (1000 * median)%float]>
       (<[BATCH_LOAD_TIME_MIN_MS := PyFloat (1000 * min)%float]>
       (<[BATCH_LOAD_TIME_PCT := PyFloat pct]>
       (<[BATCH_LOAD_TIME_STDDEV_MS := PyFloat (1000 * std)%float]>
       (<[ITER_TIME_AVG_MS := PyFloat iter_time_avg_ms]>
       (<[EPOCH_TIME_SEC := PyFloat epoch_time_sec]>
       (<[NUM_BATCHES := PyInt (sm_count (meter self))]> ∅))))))))).

(** The average iteration time [get_stats] computes first. *)
Definition iter_time_avg_ms (self : t) : result float :=
  epoch_time_sec ← sub_opt (end_time self) (start_time self);
  truediv_int (1000 * epoch_time_sec)%float (sm_count (meter self)).

(** The five read accessors of the meter that [get_stats] calls return. *)
Definition readable (m : M) : Prop :=
  is_ok (sm_average m) = true ∧ is_ok (sm_max m) = true ∧
  is_ok (sm_median m) = true ∧ is_ok (sm_min m) = true ∧
  is_ok (sm_std m) = true.

(** [{f"{prefix}{key}": value for key, value in stats.items()}] *)
Definition prefixed (prefix : string) (stats : gmap string PyVal)
    : gmap string PyVal :=
  kmap (M1 := gmap string) (M2 := gmap string) (String.append prefix) stats.

(** [stats[key]], read as the float that [get_stats] stores under the
    keys of the times: KeyError when the key is missing. *)
Definition item (stats : gmap string PyVal) (key : string) : result float :=
  match stats !! key with
  | Some (PyFloat x) => Ok x
  | Some _ => Raise TypeError
  | None => Raise KeyError
  end.

(** [log_stats(engine)]: [engine] tells whether an engine was given.  The
    epoch time is formatted first, through [human_time] when it exceeds
    ten seconds; the other statistics are formatted by f-strings, which
    accept every float. *)
Definition log_stats (self : t) (engine : bool) : result (list effect) :=
  if sm_count (meter self) =? 0 then Ok []
  else
    stats ← get_stats self;
    epoch_time_sec ← item stats EPOCH_TIME_SEC;
    _ ← (if (10 <? epoch_time_sec)%float then human_time epoch_time_sec
         else Ok tt);
    Ok ([LoggerInfo; LoggerInfo] ++
        (if engine
         then [EngineLogMetrics (prefixed (prefix self) stats) (epoch self)]
         else [])).
End BatchLoadingTimer.

Arguments t : clear implicits.

End BatchLoadingTimer.

(** ** [gravitorch.loops.training]: the vanilla training loop *)

Inductive EngineEvents : Type :=
| TRAIN_EPOCH_STARTED
| TRAIN_EPOCH_COMPLETED
| TRAIN_ITERATION_STARTED
| TRAIN_FORWARD_COMPLETED
| TRAIN_BACKWARD_COMPLETED
| TRAIN_ITERATION_COMPLETED.

(** The two clipping functions a configuration can name. *)
Inductive ClipGradFn : Type :=
| clip_grad_value_
| clip_grad_norm_.

#[global] Instance EngineEvents_eq_dec : EqDecision EngineEvents.
Proof. solve_decision. Defined.

Module VanillaTrainingLoop.

(** The calls [_train_one_batch] makes on its collaborators (engine,
    optimizer, model, logger, loss tensor), in program order. *)
Inductive effect : Type :=
| FireEvent (event : EngineEvents)          (* engine.fire_event(event) *)
| ZeroGrad (set_to_none : bool)             (* optimizer.zero_grad(...) *)
| DevicePlacementSend                       (* batch_device_placement.send(batch) *)
| Forward                                   (* model(batch) *)
| LoggerWarning                             (* logger.warning(...) *)
| Backward                                  (* loss.backward() *)
| ClipGrad (fn : ClipGradFn) (args : list PyVal)
| OptimizerStep.                            (* optimizer.step() *)

(** Computations that call collaborators: the calls made so far are
    threaded through. *)
Definition M (A : Type) : Type := list effect → A * list effect.

#[global] Instance M_ret : MRet M := fun A a log => (a, log).
#[global] Instance M_bind : MBind M := fun A B f c log =>
  let '(a, log') := c log in f a log'.

Definition emit (e : effect) : M unit := fun log => (tt, log ++ [e]).

(** The result and the calls of a computation started with no call made. *)
Definition run {A} (c : M A) : A * list effect := c [].

Record t : Type := mk {
  tag : string;
  clip_grad_fn : option ClipGradFn;
  clip_grad_args : list PyVal;
  set_grad_to_none : bool
}.

(** [clip_grad.get(key, default)] *)
Definition get (clip_grad : gmap string PyVal) (key : string)
    (default : PyVal) : PyVal :=
  match clip_grad !! key with Some v => v | None => default end.

Definition _setup_clip_grad (clip_grad : gmap string PyVal)
    : result (option ClipGradFn * list PyVal) :=
  if decide (clip_grad = ∅) then Ok (None, [])
  else
    match clip_grad !! "name"%string with
    | None => Raise KeyError
    | Some name =>
        if eq_str name "clip_grad_value" then
          Ok (Some clip_grad_value_,
              [get clip_grad "clip_value" (PyFloat 0.25)])
        else if eq_str name "clip_grad_norm" then
          Ok (Some clip_grad_norm_,
              [get clip_grad "max_norm" (PyInt 1);
               get clip_grad "norm_type" (PyInt 2)])
        else Raise ValueError
    end.

(** [clip_grad or {}] *)
Definition or_empty (clip_grad : option (gmap string PyVal))
    : gmap string PyVal :=
  match clip_grad with
  | Some d => if decide (d = ∅) then ∅ else d
  | None => ∅
  end.

(** [VanillaTrainingLoop(set_grad_to_none, tag, clip_grad)], through
    [BaseBasicTrainingLoop.__init__]. *)
Definition init (set_grad_to_none : bool) (tag : string)
    (clip_grad : option (gmap string PyVal)) : result t :=
  '(fn, args) ← _setup_clip_grad (or_empty clip_grad);
  Ok (mk tag fn args set_grad_to_none).

Section train_one_batch.
(** The batches, the outputs of the model, the model's forward pass and
    [torch.isnan(output[ct.LOSS])]. *)
Context {Batch Output : Type}.
Variable model : Batch → Output.
Variable loss_isnan : Output → bool.

Definition _train_one_batch (self : t) (batch : Batch) : M Output :=
  emit (FireEvent TRAIN_ITERATION_STARTED);;
  emit (ZeroGrad (set_grad_to_none self));;
  emit DevicePlacementSend;;
  emit Forward;;
  let output := model batch in
  emit (FireEvent TRAIN_FORWARD_COMPLETED);;
  if loss_isnan output then
    emit LoggerWarning;;
    emit (FireEvent TRAIN_ITERATION_COMPLETED);;
    mret output
  else
    emit Backward;;
    match clip_grad_fn self with
    | Some fn => emit (ClipGrad fn (clip_grad_args self))
    | None => mret tt
    end;;
    emit (FireEvent TRAIN_BACKWARD_COMPLETED);;
    emit OptimizerStep;;
    emit (FireEvent TRAIN_ITERATION_COMPLETED);;
    mret output.
End train_one_batch.

(** The call of the configured clipping function, if one is configured. *)
Definition clip_calls (self : t) : list effect :=
  match clip_grad_fn self with
  | Some fn => [ClipGrad fn (clip_grad_args self)]
  | None => []
  end.

(** The events fired among the calls, in order. *)
Definition fired (log : list effect) : list EngineEvents :=
  omap (fun e => match e with FireEvent ev => Some ev | _ => None end) log.

(** The position of the first occurrence of a call satisfying [p]. *)
Fixpoint position (p : effect → bool) (log : list effect) : option nat :=
  match log with
  | [] => None
  | e :: rest => if p e then Some O else S <$> position p rest
  end.

Definition is_clip (e : effect) : bool :=
  match e with ClipGrad _ _ => true | _ => false end.
Definition is_backward (e : effect) : bool :=
  match e with Backward => true | _ => false end.
Definition is_step (e : effect) : bool :=
  match e with OptimizerStep => true | _ => false end.
Definition is_fire (ev : EngineEvents) (e : effect) : bool :=
  match e with FireEvent ev' => bool_decide (ev' = ev) | _ => false end.

(** [p] occurs in the log, and before every occurrence of [q]. *)
Definition before (p q : effect → bool) (log : list effect) : Prop :=
  ∃ i, position p log = Some i ∧
       ∀ j, position q log = Some j → (i < j)%nat.

End VanillaTrainingLoop.

(** [gravitorch.loops.training.accelerate.AccelerateTrainingLoop]: the
    same calls, the backward pass going through the accelerator. *)
Module AccelerateTrainingLoop.

Import VanillaTrainingLoop.

Section train_one_batch.
Context {Batch Output : Type}.
Variable model : Batch → Output.
Variable loss_isnan : Output → bool.

Definition _train_one_batch (self : t) (batch : Batch) : M Output :=
  emit (FireEvent TRAIN_ITERATION_STARTED);;
  emit (ZeroGrad (set_grad_to_none self));;
  emit Forward;;
  let output := model batch in
  emit (FireEvent TRAIN_FORWARD_COMPLETED);;
  (if negb (loss_isnan output) then emit Backward else emit LoggerWarning);;
  match clip_grad_fn self with
  | Some fn => emit (ClipGrad fn (clip_grad_args self))
  | None => mret tt
  end;;
  emit (FireEvent TRAIN_BACKWARD_COMPLETED);;
  emit OptimizerStep;;
  emit (FireEvent TRAIN_ITERATION_COMPLETED);;
  mret output.
End train_one_batch.

End AccelerateTrainingLoop.

(** ** A scalar meter to run the timer with *)

Module ScalarMeter.

(** Modelled from the spec: [ScalarMeter] of gravitorch.utils.meters (its
    module is not among the sources): "a bounded recent-window meter" of
    scalars that keeps the count, the total and the extrema of everything
    it was given and the last [max_size] values; "every read accessor on
    an empty meter ([count == 0]) fails with an EmptyMeterError".  The
    median (the lower one) and the standard deviation (the unbiased one)
    are those of the window, computed here in binary64. *)
Record t : Type := mk {
  total : float;
  count : Z;
  min_value : float;
  max_value : float;
  values : deque.t float
}.

Definition init (max_size : Z) : t :=
  mk 0%float 0 infinity neg_infinity (deque.make [] (Z.to_nat max_size)).

Definition update (m : t) (value : float) : t :=
  mk (total m + value)%float (count m + 1)
     (if (value <? min_value m)%float then value else min_value m)
     (if (max_value m <? value)%float then value else max_value m)
     (deque.append (values m) value).

Definition guarded (m : t) (x : float) : result float :=
  if count m =? 0 then Raise EmptyMeterError else Ok x.

Definition average (m : t) : result float :=
  if count m =? 0 then Raise EmptyMeterError
  else truediv_int (total m) (count m).

Definition max (m : t) : result float := guarded m (max_value m).
Definition min (m : t) : result float := guarded m (min_value m).

Definition fsum (l : list float) : float :=
  fold_left (fun acc x => (acc + x)%float) l 0%float.

Definition flen (l : list float) : float :=
  PrimFloat.of_uint63 (Uint63.of_Z (Z.of_nat (length l))).

Definition float_le (x y : float) : Prop := (x <=? y)%float = true.

#[global] Instance float_le_dec : RelDecision float_le.
Proof. intros x y. unfold float_le. apply _. Defined.

Definition lower_median (l : list float) : float :=
  let sorted := merge_sort float_le l in
  nth ((length l - 1) / 2)%nat sorted nan.

Definition sample_std (l : list float) : float :=
  let mean := (fsum l / flen l)%float in
  let squares := map (fun x => ((x - mean) * (x - mean))%float) l in
  PrimFloat.sqrt (fsum squares / (flen l - 1))%float.

Definition median (m : t) : result float :=
  guarded m (lower_median (deque.items (values m))).

Definition std (m : t) : result float :=
  guarded m (sample_std (deque.items (values m))).

#[global] Instance ops : ScalarMeterOps t := {
  sm_new := init;
  sm_update := update;
  sm_count := count;
  sm_average := average;
  sm_max := max;
  sm_median := median;
  sm_min := min;
  sm_std := std
}.

End ScalarMeter.

(** ** [gravitorch.utils.meters.moving_average] *)

Module MovingAverage.

Record t : Type := mk { _deque : deque.t float }.

(** The state dict ["values" -> tuple, "window_size" -> int]. *)
Record state : Type := mk_state { st_values : list float; st_window_size : Z }.

(** [deque(values, maxlen=window_size)]: deque refuses a negative bound
    with ValueError, and a bound that does not fit an index of the
    platform (64 bits here) with OverflowError. *)
Definition make_deque (values : list float) (window_size : Z)
    : result (deque.t float) :=
  if window_size <? 0 then Raise ValueError
  else if 2 ^ 63 - 1 <? window_size then Raise OverflowError
  else Ok (deque.make values (Z.to_nat window_size)).

(** [MovingAverage(values, window_size)] *)
Definition init (values : list float) (window_size : Z) : result t :=
  d ← make_deque values window_size; Ok (mk d).

Definition values (m : t) : list float := deque.items (_deque m).

Definition window_size (m : t) : Z := Z.of_nat (deque.maxlen (_deque m)).

Definition clone (m : t) : result t := init (values m) (window_size m).

Definition load_state_dict (m : t) (state_dict : state) : result t :=
  d ← make_deque (st_values state_dict) (st_window_size state_dict); Ok (mk d).

Definition reset (m : t) : t := mk (deque.mk [] (deque.maxlen (_deque m))).

Definition smoothed_average `{TorchOps} (m : t) : result float :=
  match deque.items (_deque m) with
  | [] => Raise EmptyMeterError
  | _ :: _ => Ok (torch_mean (values m))
  end.

Definition state_dict (m : t) : state := mk_state (values m) (window_size m).

Definition update (m : t) (value : float) : t :=
  mk (deque.append (_deque m) value).

(** A sequence of [update(value)] calls, in order. *)
Definition updates (m : t) (vs : list float) : t := fold_left update vs m.

End MovingAverage.

Module ExponentialMovingAverage.

Record t : Type := mk { alpha : float; count : Z; _smoothed_average : float }.

Record state : Type := mk_state {
  st_alpha : float; st_count : Z; st_smoothed_average : float
}.

(** [ExponentialMovingAverage(alpha, count, smoothed_average)] *)
Definition init (alpha : float) (count : Z) (smoothed_average : float) : t :=
  mk alpha count smoothed_average.

Definition clone (m : t) : t := init (alpha m) (count m) (_smoothed_average m).

Definition load_state_dict (m : t) (state_dict : state) : t :=
  mk (st_alpha state_dict) (st_count state_dict)
     (st_smoothed_average state_dict).

Definition reset (m : t) : t := mk (alpha m) 0 0%float.

Definition smoothed_average (m : t) : result float :=
  if count m =? 0 then Raise EmptyMeterError else Ok (_smoothed_average m).

Definition state_dict (m : t) : state :=
  mk_state (alpha m) (count m) (_smoothed_average m).

Definition update (m : t) (value : float) : t :=
  mk (alpha m) (count m + 1)
     (alpha m * _smoothed_average m + (1 - alpha m) * value)%float.

Definition updates (m : t) (vs : list float) : t := fold_left update vs m.

(** The recurrence the updates compute, from [acc] on. *)
Definition smoothing (alpha acc : float) (vs : list float) : float :=
  fold_left (fun s v => (alpha * s + (1 - alpha) * v)%float) vs acc.

End ExponentialMovingAverage.

(** ** [gravitorch.utils.history.comparator], on floats *)

Module MaxScalarComparator.
Definition get_initial_best_value : float := neg_infinity.
Definition is_better (old_value new_value : float) : bool :=
  (old_value <=? new_value)%float.
End MaxScalarComparator.

Module MinScalarComparator.
Definition get_initial_best_value : float := infinity.
Definition is_better (old_value new_value : float) : bool :=
  (new_value <=? old_value)%float.
End MinScalarComparator.

(** ** [gravitorch.handlers.utils] *)

(** The two operations of the engine (gravitorch.engines, not among the
    sources) that [add_unique_event_handler] calls. *)
Class EngineOps (E H : Type) : Type := {
  has_event_handler : E → H → string → bool;
  add_event_handler : E → string → H → E
}.

Module handlers.

(** [add_unique_event_handler(engine, event, event_handler)]: the engine
    after the call (each branch also writes a line to the logger). *)
Definition add_unique_event_handler {E H : Type} `{EngineOps E H}
    (engine : E) (event : string) (event_handler : H) : E :=
  if has_event_handler engine event_handler event then engine
  else add_event_handler engine event event_handler.

(** The argument of [to_events]: a string, or a tuple or list of strings. *)
Inductive events_arg : Type :=
| EventsStr (event : string)
| EventsSeq (events : list string).

Definition to_events (events : events_arg) : list string :=
  match events with
  | EventsStr event => [event]
  | EventsSeq events => events
  end.

(** An engine that keeps, per event, the handlers added, in order; a
    handler is found when an equal one was added to the event. *)
#[global] Instance registry_engine : EngineOps (gmap string (list nat)) nat := {
  has_event_handler engine handler event :=
    bool_decide (handler ∈ default [] (engine !! event));
  add_event_handler engine event handler :=
    <[event := default [] (engine !! event) ++ [handler]]> engine
}.

End handlers.

(** ** [gravitorch.utils.seed.RandomSeedSetter]: the registry of setters *)

Module RandomSeedSetter.

Section registry.
(** The random seed setters. *)
Context {S : Type}.

Definition has_setter (registry : gmap string S) (name : string) : bool :=
  bool_decide (is_Some (registry !! name)).

Definition add_setter (registry : gmap string S) (name : string) (setter : S)
    (exist_ok : bool) : result (gmap string S) :=
  if has_setter registry name && negb exist_ok then Raise ValueError
  else Ok (<[name := setter]> registry).
End registry.

End RandomSeedSetter.

(** ** [gravitorch.loops.training.basic.BaseBasicTrainingLoop]: an epoch *)

Module BaseBasicTrainingLoop.

(** What the loop reads of the engine before the batches: the random
    seed, the epoch, the number of epochs, and whether the engine has a
    history of the loss. *)
Record engine_state : Type := mk_engine {
  random_seed : Z;
  epoch : Z;
  max_epochs : Z;
  has_loss_history : bool
}.

(** The calls [train] makes on its collaborators, in program order. *)
Inductive call : Type :=
| Barrier                                  (* dist.barrier() *)
| LoggerInfo                               (* logger.info(...) *)
| ManualSeed (seed : Z)                    (* manual_seed(seed) *)
| ModelTrain                               (* engine.model.train() *)
| HasHistory (name : string)               (* engine.has_history(name) *)
| AddHistory (name : string)               (* engine.add_history(MinScalarHistory(name)) *)
| ShowOptimizerParameters
| LogOptimizerParameters (epoch : Z) (prefix : string)
| FireEvent (event : EngineEvents)         (* engine.fire_event(event) *)
| PrepareModelOptimizerDataLoader
| ObserverStart
| ObserverUpdate
| ObserverEnd
| ProfilerEnter
| ProfilerStep
| ProfilerExit
| IncrementIteration                       (* engine.increment_iteration() *)
| TrainOneBatch (calls : list VanillaTrainingLoop.effect)
| MetricsUpdate                            (* metrics.update(output) *)
| StdoutFlush
| TimerLog (e : BatchLoadingTimer.effect)  (* what data_loader.log_stats does *)
| MetricsLogAverageValue (prefix : string).

(** The argument of the inner [get_random_seed] in [_prepare_training]. *)
Definition seed_argument (engine : engine_state) (rank : Z) : Z :=
  random_seed engine + epoch engine + max_epochs engine * rank.

Section train.
(** The batches, the outputs, the meter of the timer; the name of the
    loss (gravitorch.constants.LOSS), [get_random_seed] (a draw of
    torch's generator), the rank of the process ([dist.get_rank()]) and
    the [_train_one_batch] of the loop, whose result on a batch may
    depend on the batches before it: it is given the number of the
    iteration. *)
Context {Batch Output M : Type} `{ScalarMeterOps M}.
Variable LOSS : string.
Variable get_random_seed : Z → Z.
Variable rank : Z.
Variable _train_one_batch : nat → Batch → VanillaTrainingLoop.M Output.

Definition loss_name (self : VanillaTrainingLoop.t) : string :=
  VanillaTrainingLoop.tag self +:+ "/" +:+ LOSS.

Definition _prepare_training (self : VanillaTrainingLoop.t)
    (engine : engine_state) : list call :=
  [LoggerInfo;
   ManualSeed (get_random_seed (get_random_seed (seed_argument engine rank)));
   ModelTrain;
   HasHistory (loss_name self)]
  ++ (if has_loss_history engine then [] else [AddHistory (loss_name self)])
  ++ [ShowOptimizerParameters;
      LogOptimizerParameters (epoch engine) (VanillaTrainingLoop.tag self +:+ "/")].

(** The body of the loop over the batches, for one batch. *)
Definition batch_calls (iteration : nat) (batch : Batch) : list call :=
  [IncrementIteration;
   TrainOneBatch (snd (VanillaTrainingLoop.run (_train_one_batch iteration batch)));
   MetricsUpdate; ObserverUpdate; ProfilerStep].

Fixpoint batches_calls (iteration : nat) (batches : list Batch) : list call :=
  match batches with
  | [] => []
  | batch :: rest => batch_calls iteration batch ++ batches_calls (S iteration) rest
  end.

(** The calls of [_train_one_batch] on the batches, one trace a batch. *)
Fixpoint batches_traces (iteration : nat) (batches : list Batch)
    : list (list VanillaTrainingLoop.effect) :=
  match batches with
  | [] => []
  | batch :: rest =>
      snd (VanillaTrainingLoop.run (_train_one_batch iteration batch))
      :: batches_traces (S iteration) rest
  end.

(** [train(engine)]: the calls made and the exception raised, if any.
    The batches come with the two clock readings the timer takes for
    each; [start] and [stop] are its first and last readings. *)
Definition train (self : VanillaTrainingLoop.t) (engine : engine_state)
    (start : float) (batches : list (Batch * (float * float))) (stop : float)
    : list call * option exn :=
  let data_loader :=
    BatchLoadingTimer.iterate
      (BatchLoadingTimer.init (M := M) (epoch engine)
         (VanillaTrainingLoop.tag self +:+ "/"))
      start (map snd batches) stop in
  let calls :=
    [Barrier] ++ _prepare_training self engine
    ++ [FireEvent TRAIN_EPOCH_STARTED; PrepareModelOptimizerDataLoader;
        ObserverStart; Barrier; ProfilerEnter]
    ++ batches_calls 0 (map fst batches)
    ++ [ProfilerExit; StdoutFlush; Barrier; ObserverEnd] in
  match BatchLoadingTimer.log_stats data_loader true with
  | Ok effects =>
      (calls ++ map TimerLog effects
       ++ [MetricsLogAverageValue (VanillaTrainingLoop.tag self +:+ "/");
           Barrier; FireEvent TRAIN_EPOCH_COMPLETED; Barrier],
       None)
  | Raise e => (calls, Some e)
  end.
End train.

(** The events fired, the traces of the batches, and the number of
    calls satisfying a test, among the calls of an epoch. *)
Definition fired (calls : list call) : list EngineEvents :=
  omap (fun c => match c with FireEvent ev => Some ev | _ => None end) calls.

Definition batch_traces (calls : list call)
    : list (list VanillaTrainingLoop.effect) :=
  omap (fun c => match c with TrainOneBatch t => Some t | _ => None end) calls.


Definition count (p : call → bool) (calls : list call) : nat :=
  length (List.filter p calls).

Definition is_barrier (c : call) : bool :=
  match c with Barrier => true | _ => false end.
Definition is_increment (c : call) : bool :=
  match c with IncrementIteration => true | _ => false end.
Definition is_add_history (c : call) : bool :=
  match c with AddHistory _ => true | _ => false end.
Definition is_timer_log (c : call) : bool :=
  match c with TimerLog _ => true | _ => false end.

End BaseBasicTrainingLoop.

(** The number of batches whose loss is not NaN, the model at iteration
    [i] being [model i]. *)
Fixpoint finite_losses {Batch Output : Type} (model : nat → Batch → Output)
    (loss_isnan : Output → bool) (iteration : nat) (batches : list Batch) : nat :=
  match batches with
  | [] => 0
  | batch :: rest =>
      ((if loss_isnan (model iteration batch) then 0 else 1)
       + finite_losses model loss_isnan (S iteration) rest)%nat
  end.

(** The number of optimizer steps among the traces of some batches. *)
Definition optimizer_steps (traces : list (list VanillaTrainingLoop.effect))
    : nat :=
  length (List.filter VanillaTrainingLoop.is_step (concat traces)).

(** ** Notions the statements below use *)

(** The load times the timer gives its meter over a pass: for each batch,
    the reading at its arrival minus the reading taken when the consumer
    resumed the generator (the start reading for the first batch). *)
Fixpoint load_times (tic : float) (readings : list (float * float))
    : list float :=
  match readings with
  | [] => []
  | (arrived, resumed) :: rest => (arrived - tic)%float :: load_times resumed rest
  end.

(** The [TensorMeter2] meters that the constructor and the methods that
    return or update a meter produce, [merge_] and [load_state_dict]
    apart. *)
Inductive TensorMeter2_built : TensorMeter2.t → Prop :=
| built_init values : TensorMeter2_built (TensorMeter2.init values)
| built_update m tensor :
    TensorMeter2_built m → TensorMeter2_built (TensorMeter2.update m tensor)
| built_reset m : TensorMeter2_built m → TensorMeter2_built (TensorMeter2.reset m)
| built_clone m : TensorMeter2_built (TensorMeter2.clone m)
| built_merge m meters : TensorMeter2_built (TensorMeter2.merge m meters).

(** The histories made by the constructor, [add_value] and
    [load_state_dict]. *)
Inductive GenericHistory_built {T : Type} : GenericHistory.t T → Prop :=
| history_init name elements max_size h :
    GenericHistory.init name elements max_size = Ok h →
    GenericHistory_built h
| history_add_value h value step :
    GenericHistory_built h →
    GenericHistory_built (GenericHistory.add_value h value step)
| history_load_state_dict h state_dict :
    GenericHistory_built h →
    GenericHistory_built (GenericHistory.load_state_dict h state_dict).

(** * Properties *)

(** ** Shared lemmas *)

Lemma result_bind_Ok {A B} (f : A → result B) (a : A) :
  (Ok a ≫= f) = f a.
Proof. reflexivity. Qed.

Lemma result_bind_inv {A B} (f : A → result B) (c : result A) (b : B) :
  (c ≫= f) = Ok b → ∃ a, c = Ok a ∧ f a = Ok b.
Proof. destruct c as [a|e]; simpl; [eauto | discriminate]. Qed.

(** Addition of binary64 floats is commutative. *)
Lemma SFadd_comm (x y : spec_float) :
  SFadd prec emax x y = SFadd prec emax y x.
Proof.
  destruct x as [[]|[]| |sx mx ex], y as [[]|[]| |sy my ey];
    try reflexivity.
  unfold SFadd. rewrite (Z.min_comm ey ex). f_equal. apply Z.add_comm.
Qed.

Lemma float_add_comm (x y : float) : (x + y = y + x)%float.
Proof.
  apply Prim2SF_inj. rewrite !add_spec. apply SFadd_comm.
Qed.

(** ** The conversion of an [int] to a [float]

    [float(n)] rounds [n] to the nearest binary64 number.  The lemmas
    below follow the rounding of the specification of the floats on an
    integer mantissa, to tell when [float(n)] returns and that it is
    zero for [n = 0] only. *)

Section float_of_int_facts.

(** [digits2_pos p] is the number of bits of [p]. *)
Lemma digits2_pos_bounds (p : positive) :
  2 ^ (Z.pos (digits2_pos p) - 1) ≤ Z.pos p < 2 ^ Z.pos (digits2_pos p).
Proof.
  induction p as [p IH|p IH|]; simpl digits2_pos.
  - rewrite Pos2Z.inj_succ.
    replace (Z.succ (Z.pos (digits2_pos p)) - 1) with (Z.succ (Z.pos (digits2_pos p) - 1)) by lia.
    rewrite !Z.pow_succ_r by lia. lia.
  - rewrite Pos2Z.inj_succ.
    replace (Z.succ (Z.pos (digits2_pos p)) - 1) with (Z.succ (Z.pos (digits2_pos p) - 1)) by lia.
    rewrite !Z.pow_succ_r by lia. lia.
  - simpl. lia.
Qed.

Lemma digits2_pos_unique (p : positive) (k : Z) :
  2 ^ (k - 1) ≤ Z.pos p < 2 ^ k → Z.pos (digits2_pos p) = k.
Proof.
  intros [Hlo Hhi]. pose proof (digits2_pos_bounds p) as [Dlo Dhi].
  assert (0 < k).
  { destruct (Z.lt_ge_cases 0 k) as [?|Hk]; [assumption|].
    destruct (Z.eq_dec k 0) as [->|?]; [simpl in Hhi; lia|].
    rewrite Z.pow_neg_r in Hhi by lia. lia. }
  assert (Z.pos (digits2_pos p) - 1 < k).
  { apply (Z.pow_lt_mono_r_iff 2); lia. }
  assert (k - 1 < Z.pos (digits2_pos p)).
  { apply (Z.pow_lt_mono_r_iff 2); lia. }
  lia.
Qed.

(** Shifting a mantissa to the left. *)
Lemma iter_xO_value (d : positive) (p : positive) :
  Z.pos (Pos.iter xO p d) = Z.pos p * 2 ^ Z.pos d.
Proof.
  revert p. induction d as [|d IH] using Pos.peano_ind; intros p.
  - simpl. lia.
  - rewrite Pos.iter_succ, Pos2Z.inj_succ, Z.pow_succ_r by lia.
    rewrite Pos2Z.inj_xO, IH. lia.
Qed.

(** Shifting a mantissa to the right by one bit and by [k] bits: what
    is left of the mantissa, and the last bit shifted out. *)
Lemma shr_1_m (mrs : shr_record) :
  0 ≤ shr_m mrs → shr_m (shr_1 mrs) = shr_m mrs / 2.
Proof.
  destruct mrs as [[|[p|p|]|p] r s]; simpl; intros Hm.
  - reflexivity.
  - apply (Z.div_unique _ _ _ 1); lia.
  - apply (Z.div_unique _ _ _ 0); lia.
  - reflexivity.
  - lia.
Qed.

Lemma shr_1_nonneg (mrs : shr_record) : 0 ≤ shr_m mrs → 0 ≤ shr_m (shr_1 mrs).
Proof. intros Hm. rewrite shr_1_m by exact Hm. apply Z.div_pos; lia. Qed.

Lemma iter_pos_shr_1_m (k : positive) (mrs : shr_record) :
  0 ≤ shr_m mrs →
  0 ≤ shr_m (SpecFloat.iter_pos shr_1 k mrs) ∧
  shr_m (SpecFloat.iter_pos shr_1 k mrs) = shr_m mrs / 2 ^ Z.pos k.
Proof.
  revert mrs. induction k as [k IH|k IH|]; intros mrs Hm; simpl SpecFloat.iter_pos.
  - destruct (IH (shr_1 mrs) (shr_1_nonneg mrs Hm)) as [H1 E1].
    destruct (IH _ H1) as [H2 E2].
    split; [exact H2|]. rewrite E2, E1, shr_1_m by exact Hm.
    replace (Z.pos k~1) with (1 + Z.pos k + Z.pos k) by lia.
    rewrite !Z.pow_add_r by lia. rewrite !Z.div_div by lia.
    f_equal. change (2 ^ 1) with 2. lia.
  - destruct (IH mrs Hm) as [H1 E1].
    destruct (IH _ H1) as [H2 E2].
    split; [exact H2|]. rewrite E2, E1.
    replace (Z.pos k~0) with (Z.pos k + Z.pos k) by lia.
    rewrite Z.pow_add_r by lia. rewrite Z.div_div by lia. reflexivity.
  - split; [apply shr_1_nonneg, Hm|]. rewrite shr_1_m by exact Hm. reflexivity.
Qed.

Lemma shr_1_r (mrs : shr_record) :
  0 ≤ shr_m mrs → shr_r (shr_1 mrs) = Z.testbit (shr_m mrs) 0.
Proof. destruct mrs as [[|[p|p|]|p] r s]; simpl; intros Hm; [reflexivity..|lia]. Qed.

Lemma iter_pos_shr_1_r (k : positive) (mrs : shr_record) :
  0 ≤ shr_m mrs →
  shr_r (SpecFloat.iter_pos shr_1 k mrs) = Z.testbit (shr_m mrs) (Z.pos k - 1).
Proof.
  revert mrs. induction k as [k IH|k IH|]; intros mrs Hm; simpl SpecFloat.iter_pos.
  - destruct (iter_pos_shr_1_m k (shr_1 mrs) (shr_1_nonneg mrs Hm)) as [H1 E1].
    rewrite IH, E1, shr_1_m by assumption.
    rewrite Z.div_div by lia. rewrite <- (Z.pow_add_r 2 1) by lia.
    rewrite Z.div_pow2_bits by lia. f_equal. lia.
  - destruct (iter_pos_shr_1_m k mrs Hm) as [H1 E1].
    rewrite IH, E1 by assumption.
    rewrite Z.div_pow2_bits by lia. f_equal. lia.
  - apply shr_1_r, Hm.
Qed.

(** Bringing a mantissa of at least 53 bits down to 53 bits. *)
Lemma shr_fexp_int (p : positive) (e : Z) :
  53 ≤ Z.pos (digits2_pos p) → -1021 ≤ Z.pos (digits2_pos p) + e →
  ∃ mrs, shr_fexp prec emax (Z.pos p) e loc_Exact
         = (mrs, e + (Z.pos (digits2_pos p) - 53)) ∧
         shr_m mrs = Z.pos p / 2 ^ (Z.pos (digits2_pos p) - 53) ∧
         2 ^ 52 ≤ shr_m mrs < 2 ^ 53 ∧
         (shr_r mrs = true →
          53 < Z.pos (digits2_pos p) ∧
          Z.testbit (Z.pos p) (Z.pos (digits2_pos p) - 54) = true) ∧
         (shr_r mrs = false →
          53 < Z.pos (digits2_pos p) →
          Z.testbit (Z.pos p) (Z.pos (digits2_pos p) - 54) = false).
Proof.
  intros Hd He. pose proof (digits2_pos_bounds p) as [Dlo Dhi].
  remember (Z.pos (digits2_pos p)) as d eqn:Ed.
  assert (Hq : 2 ^ 52 ≤ Z.pos p / 2 ^ (d - 53) < 2 ^ 53).
  { assert (0 < 2 ^ (d - 53)) by (apply Z.pow_pos_nonneg; lia).
    split.
    - apply Z.div_le_lower_bound; [lia|].
      rewrite <- Z.pow_add_r by lia.
      replace (d - 53 + 52) with (d - 1) by lia. exact Dlo.
    - apply Z.div_lt_upper_bound; [lia|].
      rewrite <- Z.pow_add_r by lia.
      replace (d - 53 + 53) with d by lia. exact Dhi. }
  unfold shr_fexp. simpl Zdigits2. rewrite <- Ed.
  unfold fexp, emin, prec, emax.
  rewrite Z.max_l by lia.
  replace (d + e - 53 - e) with (d - 53) by lia.
  unfold shr, shr_record_of_loc.
  destruct (d - 53) as [|k|k] eqn:Hk; [| |lia].
  - eexists. split; [f_equal; lia|]. simpl shr_m. simpl shr_r.
    rewrite Z.div_1_r in Hq. rewrite Z.div_1_r.
    split; [reflexivity|]. split; [exact Hq|]. split; [discriminate | lia].
  - destruct (iter_pos_shr_1_m k (Build_shr_record (Z.pos p) false false))
      as [_ Hm]; [simpl; lia|].
    pose proof (iter_pos_shr_1_r k (Build_shr_record (Z.pos p) false false)) as Hr.
    simpl shr_m in Hm, Hr.
    replace (Z.pos k - 1) with (d - 54) in Hr by lia.
    eexists. split; [reflexivity|]. rewrite Hm, Hr by lia.
    split; [reflexivity|]. split; [exact Hq|].
    split; [intros Ht; split; [lia | exact Ht] | intros Ht _; exact Ht].
Qed.

(** Rounding an integer mantissa of at least 53 bits to binary64. *)
Lemma binary_round_aux_int (sx : bool) (p : positive) (e : Z) :
  53 ≤ Z.pos (digits2_pos p) → -1021 ≤ Z.pos (digits2_pos p) + e →
  ∃ q : Z,
    let m1 := Z.pos p / 2 ^ (Z.pos (digits2_pos p) - 53) in
    let e'' := e + (Z.pos (digits2_pos p) - 53) + (if q <? 2 ^ 53 then 0 else 1) in
    m1 ≤ q ≤ m1 + 1 ∧
    (q = m1 + 1 →
     53 < Z.pos (digits2_pos p) ∧
     Z.testbit (Z.pos p) (Z.pos (digits2_pos p) - 54) = true) ∧
    (53 < Z.pos (digits2_pos p) →
     Z.testbit (Z.pos p) (Z.pos (digits2_pos p) - 54) = true →
     Z.odd m1 = true → q = m1 + 1) ∧
    (e'' ≤ 971 →
     ∃ m, binary_round_aux prec emax sx (Z.pos p) e loc_Exact = S754_finite sx m e'' ∧
          bounded prec emax m e'' = true) ∧
    (971 < e'' →
     binary_round_aux prec emax sx (Z.pos p) e loc_Exact = S754_infinity sx).
Proof.
  intros Hd He. unfold binary_round_aux.
  destruct (shr_fexp_int p e Hd He) as (mrs & -> & Hm & Hb & Hrt & Hrf).
  remember (Z.pos (digits2_pos p)) as d eqn:Ed.
  remember (round_nearest_even (shr_m mrs) (loc_of_shr_record mrs)) as q eqn:Eq.
  exists q. cbv zeta. rewrite <- Hm.
  assert (Hr : shr_m mrs ≤ q ≤ shr_m mrs + 1).
  { subst q. unfold round_nearest_even.
    destruct (loc_of_shr_record mrs) as [|[]]; try destruct (Z.even _); lia. }
  split; [exact Hr|]. split; [|split].
  - intros Hq. apply Hrt. subst q. unfold round_nearest_even, loc_of_shr_record in Hq.
    destruct mrs as [m [] []]; simpl in *; try reflexivity; lia.
  - intros Hlt Hbit Hodd. subst q.
    destruct (shr_r mrs) eqn:Er; [|rewrite (Hrf eq_refl Hlt) in Hbit; discriminate].
    unfold round_nearest_even, loc_of_shr_record.
    destruct mrs as [m r []]; simpl in *; subst r; [reflexivity|].
    rewrite <- Z.negb_odd, Hodd. reflexivity.
  - destruct q as [|q|q]; [lia| |lia].
    assert (Hdq : Z.pos (digits2_pos q) - 53 = if Z.pos q <? 2 ^ 53 then 0 else 1).
    { destruct (Z.ltb_spec (Z.pos q) (2 ^ 53)).
      - rewrite (digits2_pos_unique q 53); [reflexivity|]. change (53 - 1) with 52. lia.
      - rewrite (digits2_pos_unique q 54); [reflexivity|]. change (54 - 1) with 53.
        change (2 ^ 54) with (2 * 2 ^ 53). lia. }
    destruct (shr_fexp_int q (e + (d - 53))) as (mrs2 & -> & Hm2 & Hb2 & _);
      [destruct (Z.pos q <? 2 ^ 53); lia..|].
    rewrite Hdq.
    destruct (shr_m mrs2) as [|m|m] eqn:Hs; [lia| |lia].
    assert (Hdm : Z.pos (digits2_pos m) = 53).
    { apply digits2_pos_unique. change (53 - 1) with 52. exact Hb2. }
    split.
    + intros Hle. exists m.
      destruct (Z.leb_spec (e + (d - 53) + (if Z.pos q <? 2 ^ 53 then 0 else 1))
                  (emax - prec)) as [_|Hgt]; [|unfold prec, emax in Hgt; lia].
      split; [reflexivity|].
      unfold bounded, canonical_mantissa. rewrite Hdm.
      unfold fexp, emin, prec, emax in *.
      destruct (Z.pos q <? 2 ^ 53);
        (rewrite Z.max_l by lia;
         apply andb_true_intro; split; [apply Z.eqb_eq; lia | apply Z.leb_le; lia]).
    + intros Hgt.
      destruct (Z.leb_spec (e + (d - 53) + (if Z.pos q <? 2 ^ 53 then 0 else 1))
                  (emax - prec)) as [Hle|_]; [unfold prec, emax in Hle; lia|].
      reflexivity.
Qed.
(** The binary64 number nearest to a positive integer: finite below
    [2^1024 - 2^970], the first integer that rounds up to [2^1024], and
    infinite from there on. *)
Lemma binary_round_int (sx : bool) (p : positive) :
  (Z.pos p < 2 ^ 1024 - 2 ^ 970 →
   ∃ m e, binary_round prec emax sx p 0 = S754_finite sx m e ∧
          bounded prec emax m e = true) ∧
  (2 ^ 1024 - 2 ^ 970 ≤ Z.pos p →
   binary_round prec emax sx p 0 = S754_infinity sx).
Proof.
  pose proof (digits2_pos_bounds p) as [Dlo Dhi].
  pose proof (binary_round_aux_int sx p 0) as Haux.
  unfold binary_round, shl_align.
  cbv zeta in Haux.
  remember (Z.pos (digits2_pos p)) as d eqn:Ed.
  assert (0 < d) by lia.
  assert (T1 : 2 ^ 1023 < 2 ^ 1024 - 2 ^ 970).
  { change (2 ^ 1024) with (2 * 2 ^ 1023).
    assert (2 ^ 970 < 2 ^ 1023) by (apply Z.pow_lt_mono_r; lia). lia. }
  assert (T2 : 2 ^ 1024 - 2 ^ 970 < 2 ^ 1024).
  { assert (0 < 2 ^ 970) by (apply Z.pow_pos_nonneg; lia). lia. }
  unfold fexp, emin, prec, emax. rewrite Z.max_l by lia.
  replace (d + 0 - 53 - 0) with (d - 53) by lia.
  destruct (Z.le_gt_cases d 53) as [Hsmall|Hbig].
  - (* at most 53 bits: the conversion is exact *)
    assert (Hp : Z.pos p < 2 ^ 1023).
    { eapply Z.lt_le_trans; [exact Dhi|]. apply Z.pow_le_mono_r; lia. }
    split; [intros _ | lia].
    destruct (d - 53) as [|k|k] eqn:Hk; [|lia|].
    + destruct Haux as (q & Hq & _ & _ & Hfin & _); [lia..|].
      destruct Hfin as [m Hm]; [destruct (q <? 2 ^ 53); lia|].
      eauto.
    + assert (Hdz : Z.pos (digits2_pos (Pos.iter xO p k)) = 53).
      { apply digits2_pos_unique. rewrite iter_xO_value.
        replace (Z.pos k) with (53 - d) by lia.
        change (53 - 1) with 52.
        replace (2 ^ 52) with (2 ^ (d - 1) * 2 ^ (53 - d))
          by (rewrite <- Z.pow_add_r by lia; f_equal; lia).
        replace (2 ^ 53) with (2 ^ d * 2 ^ (53 - d))
          by (rewrite <- Z.pow_add_r by lia; f_equal; lia).
        assert (0 < 2 ^ (53 - d)) by (apply Z.pow_pos_nonneg; lia).
        split; [apply Z.mul_le_mono_nonneg_r; lia | apply Z.mul_lt_mono_pos_r; lia]. }
      replace (d + 0 - 53) with (d - 53) by lia.
      pose proof (binary_round_aux_int sx (Pos.iter xO p k) (d - 53)) as Haux2.
      cbv zeta in Haux2. rewrite Hdz in Haux2.
      destruct Haux2 as (q & Hq & _ & _ & Hfin & _); [lia..|].
      destruct Hfin as [m Hm]; [destruct (q <? 2 ^ 53); lia|]. eauto.
  - (* more than 53 bits: the low bits are rounded away *)
    destruct (d - 53) as [|k|k] eqn:Hk; [lia| |lia]. rewrite <- Hk in *. clear Hk k.
    destruct Haux as (q & Hq & Hup & Hodd & Hfin & Hinf); [lia..|].
    destruct (Z.lt_trichotomy d 1024) as [Hlt|[Heq|Hgt]].
    + assert (Hp : Z.pos p < 2 ^ 1023).
      { eapply Z.lt_le_trans; [exact Dhi|]. apply Z.pow_le_mono_r; lia. }
      split; [intros _ | lia].
      destruct Hfin as [m Hm]; [destruct (q <? 2 ^ 53); lia|]. eauto.
    + rewrite Heq in *.
      change (1024 - 53) with 971 in *. change (1024 - 54) with 970 in *.
      change (1024 - 1) with 1023 in *.
      set (u := Z.pos p / 2 ^ 970).
      assert (P970 : 0 < 2 ^ 970) by (apply Z.pow_pos_nonneg; lia).
      assert (Hu : Z.pos p / 2 ^ 971 = u / 2).
      { unfold u. rewrite Z.div_div by lia. reflexivity. }
      assert (Hu1 : 2 ^ 970 * u ≤ Z.pos p < 2 ^ 970 * (u + 1)).
      { unfold u. split; [apply Z.mul_div_le; lia|].
        rewrite Z.mul_add_distr_l, Z.mul_1_r.
        pose proof (Z.div_mod (Z.pos p) (2 ^ 970) ltac:(lia)).
        pose proof (Z.mod_pos_bound (Z.pos p) (2 ^ 970) ltac:(lia)). lia. }
      assert (E1024 : 2 ^ 1024 = 2 ^ 970 * 2 ^ 54)
        by (rewrite <- Z.pow_add_r by lia; reflexivity).
      assert (E54 : 2 ^ 54 = 2 * 2 ^ 53) by reflexivity.
      assert (Hu2 : u < 2 ^ 54) by nia.
      assert (Hbit : Z.testbit (Z.pos p) 970 = Z.odd u).
      { unfold u. rewrite <- (Z.add_0_l 970) at 1.
        rewrite <- Z.div_pow2_bits by lia. apply Z.bit0_odd. }
      rewrite Hu in *. rewrite Hbit in *.
      pose proof (Z.div_mod u 2 ltac:(lia)) as Hdm.
      pose proof (Z.mod_pos_bound u 2 ltac:(lia)) as Hmb.
      assert (Hob : Z.b2z (Z.odd u) = u mod 2)
        by (rewrite <- Z.bit0_odd; apply Z.bit0_mod).
      split.
      * intros Hp.
        destruct Hfin as [m Hm]; [|eauto].
        destruct (Z.ltb_spec q (2 ^ 53)); [lia|].
        assert (q = u / 2 + 1) as Hq1 by lia.
        destruct (Hup Hq1) as [_ Hb]. rewrite Hb in Hob. simpl in Hob. nia.
      * intros Hp.
        assert (Hu3 : u = 2 ^ 54 - 1) by nia.
        assert (Hq1 : q = u / 2 + 1).
        { apply Hodd; [lia| |]; rewrite Hu3; reflexivity. }
        apply Hinf.
        destruct (Z.ltb_spec q (2 ^ 53)); [|lia].
        rewrite Hu3 in Hq1. change ((2 ^ 54 - 1) / 2 + 1) with (2 ^ 53) in Hq1. lia.
    + assert (Hp : 2 ^ 1024 ≤ Z.pos p).
      { eapply Z.le_trans; [|exact Dlo]. apply Z.pow_le_mono_r; lia. }
      split; [lia | intros _].
      apply Hinf. destruct (q <? 2 ^ 53); lia.
Qed.

(** A finite float is neither infinite nor zero. *)
Lemma SF2Prim_finite (s : bool) (m : positive) (e : Z) :
  bounded prec emax m e = true →
  PrimFloat.is_infinity (SF2Prim (S754_finite s m e)) = false ∧
  PrimFloat.is_zero (SF2Prim (S754_finite s m e)) = false.
Proof.
  intros Hb. unfold PrimFloat.is_infinity, PrimFloat.is_zero.
  rewrite !FloatAxioms.eqb_spec, abs_spec, Prim2SF_SF2Prim by exact Hb.
  destruct s; split; reflexivity.
Qed.

(** [float(n)] returns exactly when [|n| < 2^1024 - 2^970]; it returns
    the number nearest to [n], which is not zero unless [n] is. *)
Lemma float_of_int_spec (n : Z) :
  (Z.abs n < 2 ^ 1024 - 2 ^ 970 →
   float_of_int n = Ok (AverageMeter.nearest_float n) ∧
   (n ≠ 0 → PrimFloat.is_zero (AverageMeter.nearest_float n) = false)) ∧
  (2 ^ 1024 - 2 ^ 970 ≤ Z.abs n → float_of_int n = Raise OverflowError).
Proof.
  unfold float_of_int, AverageMeter.nearest_float.
  destruct n as [|p|p]; simpl binary_normalize.
  - split; [intros _; split; [reflexivity | intros Hn; contradiction]|].
    intros Hn. exfalso. revert Hn. apply Z.lt_nge. reflexivity.
  - destruct (binary_round_int false p) as [Hf Hi]. split.
    + intros Hn. destruct (Hf Hn) as (m & e & -> & Hb).
      destruct (SF2Prim_finite false m e Hb) as [-> Hz].
      split; [reflexivity | intros _; exact Hz].
    + intros Hn. rewrite (Hi Hn). reflexivity.
  - destruct (binary_round_int true p) as [Hf Hi]. split.
    + intros Hn. destruct (Hf Hn) as (m & e & -> & Hb).
      destruct (SF2Prim_finite true m e Hb) as [-> Hz].
      split; [reflexivity | intros _; exact Hz].
    + intros Hn. rewrite (Hi Hn). reflexivity.
Qed.

Lemma float_of_int_Ok (n : Z) (c : float) :
  float_of_int n = Ok c → c = AverageMeter.nearest_float n.
Proof.
  unfold float_of_int, AverageMeter.nearest_float.
  destruct (PrimFloat.is_infinity _); [discriminate|].
  intros Hc. injection Hc as <-. reflexivity.
Qed.
End float_of_int_facts.

(** ** AverageMeter *)

Section AverageMeter_facts.
Import AverageMeter.

Lemma sum_products_cons (acc : float) (call : float * Z) (calls : list (float * Z)) :
  sum_products acc (call :: calls) = sum_products (acc + product call)%float calls.
Proof. reflexivity. Qed.

Lemma update_Ok (m m' : t) (value : float) (n : Z) :
  update m value n = Ok m' →
  total m' = (total m + product (value, n))%float ∧ count m' = count m + n.
Proof.
  unfold update, mul_int. intros Hup.
  apply result_bind_inv in Hup as (x & Hx & Hm).
  apply result_bind_inv in Hx as (y & Hy & Hx).
  apply float_of_int_Ok in Hy. injection Hx as <-. injection Hm as <-.
  subst y. split; reflexivity.
Qed.

Lemma updates_total_count (calls : list (float * Z)) (m0 m : t) :
  updates m0 calls = Ok m →
  total m = sum_products (total m0) calls ∧
  count m = count m0 + sum_examples calls.
Proof.
  revert m0. induction calls as [|[value n] rest IH]; intros m0 Hrun.
  - injection Hrun as <-. split; [reflexivity | unfold sum_examples; simpl; lia].
  - simpl in Hrun. apply result_bind_inv in Hrun as (m1 & Hup & Hrest).
    apply update_Ok in Hup as [Htot1 Hcnt1].
    apply IH in Hrest as [Htot Hcnt].
    split.
    + rewrite sum_products_cons, <- Htot1. exact Htot.
    + rewrite Hcnt, Hcnt1. unfold sum_examples. simpl. lia.
Qed.

(** The calls all return as soon as every [num_examples] converts to a
    float. *)
Lemma updates_returns (calls : list (float * Z)) (m0 : t) :
  Forall (fun call => Z.abs (snd call) < 2 ^ 1024 - 2 ^ 970) calls →
  ∃ m, updates m0 calls = Ok m.
Proof.
  revert m0. induction calls as [|[value n] rest IH]; intros m0 Hall.
  - eexists. reflexivity.
  - inversion Hall as [|? ? Hn Hrest]; subst. simpl in Hn.
    simpl. unfold update, mul_int.
    destruct (proj1 (float_of_int_spec n) Hn) as [-> _]. simpl.
    apply IH, Hrest.
Qed.

Lemma average_returns (m : t) :
  0 < count m < 2 ^ 1024 - 2 ^ 970 →
  average m = Ok (total m / nearest_float (count m))%float ∧ sum m = Ok (total m).
Proof.
  intros Hc. unfold average, sum.
  destruct (Z.eqb_spec (count m) 0) as [Hz|Hnz]; [lia|].
  destruct (proj1 (float_of_int_spec (count m))) as [-> Hzero]; [lia|].
  split; [|reflexivity].
  simpl. unfold truediv. rewrite (Hzero Hnz). reflexivity.
Qed.

Lemma average_overflows (m : t) :
  2 ^ 1024 - 2 ^ 970 ≤ count m → average m = Raise OverflowError.
Proof.
  intros Hc. unfold average.
  assert (0 < 2 ^ 1024 - 2 ^ 970) by reflexivity.
  destruct (Z.eqb_spec (count m) 0) as [Hz|Hnz]; [lia|].
  rewrite (proj2 (float_of_int_spec (count m))) by lia. reflexivity.
Qed.

Lemma average_empty (m : t) :
  count m = 0 → average m = Raise EmptyMeterError ∧ sum m = Raise EmptyMeterError.
Proof. intros Hc. unfold average, sum. rewrite Hc. split; reflexivity. Qed.
End AverageMeter_facts.

(** C4, as the code has it.  [update(value, num_examples)] returns
    whenever [num_examples] converts to a float, that is for
    [|num_examples| < 2^1024 - 2^970].  After any sequence of such calls
    [total] is the sum, from the left, of the products
    [value * num_examples] and [count] the sum of [num_examples].  When
    [0 < count < 2^1024 - 2^970], [average()] returns exactly
    [total / count], the quotient of the floats [total] and
    [float(count)], and [sum()] returns [total]; from
    [count = 2^1024 - 2^970] on, [float(count)] overflows and [average()]
    raises OverflowError; when [count] is zero, [average()] and [sum()]
    raise EmptyMeterError. *)
Theorem AverageMeter_average_is_total_over_count
    (calls : list (float * Z)) (m0 : AverageMeter.t) :
  Forall (fun call => Z.abs (snd call) < 2 ^ 1024 - 2 ^ 970) calls →
  ∃ m,
    AverageMeter.updates m0 calls = Ok m ∧
    AverageMeter.total m
      = AverageMeter.sum_products (AverageMeter.total m0) calls ∧
    AverageMeter.count m
      = AverageMeter.count m0 + AverageMeter.sum_examples calls ∧
    (0 < AverageMeter.count m < 2 ^ 1024 - 2 ^ 970 →
       AverageMeter.average m
         = Ok (AverageMeter.total m
               / AverageMeter.nearest_float (AverageMeter.count m))%float ∧
       AverageMeter.sum m = Ok (AverageMeter.total m)) ∧
    (2 ^ 1024 - 2 ^ 970 ≤ AverageMeter.count m →
       AverageMeter.average m = Raise OverflowError) ∧
    (AverageMeter.count m = 0 →
       AverageMeter.average m = Raise EmptyMeterError ∧
       AverageMeter.sum m = Raise EmptyMeterError).
Proof.
  intros Hconv.
  destruct (updates_returns calls m0 Hconv) as [m Hrun].
  exists m. split; [exact Hrun|].
  destruct (updates_total_count calls m0 m Hrun) as [Htot Hcnt].
  split; [exact Htot|]. split; [exact Hcnt|].
  split; [apply average_returns|]. split; [apply average_overflows|].
  apply average_empty.
Qed.

(** Two updates of different weights: 2.0 for three examples and 4.0 for
    one add up to a total of 10.0 over 4 examples, of average 2.5. *)
Lemma AverageMeter_average_is_total_over_count_witness :
  ∃ m,
    AverageMeter.updates AverageMeter.init [(2%float, 3); (4%float, 1)] = Ok m ∧
    AverageMeter.total m = 10%float ∧
    AverageMeter.count m = 4 ∧
    AverageMeter.average m = Ok 2.5%float.
Proof.
  destruct (AverageMeter_average_is_total_over_count
              [(2%float, 3); (4%float, 1)] AverageMeter.init)
    as (m & Hrun & Htot & Hcnt & Hpos & _).
  - repeat constructor.
  - exists m. split; [exact Hrun|]. split; [exact Htot|]. split; [exact Hcnt|].
    destruct Hpos as [Havg _]; [rewrite Hcnt; split; reflexivity|].
    rewrite Havg, Htot, Hcnt. reflexivity.
Defined.

(** C4, as stated, fails on a large count: after two updates of [2^1023]
    examples each, [count] is [2^1024], which is positive, and
    [average()] raises OverflowError, [float(count)] being out of the
    range of the floats. *)
Lemma AverageMeter_average_raises_on_a_positive_count :
  ∃ m,
    AverageMeter.updates AverageMeter.init
      [(0%float, 2 ^ 1023); (0%float, 2 ^ 1023)] = Ok m ∧
    AverageMeter.count m = 2 ^ 1024 ∧
    0 < AverageMeter.count m ∧
    AverageMeter.average m = Raise OverflowError.
Proof.
  eexists. split; [vm_compute; reflexivity|].
  split; [reflexivity|]. split; reflexivity.
Qed.

Section AverageMeter_merge.
Import AverageMeter.

Lemma merge_fold (ms : list t) (c : Z) (s : float) :
  fold_left merge_step ms (c, s) = (c + counts ms, float_sum s (map total ms)).
Proof.
  revert c s. induction ms as [|m ms IH]; intros c s; simpl.
  - unfold counts. simpl. f_equal. lia.
  - change (fold_left merge_step ms (merge_step (c, s) m)
            = (c + counts (m :: ms), float_sum s (map total (m :: ms)))).
    unfold merge_step at 2. rewrite IH. unfold counts. simpl. f_equal. lia.
Qed.

Lemma merge_fields (m : t) (ms : list t) :
  merge m ms = mk (float_sum (total m) (map total ms)) (count m + counts ms).
Proof. unfold merge. rewrite merge_fold. reflexivity. Qed.

Lemma counts_app (xs ys : list t) : counts (xs ++ ys) = counts xs + counts ys.
Proof.
  unfold counts. induction xs as [|x xs IH]; simpl; [reflexivity|].
  rewrite IH. lia.
Qed.

Lemma counts_perm (xs ys : list t) : xs ≡ₚ ys → counts xs = counts ys.
Proof.
  unfold counts.
  induction 1 as [|x xs ys _ IH|x y xs|xs ys zs _ IH1 _ IH2]; simpl; lia.
Qed.

Lemma float_sum_app (s : float) (xs ys : list float) :
  float_sum s (xs ++ ys) = float_sum (float_sum s xs) ys.
Proof. unfold float_sum. apply fold_left_app. Qed.

Lemma merge_merge (a : t) (xs ys : list t) :
  merge (merge a xs) ys = merge a (xs ++ ys).
Proof.
  rewrite !merge_fields. simpl.
  rewrite map_app, float_sum_app, counts_app. f_equal. lia.
Qed.

Lemma merge_pair_comm (a b : t) : merge a [b] = merge b [a].
Proof.
  rewrite !merge_fields. unfold counts, float_sum. simpl.
  rewrite float_add_comm. f_equal. lia.
Qed.

Lemma merge_count_regroup (a b : t) (xs ys : list t) :
  count (merge a (merge b xs :: ys)) = count (merge a (b :: xs ++ ys)).
Proof.
  rewrite !merge_fields. simpl. unfold counts. simpl.
  fold (counts ys). fold (counts (xs ++ ys)). fold (counts xs).
  rewrite counts_app. lia.
Qed.

Lemma merge_count_perm (a a' : t) (xs xs' : list t) :
  a :: xs ≡ₚ a' :: xs' → count (merge a xs) = count (merge a' xs').
Proof.
  intros Hp. apply counts_perm in Hp. rewrite !merge_fields. simpl.
  unfold counts in *. simpl in Hp. exact Hp.
Qed.
End AverageMeter_merge.

(** C5, as the code has it.  [merge] sums the counts and sums the totals,
    left to right, in float arithmetic: (count=5, total=10) merged with
    (count=3, total=9) is (count=8, total=19), of average 2.375.  The
    resulting count does not depend on the order or the grouping of the
    meters; merging two meters is commutative, and merging in successive
    steps is merging the concatenated list.  The total is the float sum
    of the totals taken from the left, and with three meters or more it
    depends on their order, without any bound on the difference: the
    totals 2^1023, 2^1023 and -2^1023 add up to infinity in that order,
    and to 2^1023 when the negative one comes second or when the last
    two are merged first. *)
Theorem AverageMeter_merge_sums
    (a b a' : AverageMeter.t) (xs ys xs' : list AverageMeter.t) :
  AverageMeter.merge a xs
    = AverageMeter.mk (float_sum (AverageMeter.total a) (map AverageMeter.total xs))
                      (AverageMeter.count a + counts xs) ∧
  AverageMeter.merge (AverageMeter.merge a xs) ys = AverageMeter.merge a (xs ++ ys) ∧
  AverageMeter.merge a [b] = AverageMeter.merge b [a] ∧
  AverageMeter.count (AverageMeter.merge a (AverageMeter.merge b xs :: ys))
    = AverageMeter.count (AverageMeter.merge a (b :: xs ++ ys)) ∧
  (a :: xs ≡ₚ a' :: xs' →
   AverageMeter.count (AverageMeter.merge a xs)
     = AverageMeter.count (AverageMeter.merge a' xs')) ∧
  AverageMeter.merge (AverageMeter.mk 10 5) [AverageMeter.mk 9 3]
    = AverageMeter.mk 19 8 ∧
  AverageMeter.average (AverageMeter.mk 19 8) = Ok 2.375%float ∧
  AverageMeter.merge (AverageMeter.mk 0x1p1023 1)
    [AverageMeter.mk 0x1p1023 1; AverageMeter.mk (-0x1p1023) 1]
    = AverageMeter.mk infinity 3 ∧
  AverageMeter.merge (AverageMeter.mk 0x1p1023 1)
    [AverageMeter.mk (-0x1p1023) 1; AverageMeter.mk 0x1p1023 1]
    = AverageMeter.mk 0x1p1023 3 ∧
  AverageMeter.merge (AverageMeter.mk 0x1p1023 1)
    [AverageMeter.merge (AverageMeter.mk 0x1p1023 1)
       [AverageMeter.mk (-0x1p1023) 1]]
    = AverageMeter.mk 0x1p1023 3.
Proof.
  split; [apply merge_fields|].
  split; [apply merge_merge|].
  split; [apply merge_pair_comm|].
  split; [apply merge_count_regroup|].
  split; [apply merge_count_perm|].
  repeat split; reflexivity.
Qed.

Lemma AverageMeter_merge_sums_witness :
  AverageMeter.count
    (AverageMeter.merge (AverageMeter.mk 10 5)
       [AverageMeter.mk 9 3; AverageMeter.mk 1 2])
  = AverageMeter.count
      (AverageMeter.merge (AverageMeter.mk 1 2)
         [AverageMeter.mk 10 5; AverageMeter.mk 9 3]).
Proof.
  refine (proj1 (proj2 (proj2 (proj2 (proj2
    (AverageMeter_merge_sums (AverageMeter.mk 10 5) (AverageMeter.mk 9 3)
       (AverageMeter.mk 1 2)
       [AverageMeter.mk 9 3; AverageMeter.mk 1 2] []
       [AverageMeter.mk 10 5; AverageMeter.mk 9 3]))))) _).
  change [AverageMeter.mk 10 5; AverageMeter.mk 9 3; AverageMeter.mk 1 2]
    with ([AverageMeter.mk 10 5; AverageMeter.mk 9 3] ++ [AverageMeter.mk 1 2]).
  apply Permutation_app_comm.
Defined.

(** C5, as stated, fails on the totals: with totals 2^53, 1 and 1 the
    merged total depends on the order of the meters and on their
    grouping. *)
Lemma AverageMeter_merge_total_depends_on_order :
  AverageMeter.merge (AverageMeter.mk 9007199254740992 1)
    [AverageMeter.mk 1 1; AverageMeter.mk 1 1]
  ≠ AverageMeter.merge (AverageMeter.mk 1 1)
      [AverageMeter.mk 1 1; AverageMeter.mk 9007199254740992 1]
  ∧
  AverageMeter.merge (AverageMeter.mk 9007199254740992 1)
    [AverageMeter.mk 1 1; AverageMeter.mk 1 1]
  ≠ AverageMeter.merge (AverageMeter.mk 9007199254740992 1)
      [AverageMeter.merge (AverageMeter.mk 1 1) [AverageMeter.mk 1 1]].
Proof.
  split; intros Heq;
    apply (f_equal (fun m => PrimFloat.eqb (AverageMeter.total m)
                               9007199254740992)) in Heq;
    vm_compute in Heq; discriminate Heq.
Qed.

(** ** TensorMeter2 and the state dicts of the meters *)

(** For the meters that keep their count in the state dict, loading the
    state dict of a meter rebuilds that meter. *)
Lemma AverageMeter_load_state_dict (x y : AverageMeter.t) :
  AverageMeter.load_state_dict x (AverageMeter.state_dict y) = y.
Proof. destruct y. reflexivity. Qed.

Lemma TensorMeter_load_state_dict (x y : TensorMeter.t) :
  TensorMeter.load_state_dict x (TensorMeter.state_dict y) = y.
Proof. destruct y. reflexivity. Qed.

Lemma TensorMeter2_init_count (values : option Tensor) :
  TensorMeter2.count (TensorMeter2.init values)
  = numel (LazyFlattedTensor.make values).
Proof. reflexivity. Qed.

Lemma TensorMeter2_guarded_empty `{TorchOps} {A} (m : TensorMeter2.t)
    (f : Tensor → A) :
  TensorMeter2.count m = 0 → TensorMeter2.guarded m f = Raise EmptyMeterError.
Proof. intros Hc. unfold TensorMeter2.guarded. rewrite Hc. reflexivity. Qed.

(** C10.  [TensorMeter2.load_state_dict] replaces the stored values and
    leaves [count] as it was: it is not recomputed from the loaded values.
    Loaded into a new, empty meter, a state leaves [count == 0], and every
    read accessor still raises EmptyMeterError, whatever values the state
    holds. *)
Theorem TensorMeter2_load_state_dict_keeps_count `{TorchOps}
    (m : TensorMeter2.t) (state_dict : TensorMeter2.state)
    (q : Tensor) (method : string) :
  TensorMeter2.values (TensorMeter2.load_state_dict m state_dict)
    = TensorMeter2.st_values state_dict ∧
  TensorMeter2.count (TensorMeter2.load_state_dict m state_dict)
    = TensorMeter2.count m ∧
  let x := TensorMeter2.load_state_dict (TensorMeter2.init None) state_dict in
  TensorMeter2.count x = 0 ∧
  TensorMeter2.mean x = Raise EmptyMeterError ∧
  TensorMeter2.average x = Raise EmptyMeterError ∧
  TensorMeter2.max x = Raise EmptyMeterError ∧
  TensorMeter2.min x = Raise EmptyMeterError ∧
  TensorMeter2.median x = Raise EmptyMeterError ∧
  TensorMeter2.std x = Raise EmptyMeterError ∧
  TensorMeter2.sum x = Raise EmptyMeterError ∧
  TensorMeter2.quantile x q method = Raise EmptyMeterError.
Proof.
  split; [reflexivity|]. split; [reflexivity|].
  intros x.
  assert (Hc : TensorMeter2.count x = 0) by reflexivity.
  split; [exact Hc|].
  repeat split; apply TensorMeter2_guarded_empty; exact Hc.
Qed.

(** C7, on the code.  Let [Y] be a new [TensorMeter2] updated with the
    tensor [1., 2.], and [X] a new one that loaded [Y.state_dict()].
    [X] holds the values of [Y], and [X.equal(Y)] only compares those; but
    [X.count] is 0 where [Y.count] is 2, and [X.mean()] raises
    EmptyMeterError where [Y.mean()] returns: the state dict did not
    rebuild the meter. *)
Theorem TensorMeter2_state_dict_loses_count `{TorchOps} :
  let Y := TensorMeter2.update (TensorMeter2.init None) [1; 2]%float in
  let X := TensorMeter2.load_state_dict (TensorMeter2.init None)
             (TensorMeter2.state_dict Y) in
  TensorMeter2.values X = TensorMeter2.values Y ∧
  TensorMeter2.equal X Y = objects_are_equal [1; 2]%float [1; 2]%float ∧
  TensorMeter2.count Y = 2 ∧
  TensorMeter2.count X = 0 ∧
  TensorMeter2.mean Y = Ok (torch_mean [1; 2]%float) ∧
  TensorMeter2.mean X = Raise EmptyMeterError ∧
  X ≠ Y.
Proof.
  intros Y X. repeat split; try reflexivity.
  intros Heq. apply (f_equal TensorMeter2.count) in Heq. discriminate Heq.
Qed.

(** ** deque and GenericHistory *)

Section deque_facts.
Context {A : Type}.
Implicit Types (l k : list A) (d : deque.t A) (x : A).

Lemma lastn_ge (n : nat) l : (length l ≤ n)%nat → lastn n l = l.
Proof.
  intros Hle. unfold lastn.
  replace (length l - n)%nat with 0%nat by lia. reflexivity.
Qed.

Lemma lastn_length (n : nat) l : length (lastn n l) = Nat.min n (length l).
Proof. unfold lastn. rewrite length_drop. lia. Qed.

Lemma lastn_min (n : nat) l : lastn (Nat.min (length l) n) l = lastn n l.
Proof.
  unfold lastn. f_equal. lia.
Qed.

(** Keeping the last [n] items, adding items, and keeping the last [n]
    again keeps the last [n] items of the whole. *)
Lemma lastn_app_lastn (n : nat) l k : lastn n (lastn n l ++ k) = lastn n (l ++ k).
Proof.
  destruct (decide (length l ≤ n)%nat) as [Hle|Hgt].
  - rewrite (lastn_ge n l Hle). reflexivity.
  - unfold lastn at 1 3. rewrite length_app, lastn_length, length_app.
    replace (Nat.min n (length l) + length k - n)%nat with (length k) by lia.
    unfold lastn.
    rewrite !drop_app, drop_drop, length_drop.
    f_equal; f_equal; lia.
Qed.

Lemma deque_append_items d x :
  (length (deque.items d) ≤ deque.maxlen d)%nat →
  deque.items (deque.append d x)
  = lastn (deque.maxlen d) (deque.items d ++ [x]).
Proof.
  intros Hle. unfold deque.append. simpl.
  destruct (Nat.ltb_spec (deque.maxlen d) (length (deque.items d ++ [x])))
    as [Hlt|Hge].
  - rewrite length_app in Hlt. simpl in Hlt.
    unfold lastn. rewrite length_app. simpl.
    replace (length (deque.items d) + 1 - deque.maxlen d)%nat with 1%nat by lia.
    destruct (deque.items d ++ [x]); reflexivity.
  - rewrite lastn_ge; [reflexivity | exact Hge].
Qed.

Lemma deque_append_maxlen d x : deque.maxlen (deque.append d x) = deque.maxlen d.
Proof. reflexivity. Qed.

Lemma deque_append_bounded d x :
  (length (deque.items d) ≤ deque.maxlen d)%nat →
  (length (deque.items (deque.append d x)) ≤ deque.maxlen d)%nat.
Proof.
  intros Hle. rewrite deque_append_items by exact Hle.
  rewrite lastn_length. lia.
Qed.

(** Appending a sequence of items to a deque within its bound leaves the
    last [maxlen] items of what it held followed by what was appended. *)
Lemma deque_appends d k :
  (length (deque.items d) ≤ deque.maxlen d)%nat →
  let d' := fold_left deque.append k d in
  deque.maxlen d' = deque.maxlen d ∧
  deque.items d' = lastn (deque.maxlen d) (deque.items d ++ k).
Proof.
  revert d. induction k as [|x k IH]; intros d Hle; simpl.
  - split; [reflexivity|]. rewrite app_nil_r, lastn_ge; [reflexivity|exact Hle].
  - destruct (IH (deque.append d x)) as [Hmax Hitems].
    { rewrite deque_append_maxlen. apply deque_append_bounded, Hle. }
    rewrite deque_append_maxlen in Hmax, Hitems.
    split; [exact Hmax|].
    rewrite Hitems, deque_append_items by exact Hle.
    rewrite lastn_app_lastn, <- app_assoc. reflexivity.
Qed.

Lemma deque_make (iterable : list A) (maxlen : nat) :
  deque.maxlen (deque.make iterable maxlen) = maxlen ∧
  deque.items (deque.make iterable maxlen) = lastn maxlen iterable.
Proof.
  unfold deque.make.
  destruct (deque_appends (deque.mk [] maxlen) iterable) as [Hm Hi].
  { simpl. lia. }
  split; [exact Hm | exact Hi].
Qed.
End deque_facts.

Section GenericHistory_facts.
Context {T : Type}.
Implicit Types (h : GenericHistory.t T) (calls : list (T * option Z)).

Lemma add_values_history h calls :
  GenericHistory.history (GenericHistory.add_values h calls)
  = fold_left deque.append (map stored calls) (GenericHistory.history h).
Proof.
  revert h. induction calls as [|c calls IH]; intros h; simpl; [reflexivity|].
  unfold GenericHistory.add_values in *. simpl. rewrite IH. reflexivity.
Qed.

Lemma init_positive (name : string) (elements : list (option Z * T)) (m : Z) :
  0 < m ≤ 2 ^ 63 - 1 →
  GenericHistory.init name elements m
  = Ok (GenericHistory.mk name (deque.make elements (Z.to_nat m))).
Proof.
  intros Hm. unfold GenericHistory.init.
  destruct (Z.leb_spec m 0); [lia|].
  destruct (Z.ltb_spec (2 ^ 63 - 1) m); [lia | reflexivity].
Qed.

Lemma init_not_positive (name : string) (elements : list (option Z * T)) (m : Z) :
  m ≤ 0 → GenericHistory.init name elements m = Raise ValueError.
Proof.
  intros Hm. unfold GenericHistory.init.
  destruct (Z.leb_spec m 0); [reflexivity | lia].
Qed.

Lemma init_too_large (name : string) (elements : list (option Z * T)) (m : Z) :
  2 ^ 63 - 1 < m → GenericHistory.init name elements m = Raise OverflowError.
Proof.
  intros Hm. unfold GenericHistory.init.
  destruct (Z.leb_spec m 0); [lia|].
  destruct (Z.ltb_spec (2 ^ 63 - 1) m); [reflexivity | lia].
Qed.

Lemma history_init_inv (name : string) (elements : list (option Z * T)) (m : Z) h :
  GenericHistory.init name elements m = Ok h →
  0 < m ≤ 2 ^ 63 - 1 ∧
  h = GenericHistory.mk name (deque.make elements (Z.to_nat m)).
Proof.
  unfold GenericHistory.init. intros Hinit.
  destruct (Z.leb_spec m 0); [discriminate|].
  destruct (Z.ltb_spec (2 ^ 63 - 1) m); [discriminate|].
  injection Hinit as <-. split; [lia | reflexivity].
Qed.

(** The histories the constructor and the methods make hold at most
    [max_size] pairs, and [max_size] is positive. *)
Lemma built_bounded h :
  GenericHistory_built h →
  (0 < deque.maxlen (GenericHistory.history h))%nat ∧
  (length (deque.items (GenericHistory.history h))
   ≤ deque.maxlen (GenericHistory.history h))%nat.
Proof.
  induction 1 as [name elements m h Hinit|h value step _ [IHp IHb]
                 |h state_dict _ [IHp IHb]].
  - apply history_init_inv in Hinit as [Hm ->]. simpl.
    destruct (deque_make elements (Z.to_nat m)) as [-> ->].
    rewrite lastn_length. lia.
  - unfold GenericHistory.add_value. cbn [GenericHistory.history].
    rewrite deque_append_maxlen. split; [exact IHp|].
    apply deque_append_bounded, IHb.
  - unfold GenericHistory.load_state_dict. cbn [GenericHistory.history].
    destruct (deque_make state_dict (deque.maxlen (GenericHistory.history h)))
      as [-> ->].
    rewrite lastn_length. lia.
Qed.

(** A history within its bound retains, after some calls, the last
    [max_size] pairs of those it held followed by the pairs added. *)
Lemma add_values_bounded h calls :
  (length (deque.items (GenericHistory.history h))
   ≤ deque.maxlen (GenericHistory.history h))%nat →
  GenericHistory.max_size (GenericHistory.add_values h calls)
  = GenericHistory.max_size h ∧
  GenericHistory.get_recent_history (GenericHistory.add_values h calls)
  = lastn (Z.to_nat (GenericHistory.max_size h))
      (GenericHistory.get_recent_history h ++ map stored calls).
Proof.
  intros Hb. unfold GenericHistory.max_size, GenericHistory.get_recent_history.
  rewrite add_values_history.
  destruct (deque_appends (GenericHistory.history h) (map stored calls) Hb)
    as [Hmax Hitems].
  rewrite Hmax, Hitems, Nat2Z.id. split; reflexivity.
Qed.

(** The history retains the last [max_size] pairs of the initial elements
    followed by the pairs added. *)
Lemma add_values_recent (name : string) (elements : list (option Z * T))
    (m : Z) calls :
  0 < m ≤ 2 ^ 63 - 1 →
  ∃ h, GenericHistory.init name elements m = Ok h ∧
       GenericHistory.max_size h = m ∧
       GenericHistory.get_recent_history (GenericHistory.add_values h calls)
       = lastn (Z.to_nat m) (elements ++ map stored calls).
Proof.
  intros Hm. eexists. split; [apply init_positive, Hm|].
  destruct (deque_make elements (Z.to_nat m)) as [Hmax Hitems].
  split.
  - unfold GenericHistory.max_size. simpl. rewrite Hmax. lia.
  - unfold GenericHistory.get_recent_history. rewrite add_values_history. simpl.
    destruct (deque_appends (deque.make elements (Z.to_nat m)) (map stored calls))
      as [_ Happ].
    { rewrite Hitems, Hmax, lastn_length. lia. }
    rewrite Happ, Hmax, Hitems. apply lastn_app_lastn.
Qed.
End GenericHistory_facts.

(** C8, as the code has it.  [GenericHistory(name, elements, max_size=m)]
    raises ValueError when [m <= 0] and OverflowError when
    [m > 2^63 - 1], the largest bound a deque takes.  Otherwise, after
    any sequence of [n] calls [add_value(value, step)] on the new
    history, the retained history is the last [min(k + n, m)] pairs of
    the [k] initial elements followed by the [n] pairs [(step, value)]
    added, in that order; without initial elements it is the last
    [min(n, m)] pairs added, and with [m = 2], after three calls, the last
    two pairs.  More generally every history made by the constructor,
    [add_value] and [load_state_dict] retains, after further calls, the
    last [max_size] pairs of those it held followed by the pairs added,
    and keeps its [max_size]. *)
Theorem GenericHistory_retains_last_max_size {T : Type}
    (name : string) (m : Z) (elements : list (option Z * T))
    (calls : list (T * option Z)) (v1 v2 v3 : T) (s1 s2 s3 : option Z) :
  (m ≤ 0 → GenericHistory.init name elements m = Raise ValueError) ∧
  (2 ^ 63 - 1 < m → GenericHistory.init name elements m = Raise OverflowError) ∧
  (0 < m ≤ 2 ^ 63 - 1 →
   ∃ h, GenericHistory.init name elements m = Ok h ∧
        GenericHistory.max_size h = m ∧
        GenericHistory.get_recent_history (GenericHistory.add_values h calls)
        = lastn (Nat.min (length elements + length calls) (Z.to_nat m))
            (elements ++ map stored calls)) ∧
  (0 < m ≤ 2 ^ 63 - 1 →
   ∃ h, GenericHistory.init name [] m = Ok h ∧
        GenericHistory.get_recent_history (GenericHistory.add_values h calls)
        = lastn (Nat.min (length calls) (Z.to_nat m)) (map stored calls)) ∧
  (∃ h, GenericHistory.init name [] 2 = Ok h ∧
        GenericHistory.get_recent_history
          (GenericHistory.add_value
             (GenericHistory.add_value (GenericHistory.add_value h v1 s1) v2 s2)
             v3 s3)
        = [(s2, v2); (s3, v3)]) ∧
  (∀ h, GenericHistory_built h →
        GenericHistory.max_size (GenericHistory.add_values h calls)
        = GenericHistory.max_size h ∧
        GenericHistory.get_recent_history (GenericHistory.add_values h calls)
        = lastn (Z.to_nat (GenericHistory.max_size h))
            (GenericHistory.get_recent_history h ++ map stored calls)).
Proof.
  split; [apply init_not_positive|]. split; [apply init_too_large|].
  split; [|split; [|split]].
  - intros Hm.
    destruct (add_values_recent name elements m calls Hm)
      as (h & Hinit & Hmax & Hrec).
    exists h. split; [exact Hinit|]. split; [exact Hmax|].
    rewrite Hrec.
    rewrite <- (lastn_min (Z.to_nat m)), length_app, length_map. reflexivity.
  - intros Hm.
    destruct (add_values_recent name [] m calls Hm) as (h & Hinit & Hmax & Hrec).
    exists h. split; [exact Hinit|].
    rewrite Hrec. simpl.
    rewrite <- (lastn_min (Z.to_nat m)), length_map. reflexivity.
  - eexists. split; reflexivity.
  - intros h Hbuilt. apply add_values_bounded, built_bounded, Hbuilt.
Qed.

Lemma GenericHistory_retains_last_max_size_witness :
  GenericHistory.init "loss" (@nil (option Z * Z)) 0 = Raise ValueError ∧
  GenericHistory.init "loss" (@nil (option Z * Z)) (2 ^ 63) = Raise OverflowError ∧
  ∃ h, GenericHistory.init "loss" [(Some 0, 9); (Some 1, 10)] 3 = Ok h ∧
       GenericHistory.max_size h = 3 ∧
       GenericHistory.get_recent_history
         (GenericHistory.add_values h
            [(11, None); (12, Some 2); (13, Some 3); (14, Some 4)])
       = [(Some 2, 12); (Some 3, 13); (Some 4, 14)].
Proof.
  split; [|split].
  - refine (proj1 (GenericHistory_retains_last_max_size "loss" 0 [] []
                     0 0 0 None None None) _). lia.
  - refine (proj1 (proj2 (GenericHistory_retains_last_max_size "loss" (2 ^ 63)
                            [] [] 0 0 0 None None None)) _). reflexivity.
  - refine (proj1 (proj2 (proj2 (GenericHistory_retains_last_max_size "loss" 3
      [(Some 0, 9); (Some 1, 10)]
      [(11, None); (12, Some 2); (13, Some 3); (14, Some 4)]
      0 0 0 None None None))) _). split; [lia | discriminate].
Defined.

(** C8, as stated, fails on a history that was given initial elements:
    constructed with one element and [max_size = 3], after one call of
    [add_value] it retains two pairs, and not the last [min(1, 3)] pairs
    added. *)
Lemma GenericHistory_retains_the_initial_elements :
  ∃ h, GenericHistory.init "loss" [(Some 0, 7)] 3 = Ok h ∧
       GenericHistory.max_size h = 3 ∧
       GenericHistory.get_recent_history (GenericHistory.add_values h [(8, Some 1)])
       = [(Some 0, 7); (Some 1, 8)] ∧
       GenericHistory.get_recent_history (GenericHistory.add_values h [(8, Some 1)])
       ≠ lastn (Nat.min 1 3) (map stored [(8, Some 1)]).
Proof.
  eexists. split; [reflexivity|]. split; [reflexivity|]. split; [reflexivity|].
  discriminate.
Qed.

(** ** PeriodicCondition *)

Section PeriodicCondition_facts.
Import PeriodicCondition.

Lemma call_step (c : t) : step (snd (call c)) = step c + 1 ∧ freq (snd (call c)) = freq c.
Proof. split; reflexivity. Qed.

Lemma calls_length (c : t) (n : nat) : length (calls c n) = n.
Proof.
  revert c. induction n as [|n IH]; intros c; simpl; [reflexivity|].
  rewrite IH. reflexivity.
Qed.

(** The answer of call number [i] (counted from 0) tests the counter the
    condition started with, plus [i]. *)
Lemma calls_lookup (c : t) (n i : nat) :
  (i < n)%nat →
  calls c n !! i = Some ((step c + Z.of_nat i) mod freq c =? 0).
Proof.
  revert c i. induction n as [|n IH]; intros c i Hi; [lia|].
  destruct i as [|i]; simpl.
  - rewrite Z.add_0_r. reflexivity.
  - rewrite IH by lia. simpl. do 3 f_equal. lia.
Qed.

Lemma nth_call_value (f : Z) (k : nat) :
  1 ≤ f → (1 ≤ k)%nat →
  nth_call f k = Some ((Z.of_nat k - 1) mod f =? 0).
Proof.
  intros Hf Hk. unfold nth_call, init.
  destruct (Z.ltb_spec f 1); [lia|].
  rewrite calls_lookup by lia. simpl. do 3 f_equal. lia.
Qed.

Lemma mod_zero_iff (f x : Z) :
  1 ≤ f → 0 ≤ x → (x mod f = 0 ↔ ∃ j, 0 ≤ j ∧ x = j * f).
Proof.
  intros Hf Hx. split.
  - intros Hm. exists (x / f). split.
    + apply Z.div_pos; lia.
    + pose proof (Z.div_mod x f ltac:(lia)). lia.
  - intros (j & _ & ->). apply Z.mod_mul. lia.
Qed.
End PeriodicCondition_facts.

(** C2, as the tests have it.  A [PeriodicCondition(freq)], [freq >= 1],
    starts with its counter at 0; every call tests the counter, then
    increments it: call number [k] (counted from 1) returns true exactly
    when [(k - 1) % freq == 0], that is on calls 1, freq+1, 2*freq+1, ...
    With [freq = 3], ten calls yield
    [True, False, False, True, False, False, True, False, False, True]. *)
Theorem PeriodicCondition_true_every_freq_calls (freq : Z) (k : nat) :
  1 ≤ freq → (1 ≤ k)%nat →
  (∃ c, PeriodicCondition.init freq = Ok c ∧ PeriodicCondition.step c = 0) ∧
  (∀ c, PeriodicCondition.step (snd (PeriodicCondition.call c))
        = PeriodicCondition.step c + 1) ∧
  PeriodicCondition.nth_call freq k = Some ((Z.of_nat k - 1) mod freq =? 0) ∧
  (PeriodicCondition.nth_call freq k = Some true
   ↔ ∃ j, 0 ≤ j ∧ Z.of_nat k = j * freq + 1) ∧
  PeriodicCondition.calls (PeriodicCondition.mk 3 0) 10
  = [true; false; false; true; false; false; true; false; false; true].
Proof.
  intros Hf Hk. split.
  { unfold PeriodicCondition.init. destruct (Z.ltb_spec freq 1); [lia|].
    eexists. split; reflexivity. }
  split; [intros c; apply call_step|].
  split; [apply nth_call_value; assumption|].
  split; [|reflexivity].
  rewrite nth_call_value by assumption.
  split.
  - intros Heq. injection Heq as Heq. apply Z.eqb_eq in Heq.
    apply mod_zero_iff in Heq as (j & Hj & Hx); [|lia|lia].
    exists j. split; [exact Hj | lia].
  - intros (j & Hj & Hx). f_equal. apply Z.eqb_eq.
    apply mod_zero_iff; [lia|lia|]. exists j. split; [exact Hj | lia].
Qed.

Lemma PeriodicCondition_true_every_freq_calls_witness :
  PeriodicCondition.nth_call 3 4 = Some true ∧
  PeriodicCondition.nth_call 3 5 = Some false.
Proof.
  split.
  - exact (proj1 (proj2 (proj2
      (PeriodicCondition_true_every_freq_calls 3 4 ltac:(lia) ltac:(lia))))).
  - exact (proj1 (proj2 (proj2
      (PeriodicCondition_true_every_freq_calls 3 5 ltac:(lia) ltac:(lia))))).
Defined.

(** C2, as stated, fails: were the answer "counter % freq == 0" with the
    counter at 1 on the first call, the first call of a condition of
    frequency 3 would answer false, and ten calls would yield
    [False, False, True, ...]; the first call answers true. *)
Lemma PeriodicCondition_counter_is_not_one_on_first_call :
  PeriodicCondition.nth_call 3 1 = Some true ∧
  PeriodicCondition.nth_call 3 1 ≠ Some (1 mod 3 =? 0) ∧
  PeriodicCondition.calls_counter_from_one (PeriodicCondition.mk 3 0) 10
  = [false; false; true; false; false; true; false; false; true; false] ∧
  PeriodicCondition.calls_counter_from_one (PeriodicCondition.mk 3 0) 10
  ≠ PeriodicCondition.calls (PeriodicCondition.mk 3 0) 10.
Proof.
  split; [reflexivity|]. split; [discriminate|]. split; [reflexivity|discriminate].
Qed.

(** ** The vanilla training loop *)

Section VanillaTrainingLoop_facts.
Import VanillaTrainingLoop.
Context {Batch Output : Type}.
Variable model : Batch → Output.
Variable loss_isnan : Output → bool.

(** The calls of a batch, when the loss is NaN. *)
Lemma train_one_batch_nan_run (self : t) (batch : Batch) :
  loss_isnan (model batch) = true →
  run (_train_one_batch model loss_isnan self batch)
  = (model batch,
     [FireEvent TRAIN_ITERATION_STARTED; ZeroGrad (set_grad_to_none self);
      DevicePlacementSend; Forward; FireEvent TRAIN_FORWARD_COMPLETED;
      LoggerWarning; FireEvent TRAIN_ITERATION_COMPLETED]).
Proof.
  intros Hnan. unfold run, _train_one_batch, mbind, M_bind, emit, mret, M_ret.
  simpl. rewrite Hnan. reflexivity.
Qed.

(** The calls of a batch, when the loss is not NaN. *)
Lemma train_one_batch_run (self : t) (batch : Batch) :
  loss_isnan (model batch) = false →
  run (_train_one_batch model loss_isnan self batch)
  = (model batch,
     [FireEvent TRAIN_ITERATION_STARTED; ZeroGrad (set_grad_to_none self);
      DevicePlacementSend; Forward; FireEvent TRAIN_FORWARD_COMPLETED; Backward]
     ++ clip_calls self
     ++ [FireEvent TRAIN_BACKWARD_COMPLETED; OptimizerStep;
         FireEvent TRAIN_ITERATION_COMPLETED]).
Proof.
  intros Hnan. unfold run, _train_one_batch, mbind, M_bind, emit, mret, M_ret.
  simpl. rewrite Hnan. unfold clip_calls.
  destruct (clip_grad_fn self); reflexivity.
Qed.
End VanillaTrainingLoop_facts.

(** C1.  On a batch whose loss is NaN, [_train_one_batch] fires exactly
    TRAIN_ITERATION_STARTED, TRAIN_FORWARD_COMPLETED and
    TRAIN_ITERATION_COMPLETED, in that order, and never
    TRAIN_BACKWARD_COMPLETED; it runs no backward pass, no gradient
    clipping and no optimizer step; it returns the output of the model. *)
Theorem train_one_batch_nan_skips_backward {Batch Output : Type}
    (model : Batch → Output) (loss_isnan : Output → bool)
    (self : VanillaTrainingLoop.t) (batch : Batch) :
  loss_isnan (model batch) = true →
  let (output, log) :=
    VanillaTrainingLoop.run
      (VanillaTrainingLoop._train_one_batch model loss_isnan self batch) in
  output = model batch ∧
  VanillaTrainingLoop.fired log
  = [TRAIN_ITERATION_STARTED; TRAIN_FORWARD_COMPLETED; TRAIN_ITERATION_COMPLETED] ∧
  (TRAIN_BACKWARD_COMPLETED ∉ VanillaTrainingLoop.fired log) ∧
  (VanillaTrainingLoop.Backward ∉ log) ∧
  (∀ fn args, VanillaTrainingLoop.ClipGrad fn args ∉ log) ∧
  (VanillaTrainingLoop.OptimizerStep ∉ log).
Proof.
  intros Hnan. rewrite (train_one_batch_nan_run model loss_isnan self batch Hnan).
  split; [reflexivity|]. split; [reflexivity|].
  repeat split; try intros fn args; intros Hin;
    repeat (apply elem_of_cons in Hin as [Hin|Hin]; [discriminate Hin|]);
    apply elem_of_nil in Hin; exact Hin.
Qed.

Lemma train_one_batch_nan_skips_backward_witness :
  VanillaTrainingLoop.fired
    (snd (VanillaTrainingLoop.run
            (VanillaTrainingLoop._train_one_batch (fun _ : unit => true) id
               (VanillaTrainingLoop.mk "train" (Some clip_grad_norm_)
                  [PyInt 1; PyInt 2] false) tt)))
  = [TRAIN_ITERATION_STARTED; TRAIN_FORWARD_COMPLETED; TRAIN_ITERATION_COMPLETED].
Proof.
  exact (proj1 (proj2
    (train_one_batch_nan_skips_backward (fun _ : unit => true) id
       (VanillaTrainingLoop.mk "train" (Some clip_grad_norm_)
          [PyInt 1; PyInt 2] false) tt eq_refl))).
Defined.

Ltac order_in_log :=
  eexists; split;
  [ reflexivity
  | let j := fresh "j" in
    let Hj := fresh "Hj" in
    intros j Hj; first [discriminate Hj | injection Hj as <-; lia] ].

(** C3, as the code has it.  On a batch whose loss is not NaN, the calls
    are, in order: the backward pass, then the configured
    gradient-clipping function (when one is configured), then the event
    TRAIN_BACKWARD_COMPLETED, then the optimizer step, then the event
    TRAIN_ITERATION_COMPLETED: gradient clipping is applied before
    TRAIN_BACKWARD_COMPLETED is fired. *)
Theorem train_one_batch_clips_before_backward_completed {Batch Output : Type}
    (model : Batch → Output) (loss_isnan : Output → bool)
    (self : VanillaTrainingLoop.t) (batch : Batch) :
  loss_isnan (model batch) = false →
  let (output, log) :=
    VanillaTrainingLoop.run
      (VanillaTrainingLoop._train_one_batch model loss_isnan self batch) in
  output = model batch ∧
  log = [VanillaTrainingLoop.FireEvent TRAIN_ITERATION_STARTED;
         VanillaTrainingLoop.ZeroGrad (VanillaTrainingLoop.set_grad_to_none self);
         VanillaTrainingLoop.DevicePlacementSend;
         VanillaTrainingLoop.Forward;
         VanillaTrainingLoop.FireEvent TRAIN_FORWARD_COMPLETED;
         VanillaTrainingLoop.Backward]
        ++ VanillaTrainingLoop.clip_calls self
        ++ [VanillaTrainingLoop.FireEvent TRAIN_BACKWARD_COMPLETED;
            VanillaTrainingLoop.OptimizerStep;
            VanillaTrainingLoop.FireEvent TRAIN_ITERATION_COMPLETED] ∧
  VanillaTrainingLoop.before VanillaTrainingLoop.is_backward
    (VanillaTrainingLoop.is_fire TRAIN_BACKWARD_COMPLETED) log ∧
  VanillaTrainingLoop.before (VanillaTrainingLoop.is_fire TRAIN_BACKWARD_COMPLETED)
    VanillaTrainingLoop.is_step log ∧
  VanillaTrainingLoop.before VanillaTrainingLoop.is_step
    (VanillaTrainingLoop.is_fire TRAIN_ITERATION_COMPLETED) log ∧
  (∀ fn, VanillaTrainingLoop.clip_grad_fn self = Some fn →
     VanillaTrainingLoop.before VanillaTrainingLoop.is_backward
       VanillaTrainingLoop.is_clip log ∧
     VanillaTrainingLoop.before VanillaTrainingLoop.is_clip
       (VanillaTrainingLoop.is_fire TRAIN_BACKWARD_COMPLETED) log) ∧
  (VanillaTrainingLoop.clip_grad_fn self = None →
     VanillaTrainingLoop.position VanillaTrainingLoop.is_clip log = None).
Proof.
  intros Hnan. rewrite (train_one_batch_run model loss_isnan self batch Hnan).
  split; [reflexivity|]. split; [reflexivity|].
  unfold VanillaTrainingLoop.clip_calls.
  destruct (VanillaTrainingLoop.clip_grad_fn self) as [fn|]; simpl.
  - split; [order_in_log|]. split; [order_in_log|]. split; [order_in_log|].
    split; [|discriminate].
    intros fn' _. split; order_in_log.
  - split; [order_in_log|]. split; [order_in_log|]. split; [order_in_log|].
    split; [discriminate | reflexivity].
Qed.

Lemma train_one_batch_clips_before_backward_completed_witness :
  VanillaTrainingLoop.run
    (VanillaTrainingLoop._train_one_batch (fun _ : unit => false) id
       (VanillaTrainingLoop.mk "train" (Some clip_grad_value_)
          [PyFloat 0.25] false) tt)
  = (false,
     [VanillaTrainingLoop.FireEvent TRAIN_ITERATION_STARTED;
      VanillaTrainingLoop.ZeroGrad false;
      VanillaTrainingLoop.DevicePlacementSend;
      VanillaTrainingLoop.Forward;
      VanillaTrainingLoop.FireEvent TRAIN_FORWARD_COMPLETED;
      VanillaTrainingLoop.Backward;
      VanillaTrainingLoop.ClipGrad clip_grad_value_ [PyFloat 0.25];
      VanillaTrainingLoop.FireEvent TRAIN_BACKWARD_COMPLETED;
      VanillaTrainingLoop.OptimizerStep;
      VanillaTrainingLoop.FireEvent TRAIN_ITERATION_COMPLETED]).
Proof.
  pose proof (train_one_batch_clips_before_backward_completed
    (fun _ : unit => false) id
    (VanillaTrainingLoop.mk "train" (Some clip_grad_value_) [PyFloat 0.25] false)
    tt eq_refl) as H.
  destruct (VanillaTrainingLoop.run _) as [output log].
  destruct H as (-> & -> & _). reflexivity.
Defined.

(** C3, as stated, fails: with value clipping configured, the clipping
    call is the seventh call of the batch and TRAIN_BACKWARD_COMPLETED is
    fired by the eighth, so the event is not fired before the clipping. *)
Lemma backward_completed_is_not_fired_before_clipping :
  let log :=
    snd (VanillaTrainingLoop.run
           (VanillaTrainingLoop._train_one_batch (fun _ : unit => false) id
              (VanillaTrainingLoop.mk "train" (Some clip_grad_value_)
                 [PyFloat 0.25] false) tt)) in
  VanillaTrainingLoop.position VanillaTrainingLoop.is_clip log = Some 6%nat ∧
  VanillaTrainingLoop.position
    (VanillaTrainingLoop.is_fire TRAIN_BACKWARD_COMPLETED) log = Some 7%nat ∧
  ¬ VanillaTrainingLoop.before
      (VanillaTrainingLoop.is_fire TRAIN_BACKWARD_COMPLETED)
      VanillaTrainingLoop.is_clip log.
Proof.
  intros log. split; [reflexivity|]. split; [reflexivity|].
  intros (i & Hi & Hbefore).
  assert (Hfire : VanillaTrainingLoop.position
            (VanillaTrainingLoop.is_fire TRAIN_BACKWARD_COMPLETED) log
          = Some 7%nat) by reflexivity.
  rewrite Hfire in Hi. injection Hi as <-.
  specialize (Hbefore 6%nat eq_refl). lia.
Qed.

(** ** The gradient-clipping configuration *)

Section clip_grad_facts.
Import VanillaTrainingLoop.

Lemma or_empty_empty : or_empty None = ∅ ∧ or_empty (Some ∅) = ∅.
Proof. split; [reflexivity|]. unfold or_empty. case_decide; reflexivity. Qed.

Lemma or_empty_nonempty (d : gmap string PyVal) : d ≠ ∅ → or_empty (Some d) = d.
Proof. intros Hd. unfold or_empty. case_decide; [contradiction | reflexivity]. Qed.

Lemma setup_clip_grad_empty : _setup_clip_grad ∅ = Ok (None, []).
Proof. unfold _setup_clip_grad. case_decide; [reflexivity | contradiction]. Qed.

Lemma setup_clip_grad_named (d : gmap string PyVal) (name : PyVal) :
  d !! "name"%string = Some name →
  _setup_clip_grad d
  = if eq_str name "clip_grad_value" then
      Ok (Some clip_grad_value_, [get d "clip_value" (PyFloat 0.25)])
    else if eq_str name "clip_grad_norm" then
      Ok (Some clip_grad_norm_,
          [get d "max_norm" (PyInt 1); get d "norm_type" (PyInt 2)])
    else Raise ValueError.
Proof.
  intros Hname. unfold _setup_clip_grad.
  case_decide as Hd; [rewrite Hd, lookup_empty in Hname; discriminate|].
  rewrite Hname. reflexivity.
Qed.

Lemma named_nonempty (d : gmap string PyVal) (name : PyVal) :
  d !! "name"%string = Some name → d ≠ ∅.
Proof. intros Hname ->. rewrite lookup_empty in Hname. discriminate. Qed.

Lemma eq_str_false (v : PyVal) (s : string) : v ≠ PyStr s → eq_str v s = false.
Proof.
  intros Hv. destruct v as [| | | |s']; try reflexivity. simpl.
  destruct (String.eqb_spec s' s) as [->|]; [contradiction | reflexivity].
Qed.

Lemma init_named (sg : bool) (tag : string) (d : gmap string PyVal) (name : PyVal) :
  d !! "name"%string = Some name →
  init sg tag (Some d)
  = ('(fn, args) ← _setup_clip_grad d; Ok (mk tag fn args sg)).
Proof.
  intros Hname. unfold init. rewrite or_empty_nonempty; [reflexivity|].
  eapply named_nonempty, Hname.
Qed.
End clip_grad_facts.

(** C6.  At the construction of the loop, the configuration
    [{"name": "clip_grad_value"}] resolves to the value-clipping function
    with the arguments [(0.25,)], [{"name": "clip_grad_norm"}] to the
    norm-clipping function with the arguments [(1, 2)], and no or an empty
    configuration to no clipping; a configuration whose name is neither
    of the two makes the construction raise ValueError, so that no loop
    exists to process a batch. *)
Theorem clip_grad_resolution
    (set_grad_to_none : bool) (tag : string)
    (clip_grad : gmap string PyVal) (name : PyVal) :
  VanillaTrainingLoop.init set_grad_to_none tag
    (Some {["name"%string := PyStr "clip_grad_value"]})
  = Ok (VanillaTrainingLoop.mk tag (Some clip_grad_value_) [PyFloat 0.25]
          set_grad_to_none) ∧
  VanillaTrainingLoop.init set_grad_to_none tag
    (Some {["name"%string := PyStr "clip_grad_norm"]})
  = Ok (VanillaTrainingLoop.mk tag (Some clip_grad_norm_) [PyInt 1; PyInt 2]
          set_grad_to_none) ∧
  VanillaTrainingLoop.init set_grad_to_none tag None
  = Ok (VanillaTrainingLoop.mk tag None [] set_grad_to_none) ∧
  VanillaTrainingLoop.init set_grad_to_none tag (Some ∅)
  = Ok (VanillaTrainingLoop.mk tag None [] set_grad_to_none) ∧
  (clip_grad !! "name"%string = Some name →
   name ≠ PyStr "clip_grad_value" → name ≠ PyStr "clip_grad_norm" →
   VanillaTrainingLoop.init set_grad_to_none tag (Some clip_grad)
   = Raise ValueError).
Proof.
  split.
  { erewrite init_named by apply lookup_singleton_eq.
    erewrite setup_clip_grad_named by apply lookup_singleton_eq.
    unfold VanillaTrainingLoop.get. rewrite lookup_singleton_ne by discriminate.
    reflexivity. }
  split.
  { erewrite init_named by apply lookup_singleton_eq.
    erewrite setup_clip_grad_named by apply lookup_singleton_eq.
    unfold VanillaTrainingLoop.get. rewrite !lookup_singleton_ne by discriminate.
    reflexivity. }
  split.
  { unfold VanillaTrainingLoop.init. rewrite (proj1 or_empty_empty).
    rewrite setup_clip_grad_empty. reflexivity. }
  split.
  { unfold VanillaTrainingLoop.init. rewrite (proj2 or_empty_empty).
    rewrite setup_clip_grad_empty. reflexivity. }
  intros Hname Hv Hn.
  erewrite init_named by exact Hname.
  erewrite setup_clip_grad_named by exact Hname.
  rewrite (eq_str_false _ _ Hv), (eq_str_false _ _ Hn). reflexivity.
Qed.

Lemma clip_grad_resolution_witness :
  VanillaTrainingLoop.init false "train" (Some {["name"%string := PyStr "bogus"]})
  = Raise ValueError.
Proof.
  refine (proj2 (proj2 (proj2 (proj2
    (clip_grad_resolution false "train" {["name"%string := PyStr "bogus"]}
       (PyStr "bogus")))))
    _ _ _).
  - reflexivity.
  - discriminate.
  - discriminate.
Defined.

(** ** The batch loading timer *)

Section BatchLoadingTimer_facts.
Import BatchLoadingTimer.
Context {M : Type} `{ScalarMeterOps M}.
Implicit Types (self : BatchLoadingTimer.t M).

Lemma get_stats_empty self :
  sm_count (meter self) = 0 → get_stats self = Ok ∅.
Proof. intros Hc. unfold get_stats. rewrite Hc. reflexivity. Qed.

Lemma log_stats_empty self (engine : bool) :
  sm_count (meter self) = 0 → log_stats self engine = Ok [].
Proof. intros Hc. unfold log_stats. rewrite Hc. reflexivity. Qed.

Lemma is_ok_inv {A} (c : result A) : is_ok c = true → ∃ a, c = Ok a.
Proof. destruct c as [a|e]; [eauto | discriminate]. Qed.

Lemma documented_keys_dom (v1 v2 v3 v4 v5 v6 v7 v8 v9 : PyVal) :
  dom (<[BATCH_LOAD_TIME_AVG_MS := v1]>
      (<[BATCH_LOAD_TIME_MAX_MS := v2]>
      (<[BATCH_LOAD_TIME_MEDIAN_MS := v3]>
      (<[BATCH_LOAD_TIME_MIN_MS := v4]>
      (<[BATCH_LOAD_TIME_PCT := v5]>
      (<[BATCH_LOAD_TIME_STDDEV_MS := v6]>
      (<[ITER_TIME_AVG_MS := v7]>
      (<[EPOCH_TIME_SEC := v8]>
      (<[NUM_BATCHES := v9]> (∅ : gmap string PyVal))))))))))
  = list_to_set documented_keys.
Proof.
  rewrite !dom_insert_L, dom_empty_L. unfold documented_keys. simpl.
  set_solver.
Qed.

(** With a batch observed, the iteration run to its end, a non-zero
    average iteration time and a meter that can be read, [get_stats]
    returns a dict whose keys are the nine documented ones. *)
Lemma get_stats_keys self (it : float) :
  sm_count (meter self) ≠ 0 →
  iter_time_avg_ms self = Ok it →
  PrimFloat.is_zero it = false →
  readable (meter self) →
  ∃ stats, get_stats self = Ok stats ∧ dom stats = list_to_set documented_keys.
Proof.
  intros Hc Hit Hz (Ha & Hmx & Hmd & Hmn & Hsd).
  apply is_ok_inv in Ha as [a Ha]. apply is_ok_inv in Hmx as [mx Hmx].
  apply is_ok_inv in Hmd as [md Hmd]. apply is_ok_inv in Hmn as [mn Hmn].
  apply is_ok_inv in Hsd as [sd Hsd].
  unfold iter_time_avg_ms in Hit.
  apply result_bind_inv in Hit as (ep & Hep & Hit).
  unfold get_stats.
  destruct (sm_count (meter self) =? 0) eqn:E; [apply Z.eqb_eq in E; contradiction|].
  rewrite Hep. simpl. rewrite Hit. simpl.
  rewrite Ha, Hmx, Hmd, Hmn. simpl.
  unfold truediv. rewrite Hz. simpl. rewrite Hsd. simpl.
  eexists. split; [reflexivity|]. apply documented_keys_dom.
Qed.

(** What a returned [get_stats] tells. *)
Lemma get_stats_inv self (stats : gmap string PyVal) :
  get_stats self = Ok stats →
  (sm_count (meter self) = 0 ∧ stats = ∅) ∨
  (sm_count (meter self) ≠ 0 ∧
   dom stats = list_to_set documented_keys ∧
   stats !! NUM_BATCHES = Some (PyInt (sm_count (meter self))) ∧
   ∃ s e, start_time self = Some s ∧ end_time self = Some e ∧
          stats !! EPOCH_TIME_SEC = Some (PyFloat (e - s)%float)).
Proof.
  unfold get_stats. intros Hs.
  destruct (Z.eqb_spec (sm_count (meter self)) 0) as [Hz|Hnz].
  - left. injection Hs as <-. split; [exact Hz | reflexivity].
  - right. split; [exact Hnz|].
    apply result_bind_inv in Hs as (ep & Hep & Hs).
    apply result_bind_inv in Hs as (it & Hit & Hs).
    apply result_bind_inv in Hs as (a & Ha & Hs).
    apply result_bind_inv in Hs as (mx & Hmx & Hs).
    apply result_bind_inv in Hs as (md & Hmd & Hs).
    apply result_bind_inv in Hs as (mn & Hmn & Hs).
    apply result_bind_inv in Hs as (pct & Hpct & Hs).
    apply result_bind_inv in Hs as (sd & Hsd & Hs).
    injection Hs as <-.
    split; [apply documented_keys_dom|]. split; [reflexivity|].
    unfold sub_opt in Hep.
    destruct (end_time self) as [e|]; [|discriminate].
    destruct (start_time self) as [s|]; [|discriminate].
    injection Hep as <-. exists s, e. repeat split.
Qed.

(** What a returned [log_stats] has done. *)
Lemma log_stats_inv self (engine : bool) (effects : list effect) :
  log_stats self engine = Ok effects →
  (sm_count (meter self) = 0 ∧ effects = []) ∨
  (sm_count (meter self) ≠ 0 ∧
   ∃ stats, get_stats self = Ok stats ∧
            effects
            = [LoggerInfo; LoggerInfo] ++
              (if engine
               then [EngineLogMetrics (prefixed (prefix self) stats) (epoch self)]
               else [])).
Proof.
  unfold log_stats. intros Hlog.
  destruct (Z.eqb_spec (sm_count (meter self)) 0) as [Hz|Hnz].
  - left. injection Hlog as <-. split; [exact Hz | reflexivity].
  - right. split; [exact Hnz|].
    apply result_bind_inv in Hlog as (stats & Hs & Hlog).
    apply result_bind_inv in Hlog as (ep & Hep & Hlog).
    apply result_bind_inv in Hlog as ([] & _ & Hlog).
    injection Hlog as <-. exists stats. split; [exact Hs | reflexivity].
Qed.
End BatchLoadingTimer_facts.

(** With the scalar meter above, a pass over [n] batches run to its end
    leaves the count of the meter at [n] and both times recorded. *)
Lemma iter_batches_count (self : BatchLoadingTimer.t ScalarMeter.t) (tic : float)
    (readings : list (float * float)) :
  let self' := BatchLoadingTimer.iter_batches self tic readings in
  ScalarMeter.count (BatchLoadingTimer.meter self')
  = ScalarMeter.count (BatchLoadingTimer.meter self) + Z.of_nat (length readings) ∧
  BatchLoadingTimer.start_time self' = BatchLoadingTimer.start_time self ∧
  BatchLoadingTimer.end_time self' = BatchLoadingTimer.end_time self.
Proof.
  revert self tic. induction readings as [|[arrived resumed] rest IH];
    intros self tic; simpl.
  - repeat split. lia.
  - destruct (IH (BatchLoadingTimer.iter_batch self tic arrived) resumed)
      as (Hc & Hs & He).
    rewrite Hc, Hs, He. simpl. repeat split. lia.
Qed.

Lemma iterate_count (epoch : Z) (prefix : string) (start stop : float)
    (readings : list (float * float)) :
  let self := BatchLoadingTimer.iterate
                (BatchLoadingTimer.init (M := ScalarMeter.t) epoch prefix)
                start readings stop in
  sm_count (BatchLoadingTimer.meter self) = Z.of_nat (length readings) ∧
  BatchLoadingTimer.start_time self = Some start ∧
  BatchLoadingTimer.end_time self = Some stop.
Proof.
  unfold BatchLoadingTimer.iterate. simpl.
  destruct (iter_batches_count
              (BatchLoadingTimer.iter_start
                 (BatchLoadingTimer.init (M := ScalarMeter.t) epoch prefix) start)
              start readings) as (Hc & Hs & He).
  simpl in *. rewrite Hc, Hs. repeat split.
Qed.

(** The scalar meter above can be read as soon as its count is not zero
    and converts to a float that is not zero. *)
Lemma ScalarMeter_readable (m : ScalarMeter.t) (c : float) :
  ScalarMeter.count m ≠ 0 →
  float_of_int (ScalarMeter.count m) = Ok c →
  PrimFloat.is_zero c = false →
  BatchLoadingTimer.readable m.
Proof.
  intros Hc Hf Hz.
  unfold BatchLoadingTimer.readable. simpl.
  unfold ScalarMeter.average, ScalarMeter.max, ScalarMeter.median,
    ScalarMeter.min, ScalarMeter.std, ScalarMeter.guarded.
  destruct (Z.eqb_spec (ScalarMeter.count m) 0) as [?|_]; [contradiction|].
  unfold truediv_int. rewrite Hf. simpl. unfold truediv. rewrite Hz.
  repeat split.
Qed.

(** C9, as the code has it.  When the meter of the timer has counted no
    batch, [get_stats()] returns the empty dict and [log_stats()] logs
    nothing and does not call [engine.log_metrics], whatever the meter.
    When the meter, the scalar meter above, has counted a batch and the
    average iteration time that [get_stats()] computes first,
    [1000 * (end - start) / count], is a float that is not zero (which
    takes both times, so the pass run to its end, as the docstring asks),
    [get_stats()] returns a dict with the nine documented keys. *)
Theorem BatchLoadingTimer_stats {M : Type} `{ScalarMeterOps M}
    (timer : BatchLoadingTimer.t M) (engine : bool)
    (self : BatchLoadingTimer.t ScalarMeter.t) (it : float) :
  (sm_count (BatchLoadingTimer.meter timer) = 0 →
   BatchLoadingTimer.get_stats timer = Ok ∅ ∧
   BatchLoadingTimer.log_stats timer engine = Ok []) ∧
  (sm_count (BatchLoadingTimer.meter self) ≠ 0 →
   BatchLoadingTimer.iter_time_avg_ms self = Ok it →
   PrimFloat.is_zero it = false →
   ∃ stats,
     BatchLoadingTimer.get_stats self = Ok stats ∧
     dom stats = list_to_set BatchLoadingTimer.documented_keys).
Proof.
  split.
  - intros Hc. split; [apply get_stats_empty | apply log_stats_empty]; exact Hc.
  - intros Hc Hit Hz.
    apply (get_stats_keys self it Hc Hit Hz).
    unfold BatchLoadingTimer.iter_time_avg_ms in Hit.
    apply result_bind_inv in Hit as (ep & _ & Hit).
    unfold truediv_int in Hit.
    apply result_bind_inv in Hit as (c & Hf & Hdiv).
    unfold truediv in Hdiv.
    destruct (PrimFloat.is_zero c) eqn:Hzc; [discriminate|].
    exact (ScalarMeter_readable _ c Hc Hf Hzc).
Qed.

Lemma BatchLoadingTimer_stats_witness :
  (BatchLoadingTimer.get_stats
     (BatchLoadingTimer.iterate
        (BatchLoadingTimer.init (M := ScalarMeter.t) 0 "train/") 1 [] 2)
   = Ok ∅ ∧
   BatchLoadingTimer.log_stats
     (BatchLoadingTimer.iterate
        (BatchLoadingTimer.init (M := ScalarMeter.t) 0 "train/") 1 [] 2) true
   = Ok []) ∧
  ∃ stats,
    BatchLoadingTimer.get_stats
      (BatchLoadingTimer.iterate
         (BatchLoadingTimer.init (M := ScalarMeter.t) 0 "train/")
         1 [(1.5, 2); (2.25, 3)]%float 3.5)
    = Ok stats ∧
    dom stats = list_to_set BatchLoadingTimer.documented_keys.
Proof.
  pose proof (BatchLoadingTimer_stats
    (BatchLoadingTimer.iterate
       (BatchLoadingTimer.init (M := ScalarMeter.t) 0 "train/") 1 [] 2)
    true
    (BatchLoadingTimer.iterate
       (BatchLoadingTimer.init (M := ScalarMeter.t) 0 "train/")
       1 [(1.5, 2); (2.25, 3)]%float 3.5)
    1250) as [Hempty Hstats].
  split.
  - apply Hempty. reflexivity.
  - apply Hstats.
    + vm_compute. discriminate.
    + reflexivity.
    + reflexivity.
Defined.

(** C9, as stated, fails on a timer that has observed a batch: after a
    pass over one batch, run to its end, during which the clock did not
    advance, the average iteration time is zero and [get_stats()] raises
    ZeroDivisionError. *)
Lemma BatchLoadingTimer_get_stats_raises_after_a_batch :
  sm_count
    (BatchLoadingTimer.meter
       (BatchLoadingTimer.iterate
          (BatchLoadingTimer.init (M := ScalarMeter.t) 0 "train/")
          1 [(1, 1)]%float 1)) = 1 ∧
  BatchLoadingTimer.end_time
    (BatchLoadingTimer.iterate
       (BatchLoadingTimer.init (M := ScalarMeter.t) 0 "train/")
       1 [(1, 1)]%float 1) = Some 1%float ∧
  BatchLoadingTimer.get_stats
    (BatchLoadingTimer.iterate
       (BatchLoadingTimer.init (M := ScalarMeter.t) 0 "train/")
       1 [(1, 1)]%float 1) = Raise ZeroDivisionError.
Proof. repeat split. Qed.

(** ** Supporting facts *)

(** The Accelerate loop orders the two calls as the vanilla loop does:
    the clipping function is called before TRAIN_BACKWARD_COMPLETED is
    fired. *)
Lemma accelerate_train_one_batch_run {Batch Output : Type}
    (model : Batch → Output) (loss_isnan : Output → bool)
    (self : VanillaTrainingLoop.t) (batch : Batch) :
  loss_isnan (model batch) = false →
  VanillaTrainingLoop.run
    (AccelerateTrainingLoop._train_one_batch model loss_isnan self batch)
  = (model batch,
     [VanillaTrainingLoop.FireEvent TRAIN_ITERATION_STARTED;
      VanillaTrainingLoop.ZeroGrad (VanillaTrainingLoop.set_grad_to_none self);
      VanillaTrainingLoop.Forward;
      VanillaTrainingLoop.FireEvent TRAIN_FORWARD_COMPLETED;
      VanillaTrainingLoop.Backward]
     ++ VanillaTrainingLoop.clip_calls self
     ++ [VanillaTrainingLoop.FireEvent TRAIN_BACKWARD_COMPLETED;
         VanillaTrainingLoop.OptimizerStep;
         VanillaTrainingLoop.FireEvent TRAIN_ITERATION_COMPLETED]).
Proof.
  intros Hnan.
  unfold VanillaTrainingLoop.run, AccelerateTrainingLoop._train_one_batch,
    mbind, VanillaTrainingLoop.M_bind, VanillaTrainingLoop.emit, mret,
    VanillaTrainingLoop.M_ret.
  simpl. rewrite Hnan. unfold VanillaTrainingLoop.clip_calls. simpl.
  destruct (VanillaTrainingLoop.clip_grad_fn self); reflexivity.
Qed.

(** A history within its bound is rebuilt from its state dict by a
    history of the same name and maximum size. *)
Lemma GenericHistory_load_state_dict {T : Type} (x y : GenericHistory.t T) :
  GenericHistory.name x = GenericHistory.name y →
  GenericHistory.max_size x = GenericHistory.max_size y →
  (length (GenericHistory.get_recent_history y)
   ≤ deque.maxlen (GenericHistory.history y))%nat →
  GenericHistory.load_state_dict x (GenericHistory.state_dict y) = y.
Proof.
  destruct x as [nx [ix mx]], y as [ny [iy my]].
  unfold GenericHistory.max_size, GenericHistory.load_state_dict,
    GenericHistory.state_dict, GenericHistory.get_recent_history. simpl.
  intros -> Hm Hle. assert (mx = my) as -> by lia.
  destruct (deque_make iy my) as [Hmax Hitems].
  destruct (deque.make iy my) as [i m]. simpl in *. subst.
  rewrite lastn_ge by exact Hle. reflexivity.
Qed.

(** * Further properties of the code *)

(** ** AverageMeter *)

Section AverageMeter_store.
Import AverageMeter.
Implicit Types (σ : gmap nat t) (self meter : nat) (m s x : t).

(** One turn of the loop of [merge_]: the count and the total of [self]
    grow by those of the meter read, as they were before the turn, also
    when the meter read is [self]. *)
Lemma merge_step_inplace σ self meter s x :
  σ !! self = Some s → σ !! meter = Some x →
  merge_step_ self σ meter
  = Some (<[self := mk (total s + total x)%float (count s + count x)]> σ).
Proof.
  intros Hs Hx. unfold merge_step_.
  rewrite Hs. cbn [mbind option_bind]. rewrite Hx. cbn [mbind option_bind].
  rewrite lookup_insert_eq. cbn [mbind option_bind total count].
  destruct (decide (self = meter)) as [<-|Hne].
  - rewrite lookup_insert_eq. cbn [mbind option_bind total count].
    rewrite insert_insert_eq.
    assert (s = x) as <- by congruence. reflexivity.
  - rewrite lookup_insert_ne, Hx by exact Hne. cbn [mbind option_bind].
    rewrite insert_insert_eq. reflexivity.
Qed.

Lemma merge_cons m x (others : list t) :
  merge m (x :: others)
  = merge (mk (total m + total x)%float (count m + count x)) others.
Proof. reflexivity. Qed.

Lemma merge_inplace_disjoint σ self (meters : list nat) m (others : list t) :
  σ !! self = Some m →
  self ∉ meters →
  Forall2 (fun a x => σ !! a = Some x) meters others →
  merge_ σ self meters = Some (<[self := merge m others]> σ).
Proof.
  revert σ m others.
  induction meters as [|a meters IH]; intros σ m others Hs Hnot Hall.
  - inversion Hall; subst. simpl. destruct m as [t c]. unfold merge. simpl.
    rewrite insert_id by exact Hs. reflexivity.
  - inversion Hall as [|? x ? xs Ha Hrest]; subst.
    apply not_elem_of_cons in Hnot as [Hne Hnot].
    cbn [merge_]. rewrite (merge_step_inplace σ self a m x Hs Ha).
    cbn [mbind option_bind].
    rewrite (IH _ (mk (total m + total x)%float (count m + count x)) xs).
    + rewrite insert_insert_eq, merge_cons. reflexivity.
    + apply lookup_insert_eq.
    + exact Hnot.
    + clear IH Hall. induction Hrest as [|b y bs ys Hb Hrest IHr];
        constructor.
      * apply not_elem_of_cons in Hnot as [Hnb _].
        rewrite lookup_insert_ne by exact Hnb. exact Hb.
      * apply IHr. apply not_elem_of_cons in Hnot as [_ Hnot]. exact Hnot.
Qed.
End AverageMeter_store.

(** X1.  [merge_], the in-place version of [merge], leaves the meter in
    the state of the meter [merge] returns, and the other meters as they
    were, when the meter is not among the meters it is given.  When it
    is, [merge_] reads the meter it is changing: merged into itself
    twice, the meter ends with four times its count, where [merge]
    returns three times the count. *)
Theorem AverageMeter_merge_inplace_unless_aliased
    (σ : gmap nat AverageMeter.t) (self : nat) (meters : list nat)
    (m : AverageMeter.t) (others : list AverageMeter.t) :
  σ !! self = Some m →
  (self ∉ meters →
   Forall2 (fun a x => σ !! a = Some x) meters others →
   AverageMeter.merge_ σ self meters
   = Some (<[self := AverageMeter.merge m others]> σ)) ∧
  AverageMeter.merge_ σ self [self; self]
  = Some (<[self := AverageMeter.mk
                      (AverageMeter.total m + AverageMeter.total m
                       + (AverageMeter.total m + AverageMeter.total m))%float
                      (4 * AverageMeter.count m)]> σ) ∧
  AverageMeter.merge m [m; m]
  = AverageMeter.mk
      (AverageMeter.total m + AverageMeter.total m + AverageMeter.total m)%float
      (3 * AverageMeter.count m).
Proof.
  intros Hs. split; [apply merge_inplace_disjoint, Hs|]. split.
  - cbn [AverageMeter.merge_].
    rewrite (merge_step_inplace σ self self m m Hs Hs). cbn [mbind option_bind].
    rewrite (merge_step_inplace _ self self _ _
               (lookup_insert_eq _ _ _) (lookup_insert_eq _ _ _)).
    cbn [mbind option_bind AverageMeter.total AverageMeter.count].
    rewrite insert_insert_eq. do 3 f_equal. lia.
  - destruct m as [t c]. unfold AverageMeter.merge. simpl. f_equal. lia.
Qed.

(** A meter of total 10 over 5 examples, at address 0, merged in place
    with the meter at address 1, of total 9 over 3 examples, and then
    with itself. *)
Lemma AverageMeter_merge_inplace_unless_aliased_witness :
  AverageMeter.merge_
    {[0%nat := AverageMeter.mk 10 5; 1%nat := AverageMeter.mk 9 3]} 0%nat [1%nat]
  = Some (<[0%nat := AverageMeter.mk 19 8]>
            {[0%nat := AverageMeter.mk 10 5; 1%nat := AverageMeter.mk 9 3]}) ∧
  AverageMeter.merge_
    {[0%nat := AverageMeter.mk 10 5; 1%nat := AverageMeter.mk 9 3]}
    0%nat [0%nat; 0%nat]
  = Some (<[0%nat := AverageMeter.mk 40 20]>
            {[0%nat := AverageMeter.mk 10 5; 1%nat := AverageMeter.mk 9 3]}) ∧
  AverageMeter.merge (AverageMeter.mk 10 5)
    [AverageMeter.mk 10 5; AverageMeter.mk 10 5]
  = AverageMeter.mk 30 15.
Proof.
  assert (Hs : ({[0%nat := AverageMeter.mk 10 5; 1%nat := AverageMeter.mk 9 3]}
                : gmap nat AverageMeter.t) !! 0%nat
               = Some (AverageMeter.mk 10 5)) by reflexivity.
  destruct (AverageMeter_merge_inplace_unless_aliased _
              0%nat [1%nat] (AverageMeter.mk 10 5) [AverageMeter.mk 9 3] Hs)
    as (Hdisjoint & Haliased & Hmerge).
  split; [|split; [exact Haliased | exact Hmerge]].
  apply Hdisjoint.
  - intros Hin. apply list_elem_of_singleton in Hin. discriminate Hin.
  - repeat constructor.
Defined.

Lemma updates_app (m : AverageMeter.t) (calls1 calls2 : list (float * Z)) :
  AverageMeter.updates m (calls1 ++ calls2)
  = (m' ← AverageMeter.updates m calls1; AverageMeter.updates m' calls2).
Proof.
  revert m. induction calls1 as [|[value n] rest IH]; intros m; simpl.
  - reflexivity.
  - destruct (AverageMeter.update m value n) as [m1|e]; simpl.
    + apply IH.
    + reflexivity.
Qed.

(** X2.  [update(value, num_examples)] returns when [num_examples]
    converts to a float, that is when [|num_examples| < 2^1024 - 2^970]:
    it adds [value * num_examples] to the total and [num_examples] to the
    count.  From there on the product [float(value) * num_examples]
    raises OverflowError, and a sequence of calls that reaches such a
    call raises it. *)
Theorem AverageMeter_update_returns_or_overflows
    (m : AverageMeter.t) (value : float) (num_examples : Z)
    (before after : list (float * Z)) :
  (Z.abs num_examples < 2 ^ 1024 - 2 ^ 970 →
   AverageMeter.update m value num_examples
   = Ok (AverageMeter.mk
           (AverageMeter.total m
            + value * AverageMeter.nearest_float num_examples)%float
           (AverageMeter.count m + num_examples))) ∧
  (2 ^ 1024 - 2 ^ 970 ≤ Z.abs num_examples →
   AverageMeter.update m value num_examples = Raise OverflowError ∧
   (Forall (fun call => Z.abs (snd call) < 2 ^ 1024 - 2 ^ 970) before →
    AverageMeter.updates m (before ++ (value, num_examples) :: after)
    = Raise OverflowError)).
Proof.
  split.
  - intros Hn. unfold AverageMeter.update, mul_int.
    destruct (proj1 (float_of_int_spec num_examples) Hn) as [-> _]. reflexivity.
  - intros Hn.
    assert (Hup : ∀ m', AverageMeter.update m' value num_examples
                        = Raise OverflowError).
    { intros m'. unfold AverageMeter.update, mul_int.
      rewrite (proj2 (float_of_int_spec num_examples) Hn). reflexivity. }
    split; [apply Hup|].
    intros Hbefore. rewrite updates_app.
    destruct (updates_returns before m Hbefore) as [m1 ->].
    simpl. rewrite Hup. reflexivity.
Qed.

Lemma AverageMeter_update_returns_or_overflows_witness :
  AverageMeter.update AverageMeter.init 2 3 = Ok (AverageMeter.mk 6 3) ∧
  AverageMeter.update AverageMeter.init 1 (2 ^ 1024) = Raise OverflowError ∧
  AverageMeter.updates AverageMeter.init [(2%float, 3); (1%float, 2 ^ 1024)]
  = Raise OverflowError.
Proof.
  split; [|split].
  - refine (proj1 (AverageMeter_update_returns_or_overflows
                     AverageMeter.init 2 3 [] []) _). reflexivity.
  - refine (proj1 (proj2 (AverageMeter_update_returns_or_overflows
                            AverageMeter.init 1 (2 ^ 1024) [] []) _)).
    discriminate.
  - refine (proj2 (proj2 (AverageMeter_update_returns_or_overflows
                            AverageMeter.init 1 (2 ^ 1024) [(2%float, 3)] []) _) _).
    + discriminate.
    + repeat constructor.
Defined.

(** ** TensorMeter2 *)

Lemma numel_app (x y : Tensor) : numel (x ++ y) = numel x + numel y.
Proof. unfold numel. rewrite length_app. lia. Qed.

Lemma numel_empty_iff (x : Tensor) : numel x = 0 ↔ x = [].
Proof.
  unfold numel. destruct x; simpl; split; intros Hx;
    try reflexivity; try discriminate; lia.
Qed.

(** X3.  The constructor, [update], [reset], [clone] and [merge] keep
    [count] equal to the number of stored values; on such a meter the
    read accessors raise EmptyMeterError exactly when no value is stored,
    and otherwise return the reduction of the stored values. *)
Theorem TensorMeter2_count_is_numel (m : TensorMeter2.t) :
  TensorMeter2_built m →
  TensorMeter2.count m = numel (TensorMeter2.values m) ∧
  ∀ ops : TorchOps,
    (TensorMeter2.mean m = Raise EmptyMeterError ↔ TensorMeter2.values m = []) ∧
    (TensorMeter2.values m ≠ [] →
     TensorMeter2.mean m = Ok (torch_mean (TensorMeter2.values m)) ∧
     TensorMeter2.max m = Ok (torch_max (TensorMeter2.values m)) ∧
     TensorMeter2.min m = Ok (torch_min (TensorMeter2.values m)) ∧
     TensorMeter2.sum m = Ok (torch_sum (TensorMeter2.values m)) ∧
     TensorMeter2.median m = Ok (torch_median (TensorMeter2.values m)) ∧
     TensorMeter2.std m = Ok (torch_std (TensorMeter2.values m))).
Proof.
  intros Hb.
  assert (Hc : TensorMeter2.count m = numel (TensorMeter2.values m)).
  { induction Hb as [v|m x _ IH|m _ _|m|m ms]; try reflexivity.
    simpl. unfold LazyFlattedTensor.update. rewrite numel_app, IH. reflexivity. }
  split; [exact Hc|]. intros ops.
  unfold TensorMeter2.mean, TensorMeter2.max, TensorMeter2.min,
    TensorMeter2.sum, TensorMeter2.median, TensorMeter2.std,
    TensorMeter2.guarded.
  rewrite Hc.
  destruct (Z.eqb_spec (numel (TensorMeter2.values m)) 0) as [Hz|Hnz].
  - apply numel_empty_iff in Hz. split.
    + split; [intros _; exact Hz | reflexivity].
    + intros Hne. contradiction.
  - split.
    + split; [discriminate|]. intros He. apply numel_empty_iff in He.
      contradiction.
    + intros _. repeat split.
Qed.

Lemma TensorMeter2_count_is_numel_witness :
  TensorMeter2.count
    (TensorMeter2.update (TensorMeter2.update (TensorMeter2.init None)
       [0; 1; 2]%float) [4; 1]%float) = 5 ∧
  TensorMeter2.count
    (TensorMeter2.reset (TensorMeter2.init (Some [1%float]))) = 0.
Proof.
  split.
  - exact (proj1 (TensorMeter2_count_is_numel _
      (built_update _ _ (built_update _ _ (built_init None))))).
  - exact (proj1 (TensorMeter2_count_is_numel _
      (built_reset _ (built_init (Some [1%float]))))).
Defined.




(** ** MovingAverage and ExponentialMovingAverage *)

Section MovingAverage_facts.
Import MovingAverage.

Lemma make_deque_ok (vs : list float) (w : Z) :
  0 ≤ w ≤ 2 ^ 63 - 1 →
  make_deque vs w = Ok (deque.make vs (Z.to_nat w)).
Proof.
  intros Hw. unfold make_deque.
  destruct (Z.ltb_spec w 0); [lia|].
  destruct (Z.ltb_spec (2 ^ 63 - 1) w); [lia | reflexivity].
Qed.

Lemma init_inv (vs : list float) (w : Z) (m : t) :
  init vs w = Ok m →
  0 ≤ w ≤ 2 ^ 63 - 1 ∧ m = mk (deque.make vs (Z.to_nat w)).
Proof.
  unfold init, make_deque. intros Hm.
  destruct (Z.ltb_spec w 0); [discriminate|].
  destruct (Z.ltb_spec (2 ^ 63 - 1) w); [discriminate|].
  injection Hm as <-. split; [lia | reflexivity].
Qed.

Lemma updates_deque (m : t) (us : list float) :
  _deque (updates m us) = fold_left deque.append us (_deque m).
Proof.
  revert m. induction us as [|u us IH]; intros m; [reflexivity|].
  unfold updates in *. simpl. rewrite IH. reflexivity.
Qed.

(** The deque of a meter made by the constructor and updated. *)
Lemma init_updates_deque (vs us : list float) (w : Z) (m : t) :
  init vs w = Ok m →
  deque.maxlen (_deque (updates m us)) = Z.to_nat w ∧
  deque.items (_deque (updates m us)) = lastn (Z.to_nat w) (vs ++ us).
Proof.
  intros Hm. apply init_inv in Hm as [_ ->].
  rewrite updates_deque. simpl.
  destruct (deque_make vs (Z.to_nat w)) as [Hmax Hitems].
  destruct (deque_appends (deque.make vs (Z.to_nat w)) us) as [Hm' Hi'].
  { rewrite Hitems, Hmax, lastn_length. lia. }
  rewrite Hm', Hi', Hmax, Hitems. split; [reflexivity|].
  apply lastn_app_lastn.
Qed.

(** A deque within its bound is the deque made of its items and bound. *)
Lemma deque_make_items {A} (d : deque.t A) :
  (length (deque.items d) ≤ deque.maxlen d)%nat →
  deque.make (deque.items d) (deque.maxlen d) = d.
Proof.
  intros Hle.
  destruct (deque_make (deque.items d) (deque.maxlen d)) as [Hmax Hitems].
  destruct (deque.make (deque.items d) (deque.maxlen d)) as [i n].
  destruct d as [i' n']. simpl in *. subst.
  rewrite lastn_ge by exact Hle. reflexivity.
Qed.

Lemma lastn_nonempty {A} (n : nat) (l : list A) :
  (0 < n)%nat → l ≠ [] → lastn n l ≠ [].
Proof.
  intros Hn Hl He. apply (f_equal length) in He.
  rewrite lastn_length in He. simpl in He.
  destruct l; [contradiction|]. simpl in He. lia.
Qed.
End MovingAverage_facts.



(** X6.  A meter made by the constructor and updated is rebuilt from its
    state dict by [load_state_dict] on any meter, whatever the window size
    of that meter: the window size is part of the state.  [clone]
    returns such a meter too. *)
Theorem MovingAverage_load_state_dict (vs us : list float) (w : Z)
    (x y : MovingAverage.t) :
  MovingAverage.init vs w = Ok y →
  MovingAverage.load_state_dict x
    (MovingAverage.state_dict (MovingAverage.updates y us))
  = Ok (MovingAverage.updates y us) ∧
  MovingAverage.clone (MovingAverage.updates y us)
  = Ok (MovingAverage.updates y us).
Proof.
  intros Hy.
  destruct (init_updates_deque vs us w y Hy) as [Hmax Hitems].
  apply init_inv in Hy as [Hw _].
  assert (Hload : MovingAverage.make_deque
            (MovingAverage.values (MovingAverage.updates y us))
            (MovingAverage.window_size (MovingAverage.updates y us))
          = Ok (MovingAverage._deque (MovingAverage.updates y us))).
  { unfold MovingAverage.window_size, MovingAverage.values.
    rewrite make_deque_ok by (rewrite Hmax; lia).
    rewrite Nat2Z.id. f_equal. apply deque_make_items.
    rewrite Hitems, Hmax, lastn_length. lia. }
  unfold MovingAverage.clone, MovingAverage.init,
    MovingAverage.load_state_dict, MovingAverage.state_dict. simpl.
  rewrite Hload. simpl.
  destruct (MovingAverage.updates y us). split; reflexivity.
Qed.

Lemma MovingAverage_load_state_dict_witness :
  MovingAverage.load_state_dict (MovingAverage.mk (deque.mk [] 7))
    (MovingAverage.state_dict
       (MovingAverage.updates (MovingAverage.mk (deque.mk [1%float] 2))
          [2; 3]%float))
  = Ok (MovingAverage.mk (deque.mk [2; 3]%float 2)).
Proof.
  exact (proj1 (MovingAverage_load_state_dict [1%float] [2; 3]%float 2
                  (MovingAverage.mk (deque.mk [] 7))
                  (MovingAverage.mk (deque.mk [1%float] 2)) eq_refl)).
Defined.

(** X7.  On a meter made by the constructor and updated,
    [smoothed_average()] returns the mean of the window as soon as the
    window size is positive and a value was given; with a window size of
    0 the updates store nothing and it raises EmptyMeterError, as it does
    after [reset]. *)
Theorem MovingAverage_smoothed_average (vs us : list float) (w : Z)
    (m : MovingAverage.t) :
  MovingAverage.init vs w = Ok m →
  ∀ ops : TorchOps,
    (w = 0 →
     MovingAverage.smoothed_average (MovingAverage.updates m us)
     = Raise EmptyMeterError) ∧
    (0 < w → vs ++ us ≠ [] →
     MovingAverage.smoothed_average (MovingAverage.updates m us)
     = Ok (torch_mean (lastn (Z.to_nat w) (vs ++ us)))) ∧
    MovingAverage.smoothed_average
      (MovingAverage.reset (MovingAverage.updates m us))
    = Raise EmptyMeterError.
Proof.
  intros Hm ops.
  destruct (init_updates_deque vs us w m Hm) as [_ Hitems].
  unfold MovingAverage.smoothed_average, MovingAverage.values.
  rewrite Hitems. split; [|split; [|reflexivity]].
  - intros ->. simpl. unfold lastn. rewrite Nat.sub_0_r, drop_all. reflexivity.
  - intros Hw Hne.
    pose proof (lastn_nonempty (Z.to_nat w) (vs ++ us) ltac:(lia) Hne) as Hl.
    destruct (lastn (Z.to_nat w) (vs ++ us)); [contradiction | reflexivity].
Qed.

Lemma MovingAverage_smoothed_average_witness :
  MovingAverage.init [] 0 = Ok (MovingAverage.mk (deque.mk [] 0)) ∧
  ∀ ops : TorchOps,
    MovingAverage.smoothed_average
      (MovingAverage.updates (MovingAverage.mk (deque.mk [] 0)) [1; 2]%float)
    = Raise EmptyMeterError.
Proof.
  split; [reflexivity|].
  exact (fun ops =>
    proj1 (MovingAverage_smoothed_average [] [1; 2]%float 0
             (MovingAverage.mk (deque.mk [] 0)) eq_refl ops) eq_refl).
Defined.

Section ExponentialMovingAverage_facts.
Import ExponentialMovingAverage.

Lemma ema_updates (m : t) (vs : list float) :
  updates m vs
  = mk (alpha m) (count m + Z.of_nat (length vs))
       (smoothing (alpha m) (_smoothed_average m) vs).
Proof.
  revert m. induction vs as [|v vs IH]; intros m.
  - destruct m. unfold updates, smoothing. simpl. f_equal. lia.
  - unfold updates in *. simpl. rewrite IH. unfold smoothing. simpl.
    f_equal. lia.
Qed.
End ExponentialMovingAverage_facts.

(** X8.  Each [update] of an [ExponentialMovingAverage] adds one to the
    count and replaces the smoothed average [s] by
    [alpha * s + (1 - alpha) * value], [alpha] being kept.  On a meter of
    count 0, [smoothed_average()] raises EmptyMeterError; after at least
    one update it returns the value of that recurrence; after [reset] it
    raises again. *)
Theorem ExponentialMovingAverage_updates
    (m : ExponentialMovingAverage.t) (vs : list float) :
  ExponentialMovingAverage.updates m vs
  = ExponentialMovingAverage.mk (ExponentialMovingAverage.alpha m)
      (ExponentialMovingAverage.count m + Z.of_nat (length vs))
      (ExponentialMovingAverage.smoothing (ExponentialMovingAverage.alpha m)
         (ExponentialMovingAverage._smoothed_average m) vs) ∧
  (ExponentialMovingAverage.count m = 0 →
   ExponentialMovingAverage.smoothed_average m = Raise EmptyMeterError ∧
   (vs ≠ [] →
    ExponentialMovingAverage.smoothed_average
      (ExponentialMovingAverage.updates m vs)
    = Ok (ExponentialMovingAverage.smoothing (ExponentialMovingAverage.alpha m)
            (ExponentialMovingAverage._smoothed_average m) vs))) ∧
  ExponentialMovingAverage.smoothed_average
    (ExponentialMovingAverage.reset (ExponentialMovingAverage.updates m vs))
  = Raise EmptyMeterError.
Proof.
  split; [apply ema_updates|]. split; [|reflexivity].
  intros Hc. split.
  - unfold ExponentialMovingAverage.smoothed_average. rewrite Hc. reflexivity.
  - intros Hne. rewrite ema_updates.
    unfold ExponentialMovingAverage.smoothed_average. simpl.
    destruct vs as [|v vs]; [contradiction|].
    rewrite Hc. simpl length.
    destruct (Z.eqb_spec (0 + Z.of_nat (S (length vs))) 0); [lia | reflexivity].
Qed.

Lemma ExponentialMovingAverage_updates_witness :
  ExponentialMovingAverage.smoothed_average
    (ExponentialMovingAverage.updates
       (ExponentialMovingAverage.init 0.5 0 0) [4; 8]%float)
  = Ok 5%float.
Proof.
  exact (proj2 (proj1 (proj2
    (ExponentialMovingAverage_updates (ExponentialMovingAverage.init 0.5 0 0)
       [4; 8]%float)) eq_refl) ltac:(discriminate)).
Defined.

(** ** GenericHistory *)

Section GenericHistory_more.
Context {T : Type}.
Implicit Types (h : GenericHistory.t T).

Lemma last_lastn {A} (n : nat) (l : list A) (x : A) :
  (0 < n)%nat → last (lastn n (l ++ [x])) = Some x.
Proof.
  intros Hn. unfold lastn. rewrite length_app. simpl.
  rewrite drop_app_le by lia.
  replace (length l + 1 - n)%nat with (length l - (n - 1))%nat by lia.
  apply last_snoc.
Qed.
End GenericHistory_more.

(** X9.  After [add_value(value, step)] on a history the code made,
    [get_last_value()] returns [value] and the history is not empty; on a
    new history without initial elements it raises EmptyHistoryError. *)
Theorem GenericHistory_get_last_value {T : Type}
    (h : GenericHistory.t T) (value : T) (step : option Z) :
  GenericHistory_built h →
  GenericHistory.get_last_value (GenericHistory.add_value h value step)
  = Ok value ∧
  GenericHistory.is_empty (GenericHistory.add_value h value step) = false ∧
  ∀ name max_size h0,
    GenericHistory.init name (@nil (option Z * T)) max_size = Ok h0 →
    GenericHistory.is_empty h0 = true ∧
    GenericHistory.get_last_value h0 = Raise EmptyHistoryError.
Proof.
  intros Hb. destruct (built_bounded h Hb) as [Hpos Hle].
  assert (Hlast : last (deque.items (GenericHistory.history
                          (GenericHistory.add_value h value step)))
                  = Some (step, value)).
  { unfold GenericHistory.add_value. cbn [GenericHistory.history].
    rewrite deque_append_items by exact Hle. apply last_lastn, Hpos. }
  assert (Hne : GenericHistory.is_empty (GenericHistory.add_value h value step)
                = false).
  { unfold GenericHistory.is_empty.
    destruct (deque.items (GenericHistory.history
                (GenericHistory.add_value h value step)));
      [discriminate Hlast | reflexivity]. }
  split; [|split; [exact Hne|]].
  - unfold GenericHistory.get_last_value. rewrite Hne, Hlast. reflexivity.
  - intros name m h0 Hinit. apply history_init_inv in Hinit as [_ ->].
    split; reflexivity.
Qed.

Lemma GenericHistory_get_last_value_witness :
  GenericHistory.get_last_value
    (GenericHistory.add_value
       (GenericHistory.mk "loss" (deque.mk [(Some 0, 7)] 1)) 9 (Some 1))
  = Ok 9.
Proof.
  exact (proj1 (GenericHistory_get_last_value
    (GenericHistory.mk "loss" (deque.mk [(Some 0, 7)] 1)) 9 (Some 1)
    (history_init "loss" [(Some 0, 7)] 1 _ eq_refl))).
Defined.

(** X10.  A history the code made (by the constructor, [add_value] and
    [load_state_dict]) never holds more than [max_size] pairs, and its
    [max_size], positive, is never changed by [add_value] or
    [load_state_dict]. *)
Theorem GenericHistory_bounded {T : Type}
    (h : GenericHistory.t T) (value : T) (step : option Z)
    (state_dict : list (option Z * T)) :
  GenericHistory_built h →
  0 < GenericHistory.max_size h ∧
  Z.of_nat (length (GenericHistory.get_recent_history h))
    ≤ GenericHistory.max_size h ∧
  GenericHistory.max_size (GenericHistory.add_value h value step)
    = GenericHistory.max_size h ∧
  GenericHistory.max_size (GenericHistory.load_state_dict h state_dict)
    = GenericHistory.max_size h.
Proof.
  intros Hb. destruct (built_bounded h Hb) as [Hpos Hle].
  unfold GenericHistory.max_size, GenericHistory.get_recent_history.
  split; [lia|]. split; [lia|]. split; [reflexivity|].
  unfold GenericHistory.load_state_dict. cbn [GenericHistory.history].
  destruct (deque_make state_dict (deque.maxlen (GenericHistory.history h)))
    as [Hmax _].
  rewrite Hmax. reflexivity.
Qed.

Lemma GenericHistory_bounded_witness :
  Z.of_nat (length (GenericHistory.get_recent_history
    (GenericHistory.load_state_dict
       (GenericHistory.mk "loss" (deque.mk [] 2))
       [(None, 1); (None, 2); (None, 3)])))
  ≤ 2.
Proof.
  exact (proj1 (proj2 (GenericHistory_bounded
    (GenericHistory.load_state_dict
       (GenericHistory.mk "loss" (deque.mk [] 2))
       [(None, 1); (None, 2); (None, 3)]) 0 None []
    (history_load_state_dict _ _
       (history_init "loss" (@nil (option Z * Z)) 2 _ eq_refl))))).
Defined.

(** X11.  [load_state_dict] keeps the name and the maximum size of the
    history it is called on, and retains the last [max_size] pairs of the
    loaded state: a history of the same name and maximum size is rebuilt
    exactly, and a history of a smaller maximum size keeps only the most
    recent pairs. *)
Theorem GenericHistory_load_state_dict_truncates {T : Type}
    (x y : GenericHistory.t T) :
  GenericHistory_built y →
  GenericHistory.name (GenericHistory.load_state_dict x (GenericHistory.state_dict y))
  = GenericHistory.name x ∧
  GenericHistory.get_recent_history
    (GenericHistory.load_state_dict x (GenericHistory.state_dict y))
  = lastn (deque.maxlen (GenericHistory.history x))
          (GenericHistory.get_recent_history y) ∧
  (GenericHistory.name x = GenericHistory.name y →
   GenericHistory.max_size x = GenericHistory.max_size y →
   GenericHistory.load_state_dict x (GenericHistory.state_dict y) = y).
Proof.
  intros Hb. destruct (built_bounded y Hb) as [_ Hle].
  split; [reflexivity|]. split.
  - unfold GenericHistory.load_state_dict, GenericHistory.get_recent_history,
      GenericHistory.state_dict. cbn [GenericHistory.history].
    apply (deque_make (deque.items (GenericHistory.history y))).
  - intros Hn Hm. apply GenericHistory_load_state_dict; assumption.
Qed.

Lemma GenericHistory_load_state_dict_truncates_witness :
  GenericHistory.get_recent_history
    (GenericHistory.load_state_dict
       (GenericHistory.mk "loss" (deque.mk [] 2))
       (GenericHistory.state_dict
          (GenericHistory.mk "loss"
             (deque.mk [(Some 1, 10); (Some 2, 20); (Some 3, 30)] 3))))
  = [(Some 2, 20); (Some 3, 30)].
Proof.
  exact (proj1 (proj2 (GenericHistory_load_state_dict_truncates
    (GenericHistory.mk "loss" (deque.mk [] 2))
    (GenericHistory.mk "loss"
       (deque.mk [(Some 1, 10); (Some 2, 20); (Some 3, 30)] 3))
    (history_init "loss" [(Some 1, 10); (Some 2, 20); (Some 3, 30)] 3 _
       eq_refl)))).
Defined.

(** ** The scalar comparators *)

Lemma SFcompare_refl (s : spec_float) :
  SFcompare s s = match s with S754_nan => None | _ => Some Eq end.
Proof.
  destruct s as [[]|[]| |[] m e]; try reflexivity; simpl;
    rewrite Z.compare_refl, Pos.compare_cont_refl; reflexivity.
Qed.

Lemma float_is_nan_spec (x : float) :
  PrimFloat.is_nan x = match Prim2SF x with S754_nan => true | _ => false end.
Proof.
  unfold PrimFloat.is_nan. rewrite FloatAxioms.eqb_spec. unfold SFeqb.
  rewrite SFcompare_refl. destruct (Prim2SF x); reflexivity.
Qed.

Lemma float_leb_refl (x : float) : (x <=? x)%float = negb (PrimFloat.is_nan x).
Proof.
  rewrite float_is_nan_spec, FloatAxioms.leb_spec. unfold SFleb.
  rewrite SFcompare_refl. destruct (Prim2SF x); reflexivity.
Qed.

Lemma float_neg_infinity_leb (x : float) :
  (neg_infinity <=? x)%float = negb (PrimFloat.is_nan x).
Proof.
  rewrite float_is_nan_spec, FloatAxioms.leb_spec. unfold SFleb.
  change (Prim2SF neg_infinity) with (S754_infinity true).
  destruct (Prim2SF x) as [[]|[]| |[] m e]; reflexivity.
Qed.

Lemma float_leb_infinity (x : float) :
  (x <=? infinity)%float = negb (PrimFloat.is_nan x).
Proof.
  rewrite float_is_nan_spec, FloatAxioms.leb_spec. unfold SFleb.
  change (Prim2SF infinity) with (S754_infinity false).
  destruct (Prim2SF x) as [[]|[]| |[] m e]; reflexivity.
Qed.

Lemma float_leb_nan (x y : float) :
  PrimFloat.is_nan x = true ∨ PrimFloat.is_nan y = true →
  (x <=? y)%float = false.
Proof.
  rewrite !float_is_nan_spec, FloatAxioms.leb_spec. unfold SFleb.
  intros [Hx|Hy].
  - destruct (Prim2SF x); try discriminate. reflexivity.
  - destruct (Prim2SF y); try discriminate.
    destruct (Prim2SF x) as [[]|[]| |[] m e]; reflexivity.
Qed.

(** X12.  For both scalar comparators, every value that is not NaN is
    better than the initial best value, and a value that is not NaN is
    better than itself (on a tie the new value wins); a NaN is never
    better than a value, and no value is better than a NaN.  The two
    comparators mirror each other. *)
Theorem ScalarComparator_initial_best_and_ties (x y : float) :
  MaxScalarComparator.is_better MaxScalarComparator.get_initial_best_value x
  = negb (PrimFloat.is_nan x) ∧
  MinScalarComparator.is_better MinScalarComparator.get_initial_best_value x
  = negb (PrimFloat.is_nan x) ∧
  MaxScalarComparator.is_better x x = negb (PrimFloat.is_nan x) ∧
  MinScalarComparator.is_better x x = negb (PrimFloat.is_nan x) ∧
  (PrimFloat.is_nan x = true ∨ PrimFloat.is_nan y = true →
   MaxScalarComparator.is_better x y = false ∧
   MinScalarComparator.is_better x y = false) ∧
  MaxScalarComparator.is_better x y = MinScalarComparator.is_better y x.
Proof.
  split; [apply float_neg_infinity_leb|].
  split; [apply float_leb_infinity|].
  split; [apply float_leb_refl|].
  split; [apply float_leb_refl|].
  split; [|reflexivity].
  intros Hnan. split; apply float_leb_nan; tauto.
Qed.

Lemma ScalarComparator_initial_best_and_ties_witness :
  MaxScalarComparator.is_better 1 nan = false ∧
  MinScalarComparator.is_better 1 nan = false.
Proof.
  exact (proj1 (proj2 (proj2 (proj2 (proj2
    (ScalarComparator_initial_best_and_ties 1 nan)))))
    (or_intror eq_refl)).
Defined.

(** ** The batch loading timer, further *)

Section BatchLoadingTimer_more.
Import BatchLoadingTimer.
Context {M : Type} `{ScalarMeterOps M}.
Implicit Types (self : BatchLoadingTimer.t M).

Lemma iter_batches_meter self (tic : float) (readings : list (float * float)) :
  let self' := iter_batches self tic readings in
  meter self' = fold_left sm_update (load_times tic readings) (meter self) ∧
  start_time self' = start_time self ∧ end_time self' = end_time self ∧
  epoch self' = epoch self ∧ prefix self' = prefix self.
Proof.
  revert self tic. induction readings as [|[arrived resumed] rest IH];
    intros self tic; simpl.
  - repeat split.
  - destruct (IH (iter_batch self tic arrived) resumed) as (Hm & Hs & He & Hep & Hp).
    rewrite Hm, Hs, He, Hep, Hp. repeat split.
Qed.

End BatchLoadingTimer_more.

(** X13.  A pass over the batches run to its end gives the meter of the
    timer one value per batch, in order: the reading at the arrival of
    the batch minus the reading taken when the consumer came back for it
    (the start reading for the first batch); it records the first reading
    as start time and the last as end time. *)
Theorem BatchLoadingTimer_iterate_updates_meter {M : Type} `{ScalarMeterOps M}
    (epoch : Z) (prefix : string) (start stop : float)
    (readings : list (float * float)) :
  let self := BatchLoadingTimer.iterate (BatchLoadingTimer.init epoch prefix)
                start readings stop in
  BatchLoadingTimer.meter self
  = fold_left sm_update (load_times start readings) (sm_new 100) ∧
  length (load_times start readings) = length readings ∧
  BatchLoadingTimer.start_time self = Some start ∧
  BatchLoadingTimer.end_time self = Some stop ∧
  BatchLoadingTimer.epoch self = epoch ∧
  BatchLoadingTimer.prefix self = prefix.
Proof.
  intros self. unfold self, BatchLoadingTimer.iterate.
  destruct (iter_batches_meter
              (BatchLoadingTimer.iter_start (BatchLoadingTimer.init epoch prefix) start)
              start readings) as (Hm & Hs & He & Hep & Hp).
  simpl in *. rewrite Hm, Hs, Hep, Hp.
  repeat split.
  clear. revert start. induction readings as [|[a r] rest IH]; intros tic; simpl;
    [reflexivity | rewrite IH; reflexivity].
Qed.

(** X14.  Whenever [get_stats()] returns, it returns either the empty
    dict, the meter having counted no batch, or a dict with the nine
    documented keys, the meter having counted a batch, where
    ["num_batches"] is the count of the meter and ["epoch_time_sec"] the
    end time minus the start time: it never returns a part of the
    statistics. *)
Theorem BatchLoadingTimer_get_stats_all_or_nothing {M : Type} `{ScalarMeterOps M}
    (self : BatchLoadingTimer.t M) (stats : gmap string PyVal) :
  BatchLoadingTimer.get_stats self = Ok stats →
  (sm_count (BatchLoadingTimer.meter self) = 0 ∧ stats = ∅) ∨
  (sm_count (BatchLoadingTimer.meter self) ≠ 0 ∧
   dom stats = list_to_set BatchLoadingTimer.documented_keys ∧
   stats !! BatchLoadingTimer.NUM_BATCHES
   = Some (PyInt (sm_count (BatchLoadingTimer.meter self))) ∧
   ∃ s e, BatchLoadingTimer.start_time self = Some s ∧
          BatchLoadingTimer.end_time self = Some e ∧
          stats !! BatchLoadingTimer.EPOCH_TIME_SEC
          = Some (PyFloat (e - s)%float)).
Proof. apply get_stats_inv. Qed.

Lemma BatchLoadingTimer_get_stats_all_or_nothing_witness :
  ∃ stats,
    BatchLoadingTimer.get_stats
      (BatchLoadingTimer.iterate
         (BatchLoadingTimer.init (M := ScalarMeter.t) 0 "train/")
         1 [(1.5, 2); (2.25, 3)]%float 3.5)
    = Ok stats ∧
    stats !! BatchLoadingTimer.NUM_BATCHES = Some (PyInt 2) ∧
    stats !! BatchLoadingTimer.EPOCH_TIME_SEC = Some (PyFloat 2.5).
Proof.
  destruct (BatchLoadingTimer.get_stats
    (BatchLoadingTimer.iterate
       (BatchLoadingTimer.init (M := ScalarMeter.t) 0 "train/")
       1 [(1.5, 2); (2.25, 3)]%float 3.5)) as [stats|e] eqn:Hstats;
    [|vm_compute in Hstats; discriminate Hstats].
  exists stats. split; [reflexivity|].
  destruct (BatchLoadingTimer_get_stats_all_or_nothing _ stats Hstats)
    as [[Hz _]|(_ & _ & Hn & s & e & Hs & He & Hep)].
  - discriminate Hz.
  - split; [exact Hn|].
    assert (Hs' : Some 1%float = Some s) by exact Hs.
    assert (He' : Some 3.5%float = Some e) by exact He.
    injection Hs' as <-. injection He' as <-. exact Hep.
Defined.

Lemma prefixed_dom (p : string) (stats : gmap string PyVal) :
  dom (BatchLoadingTimer.prefixed p stats)
  = set_map (String.append p) (dom stats : gset string).
Proof. unfold BatchLoadingTimer.prefixed. apply dom_kmap_L, _. Qed.

Lemma prefixed_lookup (p key : string) (stats : gmap string PyVal) :
  BatchLoadingTimer.prefixed p stats !! String.append p key = stats !! key.
Proof. unfold BatchLoadingTimer.prefixed. apply lookup_kmap, _. Qed.

(** X15.  Whenever [log_stats(engine)] returns, it has called
    [engine.log_metrics] at most once, and only when an engine was given
    and the meter had counted a batch: then with the epoch of the timer
    as step and, as metrics, the statistics of [get_stats()] under their
    keys prefixed with the prefix of the timer; without an engine only
    the logger is called. *)
Theorem BatchLoadingTimer_log_stats_metrics {M : Type} `{ScalarMeterOps M}
    (self : BatchLoadingTimer.t M) (engine : bool)
    (effects : list BatchLoadingTimer.effect) :
  BatchLoadingTimer.log_stats self engine = Ok effects →
  (engine = false ∨ sm_count (BatchLoadingTimer.meter self) = 0 →
   ∀ metrics step, BatchLoadingTimer.EngineLogMetrics metrics step ∉ effects) ∧
  (engine = true → sm_count (BatchLoadingTimer.meter self) ≠ 0 →
   ∃ stats,
     BatchLoadingTimer.get_stats self = Ok stats ∧
     effects
     = [BatchLoadingTimer.LoggerInfo; BatchLoadingTimer.LoggerInfo;
        BatchLoadingTimer.EngineLogMetrics
          (BatchLoadingTimer.prefixed (BatchLoadingTimer.prefix self) stats)
          (BatchLoadingTimer.epoch self)] ∧
     dom (BatchLoadingTimer.prefixed (BatchLoadingTimer.prefix self) stats)
     = set_map (String.append (BatchLoadingTimer.prefix self))
         (list_to_set BatchLoadingTimer.documented_keys : gset string) ∧
     ∀ key, BatchLoadingTimer.prefixed (BatchLoadingTimer.prefix self) stats
              !! String.append (BatchLoadingTimer.prefix self) key
            = stats !! key).
Proof.
  intros Hlog.
  destruct (log_stats_inv self engine effects Hlog)
    as [[Hz ->]|(Hnz & stats & Hs & ->)].
  - split.
    + intros _ metrics step Hin. apply elem_of_nil in Hin. exact Hin.
    + intros _ Hc. contradiction.
  - split.
    + intros [->|Hc]; [|contradiction].
      intros metrics step Hin. simpl in Hin.
      repeat (apply elem_of_cons in Hin as [Hin|Hin]; [discriminate Hin|]).
      apply elem_of_nil in Hin. exact Hin.
    + intros -> _. exists stats. split; [exact Hs|]. split; [reflexivity|].
      split; [|intros key; apply prefixed_lookup].
      rewrite prefixed_dom. f_equal.
      destruct (get_stats_inv self stats Hs) as [[Hc _]|(_ & Hdom & _)];
        [contradiction | exact Hdom].
Qed.

Lemma BatchLoadingTimer_log_stats_metrics_witness :
  BatchLoadingTimer.log_stats
    (BatchLoadingTimer.iterate
       (BatchLoadingTimer.init (M := ScalarMeter.t) 0 "train/")
       1 [(1.5, 2); (2.25, 3)]%float 3.5) false
  = Ok [BatchLoadingTimer.LoggerInfo; BatchLoadingTimer.LoggerInfo] ∧
  ∀ metrics step,
    BatchLoadingTimer.EngineLogMetrics metrics step
    ∉ [BatchLoadingTimer.LoggerInfo; BatchLoadingTimer.LoggerInfo].
Proof.
  split; [reflexivity|].
  exact (proj1 (BatchLoadingTimer_log_stats_metrics
    (BatchLoadingTimer.iterate
       (BatchLoadingTimer.init (M := ScalarMeter.t) 0 "train/")
       1 [(1.5, 2); (2.25, 3)]%float 3.5) false
    [BatchLoadingTimer.LoggerInfo; BatchLoadingTimer.LoggerInfo] eq_refl)
    (or_introl eq_refl)).
Defined.

(** A float at least 86400e9 is not NaN and is above ten. *)
Lemma float_long_epoch (x : float) :
  (86400000000000 <=? x)%float = true →
  PrimFloat.is_nan x = false ∧ (10 <? x)%float = true.
Proof.
  rewrite float_is_nan_spec, FloatAxioms.leb_spec, FloatAxioms.ltb_spec.
  change (Prim2SF 86400000000000) with (S754_finite false 5529600000000000 (-6)).
  change (Prim2SF 10) with (S754_finite false 5629499534213120 (-49)).
  unfold SFleb, SFltb.
  destruct (Prim2SF x) as [[]|[]| |[] m e]; try discriminate;
    try (split; reflexivity).
  cbn [SFcompare]. intros Hle.
  split; [reflexivity|].
  destruct (Z.compare_spec (-6) e) as [Heq|Hlt|Hgt]; [| |discriminate Hle].
  - subst e. reflexivity.
  - destruct (Z.compare_spec (-49) e) as [Heq|_|Hgt]; [lia|reflexivity|lia].
Qed.

(** [human_time] returns on a float between ten and 86400e9. *)
Lemma human_time_returns (x : float) :
  (10 <? x)%float = true → (x <? 86400000000000)%float = true →
  human_time x = Ok tt.
Proof.
  unfold human_time, PrimFloat.is_infinity.
  rewrite float_is_nan_spec, FloatAxioms.eqb_spec, abs_spec,
    FloatAxioms.leb_spec, !FloatAxioms.ltb_spec.
  change (Prim2SF 86400000000000) with (S754_finite false 5529600000000000 (-6)).
  change (Prim2SF (-86399999913600)) with (S754_finite true 5529599994470400 (-6)).
  change (Prim2SF 10) with (S754_finite false 5629499534213120 (-49)).
  change (Prim2SF infinity) with (S754_infinity false).
  unfold SFleb, SFltb, SFeqb.
  destruct (Prim2SF x) as [[]|[]| |[] m e]; try discriminate.
  cbn [SFcompare SFabs]. intros _ Hlt.
  rewrite (Z.compare_antisym e (-6)), <- (Pos.compare_cont_antisym m _ Eq).
  destruct (e ?= -6); [|reflexivity|discriminate Hlt].
  cbn [CompOpp] in *.
  destruct (Pos.compare_cont Eq m 5529600000000000); try discriminate Hlt.
  reflexivity.
Qed.

(** X23.  [log_stats] formats the epoch time before it logs anything.  Up
    to ten seconds (and for a NaN) the f-string does it, above ten
    seconds [human_time] does.  Below 86400e9 seconds [log_stats] then
    logs its two lines and, given an engine, the statistics; from 86400e9
    seconds on, [datetime.timedelta] raises OverflowError in [human_time]
    and nothing is logged. *)
Theorem BatchLoadingTimer_log_stats_long_epoch {M : Type} `{ScalarMeterOps M}
    (self : BatchLoadingTimer.t M) (engine : bool)
    (stats : gmap string PyVal) (s e : float) :
  sm_count (BatchLoadingTimer.meter self) ≠ 0 →
  BatchLoadingTimer.get_stats self = Ok stats →
  BatchLoadingTimer.start_time self = Some s →
  BatchLoadingTimer.end_time self = Some e →
  ((10 <? e - s)%float = false →
   BatchLoadingTimer.log_stats self engine
   = Ok ([BatchLoadingTimer.LoggerInfo; BatchLoadingTimer.LoggerInfo] ++
         (if engine
          then [BatchLoadingTimer.EngineLogMetrics
                  (BatchLoadingTimer.prefixed (BatchLoadingTimer.prefix self) stats)
                  (BatchLoadingTimer.epoch self)]
          else []))) ∧
  ((10 <? e - s)%float = true → (e - s <? 86400000000000)%float = true →
   BatchLoadingTimer.log_stats self engine
   = Ok ([BatchLoadingTimer.LoggerInfo; BatchLoadingTimer.LoggerInfo] ++
         (if engine
          then [BatchLoadingTimer.EngineLogMetrics
                  (BatchLoadingTimer.prefixed (BatchLoadingTimer.prefix self) stats)
                  (BatchLoadingTimer.epoch self)]
          else []))) ∧
  ((86400000000000 <=? e - s)%float = true →
   BatchLoadingTimer.log_stats self engine = Raise OverflowError).
Proof.
  intros Hc Hs Hstart Hend.
  destruct (get_stats_inv self stats Hs)
    as [[Hz _]|(_ & _ & _ & s' & e' & Hs' & He' & Hep)]; [contradiction|].
  assert (s' = s) as -> by congruence. assert (e' = e) as -> by congruence.
  unfold BatchLoadingTimer.log_stats.
  destruct (Z.eqb_spec (sm_count (BatchLoadingTimer.meter self)) 0) as [?|_];
    [contradiction|].
  rewrite Hs. cbn [mbind result_bind].
  unfold BatchLoadingTimer.item. rewrite Hep. cbn [mbind result_bind].
  split; [|split].
  - intros ->. reflexivity.
  - intros Hten Hshort. rewrite Hten, (human_time_returns _ Hten Hshort).
    reflexivity.
  - intros Hlong. destruct (float_long_epoch _ Hlong) as [Hnan ->].
    unfold human_time. rewrite Hnan, Hlong.
    destruct (PrimFloat.is_infinity (e - s)); reflexivity.
Qed.

(** A pass over one batch whose clock reads 0 at the start and 1e14 at
    the end: [get_stats] returns and [log_stats] raises. *)
Lemma BatchLoadingTimer_log_stats_long_epoch_witness :
  BatchLoadingTimer.log_stats
    (BatchLoadingTimer.iterate
       (BatchLoadingTimer.init (M := ScalarMeter.t) 0 "train/")
       0 [(1, 2)]%float 100000000000000) true
  = Raise OverflowError.
Proof.
  destruct (BatchLoadingTimer.get_stats
    (BatchLoadingTimer.iterate
       (BatchLoadingTimer.init (M := ScalarMeter.t) 0 "train/")
       0 [(1, 2)]%float 100000000000000)) as [stats|err] eqn:Hstats;
    [|vm_compute in Hstats; discriminate Hstats].
  refine (proj2 (proj2 (BatchLoadingTimer_log_stats_long_epoch
    (BatchLoadingTimer.iterate
       (BatchLoadingTimer.init (M := ScalarMeter.t) 0 "train/")
       0 [(1, 2)]%float 100000000000000) true stats 0 100000000000000
    _ Hstats eq_refl eq_refl)) _).
  - discriminate.
  - reflexivity.
Defined.

(** ** The training loops, further *)

(** X16.  On a batch whose loss is NaN, the Accelerate loop skips the
    backward pass only: unlike the vanilla loop, it still calls the
    configured clipping function, fires TRAIN_BACKWARD_COMPLETED and
    takes the optimizer step.  It fires the four events on every batch. *)
Theorem accelerate_train_one_batch_nan_still_steps {Batch Output : Type}
    (model : Batch → Output) (loss_isnan : Output → bool)
    (self : VanillaTrainingLoop.t) (batch : Batch) :
  let (output, log) :=
    VanillaTrainingLoop.run
      (AccelerateTrainingLoop._train_one_batch model loss_isnan self batch) in
  output = model batch ∧
  VanillaTrainingLoop.fired log
  = [TRAIN_ITERATION_STARTED; TRAIN_FORWARD_COMPLETED;
     TRAIN_BACKWARD_COMPLETED; TRAIN_ITERATION_COMPLETED] ∧
  (VanillaTrainingLoop.OptimizerStep ∈ log) ∧
  (∀ fn, VanillaTrainingLoop.clip_grad_fn self = Some fn →
         VanillaTrainingLoop.ClipGrad fn (VanillaTrainingLoop.clip_grad_args self)
         ∈ log) ∧
  (VanillaTrainingLoop.Backward ∈ log ↔ loss_isnan (model batch) = false) ∧
  (VanillaTrainingLoop.LoggerWarning ∈ log ↔ loss_isnan (model batch) = true).
Proof.
  unfold VanillaTrainingLoop.run, AccelerateTrainingLoop._train_one_batch,
    mbind, VanillaTrainingLoop.M_bind, VanillaTrainingLoop.emit, mret,
    VanillaTrainingLoop.M_ret.
  simpl.
  destruct (loss_isnan (model batch)); simpl;
    destruct (VanillaTrainingLoop.clip_grad_fn self) as [fn|]; simpl;
    (split; [reflexivity|]); (split; [reflexivity|]);
    (split; [repeat constructor|]);
    (split; [intros fn' Hfn; try discriminate Hfn;
             try (injection Hfn as <-; repeat constructor)|]);
    split; split; intros Hin; try reflexivity; try discriminate Hin;
    try (repeat constructor);
    repeat (apply elem_of_cons in Hin as [Hin|Hin]; [discriminate Hin|]);
    apply elem_of_nil in Hin; contradiction.
Qed.

(** X17.  A configuration that is not empty and has no ["name"] makes
    [_setup_clip_grad], and so the construction of the loop, raise
    KeyError.  Given parameters replace the defaults: with the name
    ["clip_grad_value"] the argument is the given ["clip_value"], and
    with the name ["clip_grad_norm"] the arguments are the given
    ["max_norm"] and ["norm_type"], each defaulting on its own. *)
Theorem setup_clip_grad_missing_name_and_given_parameters
    (clip_grad : gmap string PyVal) (set_grad_to_none : bool) (tag : string) :
  (clip_grad ≠ ∅ → clip_grad !! "name"%string = None →
   VanillaTrainingLoop._setup_clip_grad clip_grad = Raise KeyError ∧
   VanillaTrainingLoop.init set_grad_to_none tag (Some clip_grad)
   = Raise KeyError) ∧
  (clip_grad !! "name"%string = Some (PyStr "clip_grad_value") →
   ∀ v, clip_grad !! "clip_value"%string = Some v →
        VanillaTrainingLoop.init set_grad_to_none tag (Some clip_grad)
        = Ok (VanillaTrainingLoop.mk tag (Some clip_grad_value_) [v]
                set_grad_to_none)) ∧
  (clip_grad !! "name"%string = Some (PyStr "clip_grad_norm") →
   VanillaTrainingLoop.init set_grad_to_none tag (Some clip_grad)
   = Ok (VanillaTrainingLoop.mk tag (Some clip_grad_norm_)
           [default (PyInt 1) (clip_grad !! "max_norm"%string);
            default (PyInt 2) (clip_grad !! "norm_type"%string)]
           set_grad_to_none)).
Proof.
  split; [|split].
  - intros Hne Hname.
    assert (Hs : VanillaTrainingLoop._setup_clip_grad clip_grad = Raise KeyError).
    { unfold VanillaTrainingLoop._setup_clip_grad.
      case_decide; [contradiction|]. rewrite Hname. reflexivity. }
    split; [exact Hs|].
    unfold VanillaTrainingLoop.init. rewrite or_empty_nonempty by exact Hne.
    rewrite Hs. reflexivity.
  - intros Hname v Hv.
    erewrite init_named by exact Hname.
    erewrite setup_clip_grad_named by exact Hname.
    unfold VanillaTrainingLoop.get. rewrite Hv. reflexivity.
  - intros Hname.
    erewrite init_named by exact Hname.
    erewrite setup_clip_grad_named by exact Hname.
    unfold VanillaTrainingLoop.get.
    destruct (clip_grad !! "max_norm"%string),
             (clip_grad !! "norm_type"%string); reflexivity.
Qed.

Lemma setup_clip_grad_missing_name_and_given_parameters_witness :
  VanillaTrainingLoop.init false "train"
    (Some {["clip_value"%string := PyFloat 0.5]})
  = Raise KeyError ∧
  VanillaTrainingLoop.init false "train"
    (Some (<["clip_value"%string := PyFloat 0.5]>
             {["name"%string := PyStr "clip_grad_value"]}))
  = Ok (VanillaTrainingLoop.mk "train" (Some clip_grad_value_) [PyFloat 0.5]
          false) ∧
  VanillaTrainingLoop.init false "train"
    (Some (<["norm_type"%string := PyInt 1]>
             {["name"%string := PyStr "clip_grad_norm"]}))
  = Ok (VanillaTrainingLoop.mk "train" (Some clip_grad_norm_)
          [PyInt 1; PyInt 1] false).
Proof.
  split; [|split].
  - refine (proj2 (proj1
      (setup_clip_grad_missing_name_and_given_parameters
         {["clip_value"%string := PyFloat 0.5]} false "train") _ _)).
    + apply map_non_empty_singleton.
    + reflexivity.
  - refine (proj1 (proj2
      (setup_clip_grad_missing_name_and_given_parameters
         (<["clip_value"%string := PyFloat 0.5]>
            {["name"%string := PyStr "clip_grad_value"]}) false "train"))
      _ (PyFloat 0.5) _); reflexivity.
  - refine (proj2 (proj2
      (setup_clip_grad_missing_name_and_given_parameters
         (<["norm_type"%string := PyInt 1]>
            {["name"%string := PyStr "clip_grad_norm"]}) false "train")) _).
    reflexivity.
Defined.

(** ** Handlers and the registry of seed setters *)

Lemma registry_engine_finds_added
    (engine : gmap string (list nat)) (event : string) (handler : nat) :
  has_event_handler (add_event_handler engine event handler) handler event = true.
Proof.
  simpl. rewrite lookup_insert_eq. simpl.
  apply bool_decide_eq_true. apply elem_of_app. right. constructor.
Qed.

(** X18.  [add_unique_event_handler] adds the handler to the event only
    when the engine does not report it as added: when the engine reports
    a handler it has just added, a second call with the same event and
    handler changes nothing, and the handler is reported after the
    call. *)
Theorem add_unique_event_handler_idempotent {E H : Type} `{EngineOps E H}
    (engine : E) (event : string) (handler : H) :
  (∀ e ev h, has_event_handler (add_event_handler e ev h) h ev = true) →
  has_event_handler
    (handlers.add_unique_event_handler engine event handler) handler event
  = true ∧
  handlers.add_unique_event_handler
    (handlers.add_unique_event_handler engine event handler) event handler
  = handlers.add_unique_event_handler engine event handler ∧
  (has_event_handler engine handler event = true →
   handlers.add_unique_event_handler engine event handler = engine) ∧
  (has_event_handler engine handler event = false →
   handlers.add_unique_event_handler engine event handler
   = add_event_handler engine event handler).
Proof.
  intros Hlaw.
  assert (Hhas : has_event_handler
            (handlers.add_unique_event_handler engine event handler)
            handler event = true).
  { unfold handlers.add_unique_event_handler.
    destruct (has_event_handler engine handler event) eqn:E0;
      [exact E0 | apply Hlaw]. }
  split; [exact Hhas|]. split.
  - unfold handlers.add_unique_event_handler at 1. rewrite Hhas. reflexivity.
  - unfold handlers.add_unique_event_handler.
    split; intros ->; reflexivity.
Qed.

Lemma add_unique_event_handler_idempotent_witness :
  handlers.add_unique_event_handler
    (handlers.add_unique_event_handler
       (∅ : gmap string (list nat)) "train_epoch_started" 7%nat)
    "train_epoch_started" 7%nat
  = handlers.add_unique_event_handler
      (∅ : gmap string (list nat)) "train_epoch_started" 7%nat.
Proof.
  exact (proj1 (proj2 (add_unique_event_handler_idempotent
    (∅ : gmap string (list nat)) "train_epoch_started" 7%nat
    registry_engine_finds_added))).
Defined.

(** X19.  [RandomSeedSetter.add_setter(name, setter, exist_ok)] raises
    ValueError exactly when a setter is registered for the name and
    [exist_ok] is false, the registry being left as it was; otherwise it
    registers the setter, which [has_setter(name)] then reports, the
    other names being registered or not as before. *)
Theorem RandomSeedSetter_add_setter {S : Type}
    (registry : gmap string S) (name other : string) (setter : S)
    (exist_ok : bool) :
  (RandomSeedSetter.has_setter registry name = true → exist_ok = false →
   RandomSeedSetter.add_setter registry name setter exist_ok = Raise ValueError) ∧
  (RandomSeedSetter.has_setter registry name = false ∨ exist_ok = true →
   ∃ registry',
     RandomSeedSetter.add_setter registry name setter exist_ok = Ok registry' ∧
     registry' !! name = Some setter ∧
     RandomSeedSetter.has_setter registry' name = true ∧
     (other ≠ name →
      registry' !! other = registry !! other ∧
      RandomSeedSetter.has_setter registry' other
      = RandomSeedSetter.has_setter registry other)).
Proof.
  unfold RandomSeedSetter.add_setter. split.
  - intros -> ->. reflexivity.
  - intros Hok. exists (<[name := setter]> registry). split.
    { destruct Hok as [-> | ->]; [reflexivity|].
      rewrite andb_false_r. reflexivity. }
    split; [apply lookup_insert_eq|]. split.
    { unfold RandomSeedSetter.has_setter. apply bool_decide_eq_true.
      rewrite lookup_insert_eq. eauto. }
    intros Hne. unfold RandomSeedSetter.has_setter.
    rewrite lookup_insert_ne by congruence. split; reflexivity.
Qed.

Lemma RandomSeedSetter_add_setter_witness :
  RandomSeedSetter.add_setter ({["torch"%string := 1%nat]}) "torch" 2%nat false
  = Raise ValueError ∧
  ∃ registry',
    RandomSeedSetter.add_setter ({["torch"%string := 1%nat]}) "torch" 2%nat true
    = Ok registry' ∧
    registry' !! "torch"%string = Some 2%nat.
Proof.
  split.
  - exact (proj1 (RandomSeedSetter_add_setter {["torch"%string := 1%nat]}
             "torch" "numpy" 2%nat false) eq_refl eq_refl).
  - destruct (proj2 (RandomSeedSetter_add_setter {["torch"%string := 1%nat]}
             "torch" "numpy" 2%nat true) (or_intror eq_refl))
      as (r & Hr & Hl & _).
    exists r. split; [exact Hr | exact Hl].
Defined.

(** ** An epoch of training *)



Section train_facts.
Import BaseBasicTrainingLoop.
Context {Batch Output M : Type} `{ScalarMeterOps M}.
Variable LOSS : string.
Variable get_random_seed : Z → Z.
Variable rank : Z.
Variable _train_one_batch : nat → Batch → VanillaTrainingLoop.M Output.

Lemma count_app (p : call → bool) (xs ys : list call) :
  count p (xs ++ ys) = (count p xs + count p ys)%nat.
Proof. unfold count. rewrite List.filter_app, length_app. reflexivity. Qed.

Lemma fired_app (xs ys : list call) : fired (xs ++ ys) = fired xs ++ fired ys.
Proof. apply omap_app. Qed.

Lemma batch_traces_app (xs ys : list call) :
  batch_traces (xs ++ ys) = batch_traces xs ++ batch_traces ys.
Proof. apply omap_app. Qed.

Lemma prepare_training_calls (self : VanillaTrainingLoop.t) (engine : engine_state) :
  let calls := _prepare_training LOSS get_random_seed rank self engine in
  fired calls = [] ∧ batch_traces calls = [] ∧
  count is_barrier calls = 0%nat ∧ count is_increment calls = 0%nat ∧
  count is_timer_log calls = 0%nat ∧
  count is_add_history calls = (if has_loss_history engine then 0 else 1)%nat.
Proof.
  unfold _prepare_training. destruct (has_loss_history engine); repeat split.
Qed.

Lemma batches_calls_calls (i : nat) (batches : list Batch) :
  let calls := batches_calls _train_one_batch i batches in
  fired calls = [] ∧
  batch_traces calls = batches_traces _train_one_batch i batches ∧
  count is_barrier calls = 0%nat ∧ count is_increment calls = length batches ∧
  count is_timer_log calls = 0%nat ∧ count is_add_history calls = 0%nat.
Proof.
  revert i. induction batches as [|b rest IH]; intros i; simpl.
  - repeat split.
  - destruct (IH (S i)) as (Hf & Ht & Hb & Hi & Hl & Ha).
    unfold batch_calls.
    repeat split; simpl; try assumption.
    + f_equal. exact Ht.
    + unfold count in *. simpl. f_equal. exact Hi.
Qed.

Lemma timer_log_calls (effects : list BatchLoadingTimer.effect) :
  let calls := map TimerLog effects in
  fired calls = [] ∧ batch_traces calls = [] ∧
  count is_barrier calls = 0%nat ∧ count is_increment calls = 0%nat ∧
  count is_add_history calls = 0%nat ∧
  count is_timer_log calls = length effects.
Proof.
  induction effects as [|e effects IH]; simpl; [repeat split|].
  destruct IH as (Hf & Ht & Hb & Hi & Ha & Hl).
  repeat split; try assumption.
  unfold count in *. simpl. f_equal. exact Hl.
Qed.
End train_facts.

(** X21.  [train] runs [_train_one_batch] on every batch, in order,
    whatever the batches before returned, and increments the iteration
    once a batch; it adds a history of the loss exactly when the engine
    has none.  When the timer's [log_stats] returns, the epoch fires
    TRAIN_EPOCH_STARTED and TRAIN_EPOCH_COMPLETED, in that order, passes
    five barriers and ends on one.  When [log_stats] raises (which takes
    a batch counted by the timer), the exception leaves [train] after
    three barriers: TRAIN_EPOCH_COMPLETED is not fired. *)
Theorem train_epoch_calls {Batch Output M : Type} `{ScalarMeterOps M}
    (LOSS : string) (get_random_seed : Z → Z) (rank : Z)
    (_train_one_batch : nat → Batch → VanillaTrainingLoop.M Output)
    (self : VanillaTrainingLoop.t)
    (engine : BaseBasicTrainingLoop.engine_state)
    (start stop : float) (batches : list (Batch * (float * float))) :
  let data_loader :=
    BatchLoadingTimer.iterate
      (BatchLoadingTimer.init (M := M) (BaseBasicTrainingLoop.epoch engine)
         (VanillaTrainingLoop.tag self +:+ "/"))
      start (map snd batches) stop in
  let (calls, raised) :=
    BaseBasicTrainingLoop.train LOSS get_random_seed rank _train_one_batch
      self engine start batches stop in
  BaseBasicTrainingLoop.batch_traces calls
  = BaseBasicTrainingLoop.batches_traces _train_one_batch 0 (map fst batches) ∧
  BaseBasicTrainingLoop.count BaseBasicTrainingLoop.is_increment calls
  = length batches ∧
  BaseBasicTrainingLoop.count BaseBasicTrainingLoop.is_add_history calls
  = (if BaseBasicTrainingLoop.has_loss_history engine then 0 else 1)%nat ∧
  match raised with
  | None =>
      ∃ effects,
        BatchLoadingTimer.log_stats data_loader true = Ok effects ∧
        BaseBasicTrainingLoop.fired calls
        = [TRAIN_EPOCH_STARTED; TRAIN_EPOCH_COMPLETED] ∧
        BaseBasicTrainingLoop.count BaseBasicTrainingLoop.is_barrier calls
        = 5%nat ∧
        BaseBasicTrainingLoop.count BaseBasicTrainingLoop.is_timer_log calls
        = length effects ∧
        last calls = Some BaseBasicTrainingLoop.Barrier
  | Some e =>
      BatchLoadingTimer.log_stats data_loader true = Raise e ∧
      sm_count (BatchLoadingTimer.meter data_loader) ≠ 0 ∧
      BaseBasicTrainingLoop.fired calls = [TRAIN_EPOCH_STARTED] ∧
      BaseBasicTrainingLoop.count BaseBasicTrainingLoop.is_barrier calls
      = 3%nat ∧
      BaseBasicTrainingLoop.count BaseBasicTrainingLoop.is_timer_log calls
      = 0%nat
  end.
Proof.
  intros data_loader. unfold BaseBasicTrainingLoop.train. fold data_loader.
  destruct (prepare_training_calls LOSS get_random_seed rank self engine)
    as (Pf & Pt & Pb & Pi & Pl & Pa).
  destruct (batches_calls_calls _train_one_batch 0 (map fst batches))
    as (Bf & Bt & Bb & Bi & Bl & Ba).
  rewrite length_map in Bi.
  destruct (BatchLoadingTimer.log_stats data_loader true) as [effects|e] eqn:Hlog.
  - destruct (timer_log_calls effects) as (Lf & Lt & Lb & Li & La & Ll).
    split; [|split; [|split]].
    + rewrite !batch_traces_app, Pt, Bt, Lt. simpl. rewrite ?app_nil_r. reflexivity.
    + rewrite !count_app, Pi, Bi, Li. unfold BaseBasicTrainingLoop.count.
      simpl. lia.
    + rewrite !count_app, Pa, Ba, La. unfold BaseBasicTrainingLoop.count.
      simpl. lia.
    + exists effects. split; [reflexivity|]. split; [|split; [|split]].
      * rewrite !fired_app, Pf, Bf, Lf. reflexivity.
      * rewrite !count_app, Pb, Bb, Lb. reflexivity.
      * rewrite !count_app, Pl, Bl, Ll. unfold BaseBasicTrainingLoop.count.
        simpl. lia.
      * rewrite !last_app. reflexivity.
  - split; [|split; [|split; [|split; [|split; [|split; [|split]]]]]].
    + rewrite !batch_traces_app, Pt, Bt. simpl. rewrite ?app_nil_r. reflexivity.
    + rewrite !count_app, Pi, Bi. unfold BaseBasicTrainingLoop.count.
      simpl. lia.
    + rewrite !count_app, Pa, Ba. unfold BaseBasicTrainingLoop.count.
      simpl. lia.
    + reflexivity.
    + intros Hz. rewrite (log_stats_empty data_loader true Hz) in Hlog.
      discriminate Hlog.
    + rewrite !fired_app, Pf, Bf. reflexivity.
    + rewrite !count_app, Pb, Bb. reflexivity.
    + rewrite !count_app, Pl, Bl. reflexivity.
Qed.

Lemma optimizer_steps_cons (trace : list VanillaTrainingLoop.effect)
    (traces : list (list VanillaTrainingLoop.effect)) :
  optimizer_steps (trace :: traces)
  = (length (List.filter VanillaTrainingLoop.is_step trace)
     + optimizer_steps traces)%nat.
Proof.
  unfold optimizer_steps. simpl. rewrite List.filter_app, length_app. reflexivity.
Qed.

Lemma vanilla_trace_steps {Batch Output : Type}
    (model : Batch → Output) (loss_isnan : Output → bool)
    (self : VanillaTrainingLoop.t) (batch : Batch) :
  length (List.filter VanillaTrainingLoop.is_step
            (snd (VanillaTrainingLoop.run
                    (VanillaTrainingLoop._train_one_batch model loss_isnan
                       self batch))))
  = if loss_isnan (model batch) then 0%nat else 1%nat.
Proof.
  destruct (loss_isnan (model batch)) eqn:Hnan.
  - rewrite (train_one_batch_nan_run model loss_isnan self batch Hnan).
    reflexivity.
  - rewrite (train_one_batch_run model loss_isnan self batch Hnan).
    unfold VanillaTrainingLoop.clip_calls.
    destruct (VanillaTrainingLoop.clip_grad_fn self); reflexivity.
Qed.

Lemma accelerate_trace_steps {Batch Output : Type}
    (model : Batch → Output) (loss_isnan : Output → bool)
    (self : VanillaTrainingLoop.t) (batch : Batch) :
  length (List.filter VanillaTrainingLoop.is_step
            (snd (VanillaTrainingLoop.run
                    (AccelerateTrainingLoop._train_one_batch model loss_isnan
                       self batch))))
  = 1%nat.
Proof.
  unfold VanillaTrainingLoop.run, AccelerateTrainingLoop._train_one_batch,
    mbind, VanillaTrainingLoop.M_bind, VanillaTrainingLoop.emit, mret,
    VanillaTrainingLoop.M_ret.
  simpl.
  destruct (loss_isnan (model batch)); simpl;
    destruct (VanillaTrainingLoop.clip_grad_fn self); reflexivity.
Qed.

(** X22.  Over the batches of an epoch, whatever the model has become at
    each iteration, the vanilla loop takes as many optimizer steps as
    there are batches whose loss is not NaN (a NaN loss costs its batch
    the step, and the batches after it are trained as usual), and the
    Accelerate loop takes one step a batch. *)
Theorem epoch_optimizer_steps {Batch Output : Type}
    (model : nat → Batch → Output) (loss_isnan : Output → bool)
    (self : VanillaTrainingLoop.t) (iteration : nat) (batches : list Batch) :
  optimizer_steps
    (BaseBasicTrainingLoop.batches_traces
       (fun i batch =>
          VanillaTrainingLoop._train_one_batch (model i) loss_isnan self batch)
       iteration batches)
  = finite_losses model loss_isnan iteration batches ∧
  optimizer_steps
    (BaseBasicTrainingLoop.batches_traces
       (fun i batch =>
          AccelerateTrainingLoop._train_one_batch (model i) loss_isnan self batch)
       iteration batches)
  = length batches.
Proof.
  revert iteration. induction batches as [|batch rest IH]; intros iteration.
  - split; reflexivity.
  - destruct (IH (S iteration)) as [IHv IHa]. simpl.
    rewrite !optimizer_steps_cons, IHv, IHa.
    rewrite vanilla_trace_steps, accelerate_trace_steps. split; reflexivity.
Qed.
